(** * Bond trading pipeline: a shallow embedding of the MTH9815 services

    The first part models the C++ sources, one module per file:

    - [soa.hpp]             -> [Soa]       (listeners and [Notify])
    - [utils.hpp]           -> [Utils]     (product catalog, [ParsePriceFormat])
    - [data_generator.cpp]  -> [Generator] ([decimalToFractional])
    - [positionservice.hpp] -> [PositionStage]
    - [riskservice.hpp] and the risk sink of [connectors.hpp] -> [RiskStage]
    - [services.hpp]        -> [GUIStage], [ExecutionStage]
    - the inquiry connector of [connectors.hpp] -> [InquiryStage]
    - the line parsers of [utils.hpp] -> [Parsing]
    - [generateFractionalPrice] of [data_generator.cpp] -> [GeneratorText]
    - the file adapters of [connectors.hpp] -> [Connectors]
    - [listeners.hpp]       -> [Listeners]

    [Samples], [Terms] and [Feeds] hold the drivers, sample data and
    predicates the statements use; the second part states and proves the
    properties.

    Conventions.
    - A C++ [double] is a primitive binary64 float ([PrimFloat.float]); every
      arithmetic operation of the source is the IEEE operation with rounding
      to nearest, as on x86-64 and AArch64.
    - [int], [long] and [long long] values are integers of [Z]; an operation
      whose mathematical result leaves the type's range is undefined
      behaviour in C++ and is modelled as such.
    - A computation that dereferences [end()], indexes an empty vector or
      overflows has the outcome [Undefined].  The sources contain no
      [throw]; the constructor [Raises] exists so that a failure condition
      of the error taxonomy can be stated at all.
    - A value passed by non-const reference is returned by the callee as it
      leaves it. *)

From Stdlib Require Import ZArith List Bool Lia Ascii String DecimalString.
From Stdlib Require Import PrimFloat FloatOps SpecFloat Uint63 FloatAxioms.
From stdpp Require Import base option list gmap strings.

Set Warnings "-inexact-float".

Local Open Scope Z_scope.

(** ** Outcomes of a call *)

Inductive Condition : Set :=
| NotFound
| UnknownInstrument
| UnknownBook
| MalformedInput
| UnsupportedOperation.

Inductive outcome (A : Type) : Type :=
| Returns (a : A)
| Raises (c : Condition)
| Undefined.

Arguments Returns {A} a.
Arguments Raises {A} c.
Arguments Undefined {A}.

#[global] Instance outcome_ret : MRet outcome := fun A a => Returns a.

#[global] Instance outcome_bind : MBind outcome := fun A B k m =>
  match m with
  | Returns a => k a
  | Raises c => Raises c
  | Undefined => Undefined
  end.

(** Dereferencing the iterator returned by [find]: [end()] may not be
    dereferenced. *)
Definition deref {A : Type} (it : option A) : outcome A :=
  match it with
  | Some a => Returns a
  | None => Undefined
  end.

Definition is_Returns {A : Type} (m : outcome A) : bool :=
  match m with Returns _ => true | _ => false end.

(** ** Machine numbers *)

Module Num.

Definition INT_MAX : Z := 2147483647.
Definition INT_MIN : Z := -2147483648.
Definition LONG_MAX : Z := 9223372036854775807.
Definition LONG_MIN : Z := -9223372036854775808.

Definition in_int (z : Z) : bool := (INT_MIN <=? z) && (z <=? INT_MAX).
Definition in_long (z : Z) : bool := (LONG_MIN <=? z) && (z <=? LONG_MAX).

(** The result of a signed operation: its value when it fits, undefined
    otherwise. *)
Definition as_int (z : Z) : outcome Z := if in_int z then Returns z else Undefined.
Definition as_long (z : Z) : outcome Z := if in_long z then Returns z else Undefined.

(** Conversion of an integer to [double].  [of_uint63] rounds to nearest;
    [Uint63.of_Z] is exact below [2^63], which covers every [long] but
    [LONG_MIN] (a power of two, handled apart). *)
Definition to_double (z : Z) : float :=
  if z =? LONG_MIN then PrimFloat.opp (Z.ldexp PrimFloat.one 63)
  else if z <? 0 then PrimFloat.opp (PrimFloat.of_uint63 (Uint63.of_Z (- z)))
  else PrimFloat.of_uint63 (Uint63.of_Z z).

(** The integral part of a finite double, towards zero. *)
Definition trunc (f : float) : option Z :=
  match Prim2SF f with
  | S754_zero _ => Some 0
  | S754_finite s m e =>
      let v := if 0 <=? e then Z.pos m * 2 ^ e else Z.pos m / 2 ^ (- e) in
      Some (if s then - v else v)
  | S754_infinity _ | S754_nan => None
  end.

(** [static_cast<int>(d)] and [static_cast<long>(d)]: the truncated value
    when it is representable, undefined otherwise. *)
Definition static_cast_int (d : float) : outcome Z :=
  match trunc d with
  | Some z => as_int z
  | None => Undefined
  end.

Definition static_cast_long (d : float) : outcome Z :=
  match trunc d with
  | Some z => as_long z
  | None => Undefined
  end.

(** [std::to_string] of an integer. *)
Definition to_string (z : Z) : string := NilZero.string_of_int (Z.to_int z).

(** The value of a [char] promoted to [int] ([char] is signed on the
    platforms above). *)
Definition char_to_int (c : ascii) : Z :=
  let n := Z.of_nat (nat_of_ascii c) in
  if 128 <=? n then n - 256 else n.

(** [s.c_str()[i]]: the characters of [s], then the terminating NUL;
    reading further is undefined. *)
Definition c_str_at (s : string) (i : nat) : outcome Z :=
  match String.get i s with
  | Some c => Returns (char_to_int c)
  | None => if Nat.eqb i (String.length s) then Returns 0 else Undefined
  end.

End Num.

(** ** soa.hpp *)

Module Soa.

Section Service.
Context {V W : Type}.

(** A listener is its [ProcessAdd] callback; [ProcessRemove] and
    [ProcessUpdate] are never invoked.  [ProcessAdd] takes the value by
    reference, so it returns the value as it leaves it, together with the
    rest of the program [W] it acts on.  No listener of [listeners.hpp]
    holds a pointer to the service that notifies it, so the notifying
    service itself is not part of [W]. *)
Definition ServiceListener : Type := V -> W -> outcome (V * W).

(** [Service::OnMessage]: the base class does nothing. *)
Definition OnMessage (data : V) (w : W) : outcome (V * W) := Returns (data, w).

(** [Service::AddListener]: [push_back]. *)
Definition AddListener (listeners : list ServiceListener) (l : ServiceListener)
  : list ServiceListener := listeners ++ [l].

(** [Service::Notify]: every listener in registration order, each on the
    value as the one before left it; an outcome other than a return ends
    the loop. *)
Fixpoint Notify (listeners : list ServiceListener) (data : V) (w : W) : outcome (V * W) :=
  match listeners with
  | [] => Returns (data, w)
  | ele :: rest => '(data', w') ← ele data w; Notify rest data' w'
  end.

End Service.

(** A listener that appends what it receives to a record of events and
    leaves the value alone. *)
Definition recorder {V : Type} : @ServiceListener V (list V) :=
  fun data log => Returns (data, log ++ [data]).

End Soa.

(** ** utils.hpp *)

Module Utils.
Import Num.

(** Modelled from the spec: [products.hpp] is absent.  "Instrument:
    identifier, coupon rate, maturity."  The fields are the arguments of the
    constructor calls in [ProductMap]: product id, id type, ticker, coupon
    and maturity date. *)
Inductive BondIdType : Set := CUSIP | ISIN.

Record Bond : Type := mkBond {
  GetProductId : string;
  GetBondIdType : BondIdType;
  GetTicker : string;
  GetCoupon : float;
  GetMaturityDate : Z * Z * Z
}.

(** [ProductMap::GetProducts]. *)
Definition GetProducts : list Bond :=
  [ mkBond "B02y" CUSIP "B02y" 0.02 (2026, 12, 31);
    mkBond "B03y" CUSIP "B03y" 0.025 (2027, 12, 31);
    mkBond "B05y" CUSIP "B05y" 0.03 (2029, 12, 31);
    mkBond "B07y" CUSIP "B07y" 0.035 (2031, 12, 31);
    mkBond "B10y" CUSIP "B10y" 0.04 (2034, 12, 31);
    mkBond "B20y" CUSIP "B20y" 0.045 (2044, 12, 31);
    mkBond "B30y" CUSIP "B30y" 0.05 (2054, 12, 31) ].

(** [ProductMap::GetProductMap]: [insert] keeps the first bond of a key. *)
Definition GetProductMap : gmap string Bond :=
  fold_left
    (fun result b =>
       match result !! GetProductId b with
       | Some _ => result
       | None => <[GetProductId b := b]> result
       end)
    GetProducts ∅.

(** [ProductMap::GetTickers]. *)
Definition GetTickers : list string :=
  ["B02y"; "B03y"; "B05y"; "B07y"; "B10y"; "B20y"; "B30y"].

(** [FormatParser::ParsePriceFormat]: the base from the first character,
    then two digits of thirty-seconds and one digit of 256ths, each read as
    [character - '0'] whatever the character is. *)
Definition ParsePriceFormat (price_string : string) : outcome float :=
  c0 ← c_str_at price_string 0;
  let '(mainPart, offset) :=
    if c0 =? char_to_int "9" then (99, 3%nat) else (100, 4%nat) in
  d0 ← c_str_at price_string offset;
  d1 ← c_str_at price_string (offset + 1);
  d2 ← c_str_at price_string (offset + 2);
  let first := (d0 - char_to_int "0") * 10 + (d1 - char_to_int "0") in
  let second := d2 - char_to_int "0" in
  let fractional := (to_double first / 32 + to_double second / 256)%float in
  Returns (to_double mainPart + fractional)%float.

End Utils.

(** ** data_generator.cpp *)

Module Generator.
Import Num.

(** The lambda [decimalToFractional] of [createPricesFile] and
    [createMarketDataFile] (the two copies are identical). *)
Definition decimalToFractional (price : float) : outcome string :=
  whole ← static_cast_int price;
  let frac := (price - to_double whole)%float in
  thirtySeconds ← static_cast_int (frac * to_double 32)%float;
  let remainder := (frac * to_double 32 - to_double thirtySeconds)%float in
  let hasPlus := (0.25 <? remainder)%float in
  let fracStr :=
    if thirtySeconds <? 10 then "0" +:+ to_string thirtySeconds
    else to_string thirtySeconds in
  let fracStr := if hasPlus then fracStr +:+ "+" else fracStr in
  Returns (to_string whole +:+ "-" +:+ fracStr).

(** The prices of the stated domain: whole part 99 or 100 and [k]
    sixty-fourths, [0 <= k < 64].  Every operation here is exact. *)
Definition sixty_fourths (whole k : Z) : float :=
  (to_double whole + to_double k / 64)%float.

Definition par_grid : list float :=
  w ← [99; 100]; k ← seqZ 0 64; [sixty_fourths w k].

(** What decoding the encoded text of [x] gives. *)
Definition round_trip (x : float) : outcome float :=
  text ← decimalToFractional x; Utils.ParsePriceFormat text.

(** The C++ comparison [decode(encode(x)) == x]. *)
Definition round_trip_ok (x : float) : bool :=
  match round_trip x with
  | Returns y => (y =? x)%float
  | _ => false
  end.

(** What [y] is when it is [x] less 3/16 or [x] less 9/256. *)
Definition shifted (x y : float) : bool :=
  (y =? x - 0.1875)%float || (y =? x - 0.03515625)%float.

End Generator.

(** ** positionservice.hpp *)

Module PositionStage.
Import Num Utils Soa.

(** Modelled from the spec: [tradebookingservice.hpp] is absent.  "Trade:
    instrument, trade identifier, execution price (decimal), book
    identifier, quantity (positive integer), side (BUY/SELL)."  The fields
    are in the order of the constructor call of the booking adapter and
    carry the names of the getters [AddTrade] calls. *)
Inductive Side : Set := BUY | SELL.

Record Trade : Type := mkTrade {
  GetProduct : Bond;
  GetTradeId : string;
  GetPrice : float;
  GetBook : string;
  GetQuantity : Z;
  GetSide : Side
}.

(** [Position<T>]: the product and [map<string,long> positions]. *)
Record Position : Type := mkPosition {
  product : Bond;
  positions : gmap string Z
}.

Definition books_ : list string := ["TRSY1"; "TRSY2"; "TRSY3"].

(** [map::insert]: no effect on a key already present. *)
Definition map_insert {A : Type} (k : string) (a : A) (m : gmap string A)
  : gmap string A :=
  match m !! k with
  | Some _ => m
  | None => <[k := a]> m
  end.

(** The constructor: the three books, each at zero. *)
Definition Position_ctor (_product : Bond) : Position :=
  mkPosition _product (fold_left (fun m b => map_insert b 0 m) books_ ∅).

(** [GetPosition]: the message is written when the book is missing, and
    the iterator is dereferenced either way. *)
Definition GetPosition (p : Position) (book : string) (cout : list string)
  : outcome (Z * list string) :=
  let it := positions p !! book in
  let cout := match it with
              | None => cout ++ ["Can't find book " +:+ book]
              | Some _ => cout
              end in
  v ← deref it; Returns (v, cout).

(** [GetAggregatePosition]: [result += positions.find(books_[i])->second]
    for the three books in turn. *)
Definition GetAggregatePosition (p : Position) : outcome Z :=
  fold_left
    (fun acc b => result ← acc; v ← deref (positions p !! b); as_long (result + v))
    books_ (Returns 0).

(** [UpdatePosition]: the found entry is changed in place. *)
Definition UpdatePosition (p : Position) (book : string) (quantity : Z) (side : Side)
  : outcome Position :=
  v ← deref (positions p !! book);
  v' ← as_long (match side with BUY => v + quantity | SELL => v - quantity end);
  Returns (mkPosition (product p) (<[book := v']> (positions p))).

(** [PositionService<T>]: [unordered_map<string, Position<T>> name_p]. *)
Record PositionService : Type := mkPositionService {
  name_p : gmap string Position
}.

(** The constructor: a fresh position per ticker of the catalog. *)
Definition PositionService_ctor : outcome PositionService :=
  m ← fold_left
        (fun acc ele =>
           name_p ← acc;
           bond ← deref (GetProductMap !! ele);
           Returns (map_insert ele (Position_ctor bond) name_p))
        GetTickers (Returns ∅);
  Returns (mkPositionService m).

Section Service.
Context {W : Type}.
Variable listeners : list (@ServiceListener Position W).

(** The state [AddTrade] acts on: the service, the lines written to
    [cout], and the rest of the program, which only listeners touch. *)
Definition State : Type := PositionService * list string * W.

(** [AddTrade].  The update happens under the guard; [Notify] is called
    after it on [name_p.find(ticker)->second], found or not, and what the
    listeners leave in that entry stays there. *)
Definition AddTrade (trade : Trade) (st : State) : outcome State :=
  let '(svc, cout, w) := st in
  let ticker := GetTicker (GetProduct trade) in
  let book := GetBook trade in
  let quantity := GetQuantity trade in
  let side := GetSide trade in
  st1 ← match name_p svc !! ticker with
        | Some pos =>
            pos' ← UpdatePosition pos book quantity side;
            Returns (mkPositionService (<[ticker := pos']> (name_p svc)), cout)
        | None =>
            Returns (svc, cout ++ ["iAddTrade(), key = " +:+ ticker +:+ "doesn't exist!"])
        end;
  let '(svc1, cout1) := st1 in
  data ← deref (name_p svc1 !! ticker);
  '(data', w1) ← Notify listeners data w;
  Returns (mkPositionService (<[ticker := data']> (name_p svc1)), cout1, w1).

(** Trades one after another. *)
Fixpoint AddTrades (trades : list Trade) (st : State) : outcome State :=
  match trades with
  | [] => Returns st
  | t :: rest => st' ← AddTrade t st; AddTrades rest st'
  end.

End Service.

(** [GetData]: [name_p.find(key)->second]; the service is read only. *)
Definition GetData (svc : PositionService) (key : string)
  : outcome (Position * PositionService) :=
  v ← deref (name_p svc !! key); Returns (v, svc).

(** The signed quantity of a trade and of a list of trades. *)
Definition signed (t : Trade) : Z :=
  match GetSide t with BUY => GetQuantity t | SELL => - GetQuantity t end.

Definition signed_sum (trades : list Trade) : Z :=
  fold_right (fun t acc => signed t + acc) 0 trades.

Definition volume (trades : list Trade) : Z :=
  fold_right (fun t acc => Z.abs (GetQuantity t) + acc) 0 trades.

End PositionStage.

(** ** riskservice.hpp and the risk sink of connectors.hpp *)

Module RiskStage.
Import Num Utils Soa.

(** [PV01<T>]. *)
Record PV01 : Type := mkPV01 {
  GetProduct : Bond;
  GetPV01 : float;
  GetQuantity : Z
}.

(** [RiskService<T>]: [map<string, PV01<T>> data], which no member
    function writes. *)
Record RiskService : Type := mkRiskService {
  data : gmap string PV01
}.

Definition RiskService_ctor : RiskService := mkRiskService ∅.

(** The literal [0.02] of [AddPosition]. *)
Definition sensitivity : float := 0.02%float.

Section Service.
Context {W : Type}.
Variable listeners : list (@ServiceListener PV01 W).

(** [AddPosition]. *)
Definition AddPosition (position : PositionStage.Position) (st : RiskService * W)
  : outcome (RiskService * W) :=
  let '(svc, w) := st in
  aggregate ← PositionStage.GetAggregatePosition position;
  let curr_pv01 := mkPV01 (PositionStage.product position) sensitivity aggregate in
  '(_, w') ← Notify listeners curr_pv01 w;
  Returns (svc, w').

End Service.

(** [GetData]: [data.find(key)->second]. *)
Definition GetData (svc : RiskService) (key : string) : outcome (PV01 * RiskService) :=
  v ← deref (data svc !! key); Returns (v, svc).

(** [RiskConnector::Publish] computes
    [totalRisk = data.GetPV01() * data.GetQuantity()] and appends the line
    [now_ms, ticker, totalRisk] to its file. *)
Definition totalRisk (d : PV01) : float :=
  (GetPV01 d * to_double (GetQuantity d))%float.

Definition Publish (now_ms : Z) (d : PV01) (file : list (Z * string * float))
  : list (Z * string * float) :=
  file ++ [(now_ms, GetTicker (GetProduct d), totalRisk d)].

End RiskStage.

(** ** services.hpp: GUIService *)

Module GUIStage.
Import Num Utils.

(** Modelled from the spec: [pricingservice.hpp] is absent.  "Quote
    (Price): instrument, mid price (decimal), bid-offer spread (decimal)."
    A [Price] is built as [Price<V>(bond, mid, spread)] and read through
    [GetMid] and [GetBidOfferSpread]. *)
Record Price : Type := mkPrice {
  GetProduct : Bond;
  GetMid : float;
  GetBidOfferSpread : float
}.

(** [GUIService<T>]; the connector it points to is the sequence of prices
    published so far (the time stamp [GUIConnector::Publish] adds to each
    line is left out). *)
Record GUIService : Type := mkGUIService {
  service_start_time : Z;
  last_quote_time : Z;
  gui_connector : list Price
}.

(** The constructor, run when the clock reads [now]. *)
Definition GUIService_ctor (now : Z) : GUIService := mkGUIService now now [].

(** [ProvideData], run when the clock reads [current_epic]. *)
Definition ProvideData (current_epic : Z) (d : Price) (svc : GUIService)
  : outcome GUIService :=
  elapsed ← as_long (current_epic - last_quote_time svc);
  if 300 <? elapsed
  then Returns (mkGUIService (service_start_time svc) current_epic (gui_connector svc ++ [d]))
  else Returns svc.

(** Quotes one after another, each with the clock reading at its arrival. *)
Fixpoint ProvideAll (quotes : list (Z * Price)) (svc : GUIService) : outcome GUIService :=
  match quotes with
  | [] => Returns svc
  | (t, d) :: rest => svc' ← ProvideData t d svc; ProvideAll rest svc'
  end.

End GUIStage.

(** ** services.hpp: BondAlgoStreamingService, AlgoExecution, BondAlgoExecutionService *)

Module ExecutionStage.
Import Num Utils Soa.

(** Modelled from the spec: [marketdataservice.hpp] and
    [executionservice.hpp] are absent.  "OrderBookLevel: price, size, side.
    OrderBook: instrument plus an ordered sequence of bid levels and offer
    levels (best-to-worst, level 0 = best).  ExecutionOrder: instrument,
    pricing side, order identifier, order type, price, visible quantity,
    hidden quantity, parent order identifier, a flag for child-order
    status."  The records hold what the sources construct and read:
    [Order(price, size, side)], [OrderBook(product, bidStack, offerStack)],
    and the nine arguments of the [ExecutionOrder] constructor. *)
Inductive PricingSide : Set := BID | OFFER.
Inductive OrderType : Set := FOK | IOC | MARKET | LIMIT | STOP.
Inductive Market : Set := BROKERTEC | ESPEED | CME.

Record Order : Type := mkOrder {
  GetPrice : float;
  GetQuantity : Z;
  GetSide : PricingSide
}.

Record OrderBook : Type := mkOrderBook {
  GetProduct : Bond;
  GetBidStack : list Order;
  GetOfferStack : list Order
}.

Record ExecutionOrder : Type := mkExecutionOrder {
  GetOrderProduct : Bond;
  GetPricingSide : PricingSide;
  GetOrderId : string;
  GetOrderType : OrderType;
  GetOrderPrice : float;
  GetVisibleQuantity : Z;
  GetHiddenQuantity : Z;
  GetParentOrderId : string;
  IsChildOrder : bool
}.

(** Modelled from the spec: the declaration of [enum PricingSide] is in the
    absent [marketdataservice.hpp]; the spec names the sides in the order
    BID, OFFER, so the cast [PricingSide(n)] gives [BID] for 0 and [OFFER]
    for 1.  No other value names a side. *)
Definition PricingSide_of_int (n : Z) : outcome PricingSide :=
  if n =? 0 then Returns BID else if n =? 1 then Returns OFFER else Undefined.

(** [v[0]] on a vector. *)
Definition front {A : Type} (v : list A) : outcome A := deref (head v).

(** [AlgoExecution<T>]: the order it owns and the market. *)
Record AlgoExecution : Type := mkAlgoExecution {
  GetOrder : ExecutionOrder;
  GetMarket : Market
}.

Definition hidden_ratio : float := 0.9%float.

(** The constructor.  [counter] is the static data member shared by every
    [AlgoExecution<T>]; it is passed in and handed back. *)
Definition AlgoExecution_ctor (data_ : OrderBook) (counter : Z)
  : outcome (AlgoExecution * Z) :=
  counter ← as_int (counter + 1);
  side ← PricingSide_of_int (Z.rem counter 2);
  let orderID := to_string counter in
  let product := GetProduct data_ in
  bid0 ← front (GetBidStack data_);
  offer0 ← front (GetOfferStack data_);
  let '(price, quantity) :=
    match side with
    | BID => (GetPrice bid0, GetQuantity offer0)
    | OFFER => (GetPrice offer0, GetQuantity bid0)
    end in
  hidden ← static_cast_long (to_double quantity * hidden_ratio)%float;
  Returns (mkAlgoExecution
             (mkExecutionOrder product side orderID MARKET price quantity hidden
                               orderID false)
             CME,
           counter).

(** The literal [1.0 / 127.0] of [Execute]. *)
Definition tol : float := (1 / 127)%float.

(** The test of [Execute] on the two best prices. *)
Definition within_tol (best_bid best_offer : float) : bool :=
  (best_offer - best_bid <=? tol)%float.

Section Service.
Context {W : Type}.
Variable listeners : list (@ServiceListener AlgoExecution W).

(** [BondAlgoExecutionService::Execute]; the state is the static counter
    and the rest of the program. *)
Definition Execute (data_ : OrderBook) (st : Z * W) : outcome (Z * W) :=
  let '(counter, w) := st in
  bid0 ← front (GetBidStack data_);
  offer0 ← front (GetOfferStack data_);
  let best_bid := GetPrice bid0 in
  let best_offer := GetPrice offer0 in
  if within_tol best_bid best_offer
  then
    '(algo_execution, counter') ← AlgoExecution_ctor data_ counter;
    '(_, w') ← Notify listeners algo_execution w;
    Returns (counter', w')
  else Returns (counter, w).

End Service.

(** Order books one after another, each handed to the service instance
    whose listeners it is paired with; all instances share the counter. *)
Fixpoint ExecuteAll {W : Type}
  (feed : list (list (@ServiceListener AlgoExecution W) * OrderBook)) (st : Z * W)
  : outcome (Z * W) :=
  match feed with
  | [] => Returns st
  | (listeners, data_) :: rest => st' ← Execute listeners data_ st; ExecuteAll rest st'
  end.

(** [BondAlgoStreamingService::PublishPrice]. *)
Record PriceStreamOrder : Type := mkPriceStreamOrder {
  GetStreamPrice : float;
  GetStreamVisibleQuantity : Z;
  GetStreamHiddenQuantity : Z;
  GetStreamSide : PricingSide
}.

Record PriceStream : Type := mkPriceStream {
  GetStreamProduct : Bond;
  GetBidOrder : PriceStreamOrder;
  GetOfferOrder : PriceStreamOrder
}.

Definition PublishPrice {W : Type} (listeners : list (@ServiceListener PriceStream W))
  (d : GUIStage.Price) (w : W) : outcome W :=
  let bid_price := (GUIStage.GetMid d - GUIStage.GetBidOfferSpread d / 2)%float in
  let ask_price := (GUIStage.GetMid d + GUIStage.GetBidOfferSpread d / 2)%float in
  let bid_order := mkPriceStreamOrder bid_price 1000000 1000000 BID in
  let ask_order := mkPriceStreamOrder ask_price 1000000 1000000 OFFER in
  let price_stream := mkPriceStream (GUIStage.GetProduct d) bid_order ask_order in
  '(_, w') ← Notify listeners price_stream w;
  Returns w'.

End ExecutionStage.

(** ** connectors.hpp: InquiryConnector *)

Module InquiryStage.
Import Num Utils Soa.

(** Modelled from the spec: [inquiryservice.hpp] is absent.  "Inquiry:
    inquiry identifier, instrument, side, requested quantity, an agreed
    price (or sentinel "not yet set"), and a lifecycle state."  An
    [Inquiry] is built as [Inquiry<Bond>(inqId, product, side, 1000000, -1,
    RECEIVED)]; the four states are the ones
    [AllInquiriesConnector::Publish] prints. *)
Inductive InquiryState : Set := RECEIVED | QUOTED | DONE | REJECTED.

Record Inquiry : Type := mkInquiry {
  GetInquiryId : string;
  GetProduct : Bond;
  GetSide : PositionStage.Side;
  GetQuantity : Z;
  GetPrice : float;
  GetState : InquiryState
}.

Definition InquiryState_eqb (a b : InquiryState) : bool :=
  match a, b with
  | RECEIVED, RECEIVED | QUOTED, QUOTED | DONE, DONE | REJECTED, REJECTED => true
  | _, _ => false
  end.

(** [Inquiry::SetState]. *)
Definition SetState (q : Inquiry) (s : InquiryState) : Inquiry :=
  mkInquiry (GetInquiryId q) (GetProduct q) (GetSide q) (GetQuantity q) (GetPrice q) s.

Section Connector.
Context {S : Type}.

(** [inquiry_service->OnMessage], the entry point of the service the
    connector points to.  It takes the inquiry by reference, so it returns
    the inquiry as it leaves it. *)
Variable OnMessage : Inquiry -> S -> outcome (Inquiry * S).

(** [InquiryConnector::Publish]; [q] is the local copy, which both calls
    of [OnMessage] are given. *)
Definition Publish (d : Inquiry) (s : S) : outcome S :=
  if InquiryState_eqb (GetState d) RECEIVED
  then
    let q := d in
    let q := SetState q QUOTED in
    '(q, s1) ← OnMessage q s;
    let q := SetState q DONE in
    '(_, s2) ← OnMessage q s1;
    Returns s2
  else Returns s.

(** [InquiryConnector::OnMessage]. *)
Definition Connector_OnMessage (d : Inquiry) (s : S) : outcome (Inquiry * S) :=
  OnMessage d s.

(** The entry point, with a record of the inquiries it has been given. *)
Definition traced (d : Inquiry) (st : S * list Inquiry) : outcome (Inquiry * (S * list Inquiry)) :=
  let '(s, trace) := st in
  '(d', s') ← OnMessage d s;
  Returns (d', (s', trace ++ [d])).

End Connector.

(** Modelled from the spec: [InquiryService::OnMessage] is declared in the
    absent [inquiryservice.hpp].  The spec: "The stage itself simply records
    the latest state per inquiry identifier and notifies listeners on every
    transition."  The service keeps the latest inquiry per identifier and
    hands each one it receives to its listeners. *)
Record InquiryService : Type := mkInquiryService {
  inquiries : gmap string Inquiry
}.

Definition Service_OnMessage {W : Type} (listeners : list (@ServiceListener Inquiry W))
  (d : Inquiry) (st : InquiryService * W) : outcome (Inquiry * (InquiryService * W)) :=
  let '(svc, w) := st in
  let svc' := mkInquiryService (<[GetInquiryId d := d]> (inquiries svc)) in
  '(d', w') ← Notify listeners d w;
  Returns (d', (svc', w')).

(** The states recorded for one inquiry identifier in a sequence of
    events. *)
Definition states_of (id : string) (events : list Inquiry) : list InquiryState :=
  map GetState (filter (fun q => GetInquiryId q = id) events).

End InquiryStage.

(** ** utils.hpp: the line parsers *)

Module Parsing.
Import Num Utils.

(** The loop [while (std::getline(buffer, token, ','))] over the characters
    [rest] still in the buffer, [token] being the characters extracted so
    far by the current call of [getline].  A comma ends the token, which is
    pushed even when empty.  At the end of the buffer the call succeeds
    exactly when it has extracted a character, and the next call fails, so
    a token in progress is pushed when it is not empty.  With [ignore], the
    body calls [buffer.ignore()]: the one character after a comma is
    dropped ([skip]); after a token that ran to the end, [ignore] finds the
    stream at its end and extracts nothing. *)
Fixpoint getline_loop (ignore skip : bool) (token rest : string) : list string :=
  match rest with
  | EmptyString =>
      match token with
      | EmptyString => []
      | _ => [token]
      end
  | String c rest' =>
      if skip then getline_loop ignore false token rest'
      else if Ascii.eqb c "," then token :: getline_loop ignore ignore "" rest'
      else getline_loop ignore false (token +:+ String c "") rest'
  end.

(** [FormatParser::Parse]. *)
Definition Parse (text : string) : list string := getline_loop true false "" text.

(** [FormatParser::ParseCommaSepLine]. *)
Definition ParseCommaSepLine (text : string) : list string :=
  getline_loop false false "" text.

(** The loop [for (int i = 1; i <= count; ++i)
    px.push_back(ParsePriceFormat(splitted[i]))], with [n] iterations
    still to run. *)
Fixpoint push_prices (splitted : list string) (i n : nat) (px : list float)
  : outcome (list float) :=
  match n with
  | O => Returns px
  | S n' =>
      t ← deref (splitted !! i);
      p ← ParsePriceFormat t;
      push_prices splitted (S i) n' (px ++ [p])
  end.

(** [FormatParser::ParseOrderBook]. *)
Definition ParseOrderBook (text : string) : outcome (string * list float) :=
  let splitted := ParseCommaSepLine text in
  match splitted with
  | [] => Returns ("", [])
  | ticker :: _ =>
      let count := if (length splitted <? 11)%nat then (length splitted - 1)%nat else 10%nat in
      px ← push_prices splitted 1 count [];
      Returns (ticker, px)
  end.

End Parsing.

(** ** data_generator.cpp: the random price text *)

Module GeneratorText.
Import Num.

(** [generateFractionalPrice]; the three draws of the random engine
    ([wholeDist] on 99..100, [fracDist] on 0..31, [plusDist]) are the
    arguments. *)
Definition generateFractionalPrice (whole frac : Z) (hasPlus : bool) : string :=
  let fracStr := if frac <? 10 then "0" +:+ to_string frac else to_string frac in
  let price := to_string whole +:+ "-" +:+ fracStr in
  if hasPlus then price +:+ "+" else price.

End GeneratorText.

(** ** connectors.hpp: the file adapters *)

Module Connectors.
Import Num Utils Soa Parsing.

(** [PositionConnector::Publish]: the line [now_ms, ticker, p1, p2, p3,
    aggPos] appended to the file; [GetPosition] may write to [cout]. *)
Definition PositionLine : Type := Z * string * Z * Z * Z * Z.

Definition PositionConnector_Publish (now_ms : Z) (data : PositionStage.Position)
  (st : list PositionLine * list string) : outcome (list PositionLine * list string) :=
  let '(file, cout) := st in
  '(p1, cout) ← PositionStage.GetPosition data "TRSY1" cout;
  '(p2, cout) ← PositionStage.GetPosition data "TRSY2" cout;
  '(p3, cout) ← PositionStage.GetPosition data "TRSY3" cout;
  s12 ← as_long (p1 + p2);
  aggPos ← as_long (s12 + p3);
  Returns (file ++ [(now_ms, GetTicker (PositionStage.product data), p1, p2, p3, aggPos)],
           cout).

Section Pricing.
Context {St : Type}.

(** [pricing_service->OnMessage]; [pricingservice.hpp] is absent, so the
    entry point of the pricing service is a parameter.  It takes the price
    by reference. *)
Variable OnMessage : GUIStage.Price -> St -> outcome (GUIStage.Price * St).

(** The body of the loop of [PricingConnector::Subscribe] for one line of
    the file (the progress lines written to [cout] are left out). *)
Definition PricingConnector_line (line : string) (s : St) : outcome St :=
  let tokens := ParseCommaSepLine line in
  if (length tokens <? 3)%nat then Returns s
  else
    t0 ← deref (tokens !! 0%nat);
    match GetProductMap !! t0 with
    | None => Returns s
    | Some bond =>
        t1 ← deref (tokens !! 1%nat);
        t2 ← deref (tokens !! 2%nat);
        bid ← ParsePriceFormat t1;
        ask ← ParsePriceFormat t2;
        let mid := ((bid + ask) / 2)%float in
        let spread := (ask - bid)%float in
        '(_, s') ← OnMessage (GUIStage.mkPrice bond mid spread) s;
        Returns s'
    end.

End Pricing.

Section MarketData.
Context {St : Type}.

(** [marketdataservice->ProcessOrderBook]; [marketdataservice.hpp] is
    absent, so the entry point of the market data service is a parameter.
    The book it is given is a local of the caller. *)
Variable ProcessOrderBook : ExecutionStage.OrderBook -> St -> outcome St.

(** The loop [for (int i = 0; i < 5; i++)] that fills the two stacks from
    [px[2*i]] and [px[2*i + 1]], with [n] iterations still to run. *)
Fixpoint fill_stacks (px : list float) (i n : nat)
  (bidStack askStack : list ExecutionStage.Order)
  : outcome (list ExecutionStage.Order * list ExecutionStage.Order) :=
  match n with
  | O => Returns (bidStack, askStack)
  | S n' =>
      bidP ← deref (px !! (2 * i)%nat);
      askP ← deref (px !! (2 * i + 1)%nat);
      let size := 1000000 * (Z.of_nat i + 1) in
      fill_stacks px (S i) n'
        (bidStack ++ [ExecutionStage.mkOrder bidP size ExecutionStage.BID])
        (askStack ++ [ExecutionStage.mkOrder askP size ExecutionStage.OFFER])
  end.

(** The body of the loop of [MrktDataConnector::Subscribe] for one line of
    the file (the progress lines written to [cout] are left out). *)
Definition MrktDataConnector_line (line : string) (s : St) : outcome St :=
  '(ticker, px) ← ParseOrderBook line;
  match GetProductMap !! ticker with
  | None => Returns s
  | Some product =>
      '(bidStack, askStack) ← fill_stacks px 0 5 [] [];
      ProcessOrderBook (ExecutionStage.mkOrderBook product bidStack askStack) s
  end.

End MarketData.

Section Inquiries.
Context {St : Type}.

(** [inquiry_service->OnMessage], as in [InquiryStage]. *)
Variable OnMessage : InquiryStage.Inquiry -> St -> outcome (InquiryStage.Inquiry * St).

(** What [operator[]] of the product map gives for a ticker it does not
    hold: a default-constructed [Bond], whose constructor is in the absent
    [products.hpp]. *)
Variable Bond_default : Bond.

(** The body of the loop of [InquiryConnector::Subscribe] for one line of
    the file (the line echoed to [cout] is left out). *)
Definition InquiryConnector_line (line : string) (s : St) : outcome St :=
  let tokens := ParseCommaSepLine line in
  if (length tokens <? 3)%nat then Returns s
  else
    inqId ← deref (tokens !! 0%nat);
    t1 ← deref (tokens !! 1%nat);
    t2 ← deref (tokens !! 2%nat);
    let product := default Bond_default (GetProductMap !! t1) in
    let side := if String.eqb t2 "BUY" then PositionStage.BUY else PositionStage.SELL in
    let inquiry :=
      InquiryStage.mkInquiry inqId product side 1000000 (-1) InquiryStage.RECEIVED in
    '(_, s') ← OnMessage inquiry s;
    Returns s'.

End Inquiries.

End Connectors.

(** ** listeners.hpp *)

Module Listeners.
Import Soa.

(** [PositionServiceListener::ProcessAdd]: [positionService->AddTrade(data)];
    the listeners of the position service come with it. *)
Definition PositionServiceListener {W : Type}
  (position_listeners : list (@ServiceListener PositionStage.Position W))
  : @ServiceListener PositionStage.Trade (PositionStage.State (W:=W)) :=
  fun data st => st' ← PositionStage.AddTrade position_listeners data st; Returns (data, st').

(** [RiskServiceListener::ProcessAdd]: [riskService->AddPosition(data)]. *)
Definition RiskServiceListener {W : Type}
  (risk_listeners : list (@ServiceListener RiskStage.PV01 W))
  : @ServiceListener PositionStage.Position (RiskStage.RiskService * W) :=
  fun data st => st' ← RiskStage.AddPosition risk_listeners data st; Returns (data, st').

(** [GUIListener::ProcessAdd]: [guiService->ProvideData(data)], which takes
    the price by value; [current_epic] is what the clock reads in that
    call. *)
Definition GUIListener {W : Type} (current_epic : Z)
  : @ServiceListener GUIStage.Price (GUIStage.GUIService * W) :=
  fun data st =>
    let '(svc, w) := st in
    svc' ← GUIStage.ProvideData current_epic data svc;
    Returns (data, (svc', w)).

(** [AlgoStreamingListener::ProcessAdd]:
    [algoStreamingService->PublishPrice(data)]. *)
Definition AlgoStreamingListener {W : Type}
  (stream_listeners : list (@ServiceListener ExecutionStage.PriceStream W))
  : @ServiceListener GUIStage.Price W :=
  fun data w => w' ← ExecutionStage.PublishPrice stream_listeners data w; Returns (data, w').

(** [BondAlgoExecutionListener::ProcessAdd]: [algoExecService->Execute(data)];
    the state holds the static counter. *)
Definition BondAlgoExecutionListener {W : Type}
  (execution_listeners : list (@ServiceListener ExecutionStage.AlgoExecution W))
  : @ServiceListener ExecutionStage.OrderBook (Z * W) :=
  fun data st => st' ← ExecutionStage.Execute execution_listeners data st; Returns (data, st').

End Listeners.

(** ** Drivers and sample data used by the statements below *)

Module Samples.
Import Num Utils Soa.

Definition B02y : Bond := mkBond "B02y" CUSIP "B02y" 0.02 (2026, 12, 31).
Definition B10y : Bond := mkBond "B10y" CUSIP "B10y" 0.04 (2034, 12, 31).

(** A bond that is not in the catalog, as the booking adapter would hand
    over for an unknown ticker. *)
Definition B99y : Bond := mkBond "B99y" CUSIP "B99y" 0.01 (2099, 12, 31).

(** The service right after construction. *)
Definition initial_service : PositionStage.PositionService :=
  match PositionStage.PositionService_ctor with
  | Returns svc => svc
  | _ => PositionStage.mkPositionService ∅
  end.

Definition trade (b : Bond) (book : string) (quantity : Z) (side : PositionStage.Side)
  : PositionStage.Trade :=
  PositionStage.mkTrade b "T1" 99.5 book quantity side.

(** [UpdatePosition] for each trade of a list, on one position. *)
Fixpoint UpdateAll (trades : list PositionStage.Trade) (p : PositionStage.Position)
  : outcome PositionStage.Position :=
  match trades with
  | [] => Returns p
  | t :: rest =>
      p' ← PositionStage.UpdatePosition p (PositionStage.GetBook t)
             (PositionStage.GetQuantity t) (PositionStage.GetSide t);
      UpdateAll rest p'
  end.

(** An order book with one level per side, of the size the market data
    adapter gives level 0. *)
Definition book (b : Bond) (bid offer : float) : ExecutionStage.OrderBook :=
  ExecutionStage.mkOrderBook b
    [ExecutionStage.mkOrder bid 1000000 ExecutionStage.BID]
    [ExecutionStage.mkOrder offer 1000000 ExecutionStage.OFFER].

(** An order book with one level per side, of the given sizes. *)
Definition sized_book (b : Bond) (bid : float) (bid_size : Z) (offer : float) (offer_size : Z)
  : ExecutionStage.OrderBook :=
  ExecutionStage.mkOrderBook b
    [ExecutionStage.mkOrder bid bid_size ExecutionStage.BID]
    [ExecutionStage.mkOrder offer offer_size ExecutionStage.OFFER].

(** 99-16 is 99 + 16/32, 99-17 is 99 + 17/32, 99-16+ is 99 + 16/32 + 1/64. *)
Definition p99_16 : float := 99.5%float.
Definition p99_17 : float := 99.53125%float.
Definition p99_16plus : float := 99.515625%float.
(** One 128th above 99-16. *)
Definition p99_16_128th : float := 99.5078125%float.

Definition quote (b : Bond) (mid spread : float) : GUIStage.Price :=
  GUIStage.mkPrice b mid spread.

Definition inquiry (id : string) (b : Bond) (s : InquiryStage.InquiryState)
  : InquiryStage.Inquiry :=
  InquiryStage.mkInquiry id b PositionStage.BUY 1000000 (-1) s.

(** The three books of a position hold [v1], [v2] and [v3], and the
    position has no other book. *)
Definition books_at (m : gmap string Z) (v1 v2 v3 : Z) : Prop :=
  m !! "TRSY1" = Some v1 /\ m !! "TRSY2" = Some v2 /\ m !! "TRSY3" = Some v3 /\
  dom m = ({["TRSY1"; "TRSY2"; "TRSY3"]} : gset string).

(** A position that is short in aggregate: 1,000,000 long in TRSY1 and
    3,000,000 short in TRSY2. *)
Definition short_position : PositionStage.Position :=
  PositionStage.mkPosition B02y
    (<["TRSY2" := -3000000]>
       (<["TRSY1" := 1000000]> (PositionStage.positions (PositionStage.Position_ctor B02y)))).

(** A position whose three books hold the given values. *)
Definition position_of (b : Bond) (v1 v2 v3 : Z) : PositionStage.Position :=
  PositionStage.mkPosition b
    (<["TRSY3" := v3]> (<["TRSY2" := v2]> (<["TRSY1" := v1]> ∅))).

(** The service instance numbered [i]: its one listener records what it
    is given, under that number. *)
Definition instance (i : nat)
  : list (@ServiceListener ExecutionStage.AlgoExecution
            (list (nat * ExecutionStage.AlgoExecution))) :=
  [fun d log => Returns (d, log ++ [(i, d)])].

(** Order books, each handed to the instance it is paired with. *)
Definition feed_of (runs : list (nat * ExecutionStage.OrderBook))
  : list (list (@ServiceListener ExecutionStage.AlgoExecution
                  (list (nat * ExecutionStage.AlgoExecution)))
          * ExecutionStage.OrderBook) :=
  map (fun r => (instance r.1, r.2)) runs.

(** The test of [Execute] read off an order book. *)
Definition qualifies (ob : ExecutionStage.OrderBook) : bool :=
  match head (ExecutionStage.GetBidStack ob), head (ExecutionStage.GetOfferStack ob) with
  | Some bid0, Some offer0 =>
      ExecutionStage.within_tol (ExecutionStage.GetPrice bid0) (ExecutionStage.GetPrice offer0)
  | _, _ => false
  end.

(** The hidden quantity of [quantity] is representable. *)
Definition converts (quantity : Z) : bool :=
  is_Returns (static_cast_long (to_double quantity * ExecutionStage.hidden_ratio)%float).

(** Both stacks have a best level, and the hidden quantity of either best
    level is representable. *)
Definition well_formed (ob : ExecutionStage.OrderBook) : bool :=
  match head (ExecutionStage.GetBidStack ob), head (ExecutionStage.GetOfferStack ob) with
  | Some bid0, Some offer0 =>
      converts (ExecutionStage.GetQuantity bid0) && converts (ExecutionStage.GetQuantity offer0)
  | _, _ => false
  end.

End Samples.

(** ** Texts, books and predicates used by the statements on the adapters *)

Module Terms.
Import Num Utils.

(** [t] holds a comma. *)
Fixpoint has_comma (t : string) : bool :=
  match t with
  | EmptyString => false
  | String c t' => Ascii.eqb c "," || has_comma t'
  end.

(** The tokens written one after another with [sep] between them. *)
Fixpoint join (sep : string) (tokens : list string) : string :=
  match tokens with
  | [] => ""
  | t :: rest =>
      match rest with
      | [] => t
      | _ => t +:+ sep +:+ join sep rest
      end
  end.

(** The first character of [s] is the digit 9. *)
Definition starts_with_9 (s : string) : bool :=
  match s with
  | String c _ => Ascii.eqb c "9"
  | EmptyString => false
  end.

(** The number of characters [ParsePriceFormat] needs in [s]. *)
Definition needed (s : string) : nat := if starts_with_9 s then 5%nat else 6%nat.

(** A number below 100 written with two digits, as the generator does. *)
Definition two_digits (n : Z) : string :=
  if n <? 10 then "0" +:+ to_string n else to_string n.

(** The text [whole-xyz]: two digits of thirty-seconds and one digit of
    256ths. *)
Definition three_digit_text (whole xy z : Z) : string :=
  to_string whole +:+ "-" +:+ two_digits xy +:+ to_string z.

(** The price [n]/256. *)
Definition of_256ths (n : Z) : float := (to_double n / 256)%float.

(** The prices [n]/256 with [lo <= n < lo + len]. *)
Definition grid_256ths (lo len : Z) : list float := of_256ths <$> seqZ lo len.

(** The price the draws of [generateFractionalPrice] stand for: [whole]
    and [frac] thirty-seconds, and one sixty-fourth more with a '+'. *)
Definition price_of_draws (whole frac : Z) (hasPlus : bool) : float :=
  (to_double whole + to_double frac / 32 + (if hasPlus then 0.015625 else 0))%float.

(** The last character of [text] is a '+'. *)
Fixpoint ends_with_plus (text : string) : bool :=
  match text with
  | EmptyString => false
  | String c EmptyString => Ascii.eqb c "+"
  | String _ rest => ends_with_plus rest
  end.

(** [ParsePriceFormat] returns on [text] a value that compares equal
    (C++ [==]) to [v]. *)
Definition decodes_to (text : string) (v : float) : bool :=
  match ParsePriceFormat text with
  | Returns y => (y =? v)%float
  | _ => false
  end.

(** [t] has the characters [ParsePriceFormat] reads. *)
Definition long_enough (t : string) : bool := (needed t <=? String.length t)%nat.

(** [px] holds what [ParsePriceFormat] returns on [tokens], one for one. *)
Definition decoded (tokens : list string) (px : list float) : Prop :=
  Forall2 (fun t p => ParsePriceFormat t = Returns p) tokens px.

(** One side of a book: level [i] holds the [i]-th price with the size
    1,000,000 * (i + 1). *)
Definition levels (side : ExecutionStage.PricingSide) (prices : list float)
  : list ExecutionStage.Order :=
  imap (fun i p => ExecutionStage.mkOrder p (1000000 * (Z.of_nat i + 1)) side) prices.

(** The prices at the even places of [px] and those at the odd places. *)
Fixpoint alternate (px : list float) : list float * list float :=
  match px with
  | b :: a :: rest => let '(bs, offers) := alternate rest in (b :: bs, a :: offers)
  | _ => ([], [])
  end.

(** The book the market data adapter builds from ten prices. *)
Definition book_of (product : Bond) (px : list float) : ExecutionStage.OrderBook :=
  ExecutionStage.mkOrderBook product
    (levels ExecutionStage.BID (alternate px).1)
    (levels ExecutionStage.OFFER (alternate px).2).

(** The quote [PricingConnector::Subscribe] builds from a bid and an ask. *)
Definition price_of (bond : Bond) (bid ask : float) : GUIStage.Price :=
  GUIStage.mkPrice bond ((bid + ask) / 2)%float (ask - bid)%float.

(** The two legs of a stream are priced [bid] and [ask] (C++ [==]). *)
Definition legs_at (stream : ExecutionStage.PriceStream) (bid ask : float) : bool :=
  ((ExecutionStage.GetStreamPrice (ExecutionStage.GetBidOrder stream) =? bid) &&
   (ExecutionStage.GetStreamPrice (ExecutionStage.GetOfferOrder stream) =? ask))%float.

(** For every bid and ask of [grid], mid minus half the spread compares
    equal to the bid and mid plus half the spread to the ask, mid and
    spread being those of [price_of]. *)
Definition legs_table (grid : list float) : bool :=
  forallb (fun bid => forallb (fun ask =>
    (((bid + ask) / 2 - (ask - bid) / 2 =? bid) &&
     ((bid + ask) / 2 + (ask - bid) / 2 =? ask))%float) grid) grid.

(** For every bid and offer of the 256ths [lo <= n < lo + len], the test
    of [Execute] succeeds exactly when the offer is at most two 256ths
    above the bid. *)
Definition threshold_table (lo len : Z) : bool :=
  let grid := (fun n => (n, of_256ths n)) <$> seqZ lo len in
  forallb (fun b => forallb (fun a =>
    Bool.eqb (ExecutionStage.within_tol b.2 a.2) (a.1 - b.1 <=? 2)) grid) grid.

(** The base [ParsePriceFormat] takes for a text that starts with the
    digits of [whole]. *)
Definition base_of (whole : Z) : Z := if whole <? 100 then 99 else 100.

(** A price text of the generator's format is given by its three parts:
    the whole part, the thirty-seconds and the '+' flag. *)
Definition draw : Type := Z * Z * bool.

Definition text_of_draw (d : draw) : string :=
  GeneratorText.generateFractionalPrice d.1.1 d.1.2 d.2.

(** The parts the generator can write in a quote or an order book. *)
Definition in_range (d : draw) : Prop := 98 <= d.1.1 <= 101 /\ 0 <= d.1.2 <= 31.

(** What [ParsePriceFormat] makes of the text of [d]: the base instead of
    the whole part, and a fraction that is 3/16 or 9/256 too low. *)
Definition decoded_value (d : draw) : float :=
  (price_of_draws (base_of d.1.1) d.1.2 d.2 - (if d.2 then 0.03515625 else 0.1875))%float.

(** The text of every draw in range has no comma, is long enough for
    [ParsePriceFormat], and decodes to [decoded_value]. *)
Definition generated_texts_table : bool :=
  forallb (fun whole => forallb (fun frac => forallb (fun hasPlus =>
    let d := (whole, frac, hasPlus) in
    negb (has_comma (text_of_draw d)) && long_enough (text_of_draw d) &&
    decodes_to (text_of_draw d) (decoded_value d))
    [false; true]) (seqZ 0 32)) (seqZ 98 4).

(** The aggregate after each trade of a list, from the aggregate [acc]. *)
Fixpoint running (acc : Z) (trades : list PositionStage.Trade) : list Z :=
  match trades with
  | [] => []
  | t :: rest => (acc + PositionStage.signed t) :: running (acc + PositionStage.signed t) rest
  end.

End Terms.


(** ** The two listeners of the pricing service *)

Module Feeds.
Import Soa Listeners.

(** A listener of the streaming algorithm that records the streams next to
    the GUI service. *)
Definition stream_log
  : @ServiceListener ExecutionStage.PriceStream
      (GUIStage.GUIService * list ExecutionStage.PriceStream) :=
  fun d st => Returns (d, (st.1, st.2 ++ [d])).

(** Quotes one after another, each with the clock reading at its arrival,
    handed to the listeners [main] registers on the pricing service: the
    GUI listener first, the streaming listener second. *)
Fixpoint price_feed (quotes : list (Z * GUIStage.Price))
  (st : GUIStage.GUIService * list ExecutionStage.PriceStream)
  : outcome (GUIStage.GUIService * list ExecutionStage.PriceStream) :=
  match quotes with
  | [] => Returns st
  | (t, d) :: rest =>
      '(_, st') ← Notify [GUIListener t; AlgoStreamingListener [stream_log]] d st;
      price_feed rest st'
  end.

End Feeds.

(** * Properties *)

Import Num Utils Soa Samples.

(** ** Outcomes *)

Section OutcomeFacts.
Context {A B : Type}.

Lemma bind_Returns (a : A) (k : A -> outcome B) : (Returns a ≫= k) = k a.
Proof. reflexivity. Qed.

Lemma bind_Undefined (k : A -> outcome B) : (Undefined ≫= k) = Undefined.
Proof. reflexivity. Qed.

Lemma bind_inv (m : outcome A) (k : A -> outcome B) (b : B) :
  (m ≫= k) = Returns b -> exists a, m = Returns a /\ k a = Returns b.
Proof. destruct m as [a| |]; simpl; intros H; try discriminate. eauto. Qed.

Lemma deref_inv (o : option A) (a : A) : deref o = Returns a <-> o = Some a.
Proof. destruct o; simpl; split; congruence. Qed.

End OutcomeFacts.

Lemma as_long_in (z : Z) : LONG_MIN <= z <= LONG_MAX -> as_long z = Returns z.
Proof.
  intros [Hlo Hhi]. unfold as_long, in_long.
  apply Z.leb_le in Hlo. apply Z.leb_le in Hhi. now rewrite Hlo, Hhi.
Qed.

Lemma as_long_inv (z r : Z) : as_long z = Returns r -> r = z /\ LONG_MIN <= z <= LONG_MAX.
Proof.
  unfold as_long, in_long. destruct (LONG_MIN <=? z) eqn:Hlo; simpl; [|discriminate].
  destruct (z <=? LONG_MAX) eqn:Hhi; [|discriminate].
  intros [= <-]. apply Z.leb_le in Hlo. apply Z.leb_le in Hhi. auto.
Qed.

Lemma as_int_in (z : Z) : INT_MIN <= z <= INT_MAX -> as_int z = Returns z.
Proof.
  intros [Hlo Hhi]. unfold as_int, in_int.
  apply Z.leb_le in Hlo. apply Z.leb_le in Hhi. now rewrite Hlo, Hhi.
Qed.

(** ** The price codec *)

Section Codec.
Import Generator.

Lemma encode_99_16 : decimalToFractional 99.5 = Returns "99-16".
Proof. vm_compute. reflexivity. Qed.

Lemma encode_99_16_plus : decimalToFractional 99.515625 = Returns "99-16+".
Proof. vm_compute. reflexivity. Qed.

(** The decoder on the inputs its own comment names. *)
Lemma decode_three_digits : ParsePriceFormat "99-160" = Returns 99.5%float.
Proof. vm_compute. reflexivity. Qed.

Lemma decode_plus_is_less : ParsePriceFormat "100-25+" = Returns 100.76171875%float.
Proof. vm_compute. reflexivity. Qed.

(** C1, at the failing input 99.5 (that is 99-16): the generator writes
    "99-16", the decoder reads the terminating NUL as the digit of 256ths
    and returns 99.3125, so decode(encode(x)) == x is false. *)
Theorem round_trip_fails_at_99_16 :
  decimalToFractional 99.5 = Returns "99-16" /\
  ParsePriceFormat "99-16" = Returns 99.3125%float /\
  round_trip 99.5 = Returns 99.3125%float /\
  round_trip_ok 99.5 = false.
Proof. vm_compute. repeat split; reflexivity. Qed.

(** The same holds on the whole domain: no price with whole part 99 or 100
    and a whole number of sixty-fourths survives the round trip. *)
Lemma round_trip_fails_on_grid :
  forallb (fun x => negb (round_trip_ok x)) par_grid = true.
Proof. vm_compute. reflexivity. Qed.

Lemma round_trip_never_ok (x : float) : In x par_grid -> round_trip_ok x = false.
Proof.
  intros Hx. pose proof round_trip_fails_on_grid as H.
  rewrite forallb_forall in H. specialize (H x Hx).
  now apply negb_true_iff in H.
Qed.

(** What the round trip returns instead: the price less 3/16 when the text
    has no '+' (the NUL is read as -48/256), less 9/256 when it has one
    ('+' is read as -5/256 and the sixty-fourth is lost). *)
Lemma round_trip_shift :
  forallb (fun x => match round_trip x with
                    | Returns y => shifted x y
                    | _ => false
                    end) par_grid = true.
Proof. vm_compute. reflexivity. Qed.

End Codec.

(** ** Positions *)

Section Positions.
Import PositionStage.

Lemma ctor_books (b : Bond) : books_at (positions (Position_ctor b)) 0 0 0.
Proof. unfold books_at. repeat split; reflexivity. Qed.

Lemma in_books (book : string) :
  book ∈ books_ -> book = "TRSY1" \/ book = "TRSY2" \/ book = "TRSY3".
Proof. unfold books_. rewrite !elem_of_cons, elem_of_nil. tauto. Qed.

Lemma volume_nonneg (trades : list Trade) : 0 <= volume trades.
Proof. induction trades; simpl; lia. Qed.

(** The three additions of [GetAggregatePosition] stay in range when the
    absolute values of the books do. *)
Lemma aggregate_books (p : Position) (v1 v2 v3 : Z) :
  books_at (positions p) v1 v2 v3 ->
  Z.abs v1 + Z.abs v2 + Z.abs v3 <= LONG_MAX ->
  GetAggregatePosition p = Returns (v1 + v2 + v3).
Proof.
  intros (H1 & H2 & H3 & _) Hb.
  unfold GetAggregatePosition, books_. simpl.
  rewrite H1, H2, H3. simpl.
  rewrite (as_long_in (0 + v1)) by (unfold LONG_MIN, LONG_MAX in *; lia). simpl.
  rewrite (as_long_in (0 + v1 + v2)) by (unfold LONG_MIN, LONG_MAX in *; lia). simpl.
  rewrite (as_long_in (0 + v1 + v2 + v3)) by (unfold LONG_MIN, LONG_MAX in *; lia).
  reflexivity.
Qed.

Lemma books_at_insert (m : gmap string Z) (v1 v2 v3 x : Z) :
  books_at m v1 v2 v3 ->
  books_at (<["TRSY1" := x]> m) x v2 v3 /\
  books_at (<["TRSY2" := x]> m) v1 x v3 /\
  books_at (<["TRSY3" := x]> m) v1 v2 x.
Proof.
  intros (H1 & H2 & H3 & Hd). unfold books_at.
  rewrite !lookup_insert_eq, !lookup_insert_ne, !dom_insert_L, Hd by done.
  repeat split; auto; set_solver.
Qed.

(** One update of a known book: it returns, moves the sum of the books by
    the signed quantity, and keeps the three books. *)
Lemma update_books (p : Position) (v1 v2 v3 : Z) (book : string) (q : Z) (side : Side) :
  books_at (positions p) v1 v2 v3 ->
  book ∈ books_ ->
  Z.abs v1 + Z.abs v2 + Z.abs v3 + Z.abs q <= LONG_MAX ->
  exists p' w1 w2 w3,
    UpdatePosition p book q side = Returns p' /\
    product p' = product p /\
    books_at (positions p') w1 w2 w3 /\
    w1 + w2 + w3 = v1 + v2 + v3 + match side with BUY => q | SELL => - q end /\
    Z.abs w1 + Z.abs w2 + Z.abs w3 <= Z.abs v1 + Z.abs v2 + Z.abs v3 + Z.abs q.
Proof.
  intros Hat Hin Hb.
  pose proof Hat as (H1 & H2 & H3 & _).
  unfold UpdatePosition.
  destruct (in_books _ Hin) as [-> | [-> | ->]];
    [ rewrite H1; set (v := v1) | rewrite H2; set (v := v2) | rewrite H3; set (v := v3) ];
    simpl;
    set (v' := match side with BUY => v + q | SELL => v - q end);
    (rewrite (as_long_in v')
      by (unfold LONG_MIN, LONG_MAX in *; subst v v'; destruct side; lia));
    simpl;
    destruct (books_at_insert _ _ _ _ v' Hat) as (I1 & I2 & I3).
  - exists (mkPosition (product p) (<["TRSY1" := v']> (positions p))), v', v2, v3.
    repeat split; try apply I1; subst v v'; destruct side; lia.
  - exists (mkPosition (product p) (<["TRSY2" := v']> (positions p))), v1, v', v3.
    repeat split; try apply I2; subst v v'; destruct side; lia.
  - exists (mkPosition (product p) (<["TRSY3" := v']> (positions p))), v1, v2, v'.
    repeat split; try apply I3; subst v v'; destruct side; lia.
Qed.

Lemma UpdateAll_books (trades : list Trade) :
  forall (p : Position) (v1 v2 v3 : Z),
    books_at (positions p) v1 v2 v3 ->
    Forall (fun t => GetBook t ∈ books_) trades ->
    Z.abs v1 + Z.abs v2 + Z.abs v3 + volume trades <= LONG_MAX ->
    exists p' w1 w2 w3,
      UpdateAll trades p = Returns p' /\
      product p' = product p /\
      books_at (positions p') w1 w2 w3 /\
      w1 + w2 + w3 = v1 + v2 + v3 + signed_sum trades /\
      Z.abs w1 + Z.abs w2 + Z.abs w3 <= Z.abs v1 + Z.abs v2 + Z.abs v3 + volume trades.
Proof.
  induction trades as [|t rest IH]; intros p v1 v2 v3 Hat Hbooks Hvol.
  - exists p, v1, v2, v3. simpl in *. repeat split; try apply Hat; lia.
  - inversion Hbooks as [|? ? Hb Hrest]; subst.
    simpl in Hvol. pose proof (volume_nonneg rest).
    destruct (update_books p v1 v2 v3 (GetBook t) (GetQuantity t) (GetSide t) Hat Hb)
      as (p1 & u1 & u2 & u3 & Hup & Hprod & Hat1 & Hsum1 & Habs1); [lia|].
    destruct (IH p1 u1 u2 u3 Hat1 Hrest)
      as (p' & w1 & w2 & w3 & Hrun & Hprod' & Hat' & Hsum & Habs); [lia|].
    exists p', w1, w2, w3. simpl. rewrite Hup. simpl.
    repeat split; try apply Hat'; try congruence.
    + unfold signed. rewrite Hsum, Hsum1. lia.
    + lia.
Qed.

(** What a returning run leaves in one book: what was there, moved by
    the signed quantities of the trades on that book. *)
Lemma UpdateAll_book (trades : list Trade) :
  forall (p p' : Position) (book : string) (v : Z),
    UpdateAll trades p = Returns p' ->
    positions p !! book = Some v ->
    positions p' !! book
      = Some (v + signed_sum (filter (fun t => GetBook t = book) trades)).
Proof.
  induction trades as [|t rest IH]; intros p p' book v Hrun Hv.
  - injection Hrun as <-. simpl. now rewrite Z.add_0_r.
  - simpl in Hrun. apply bind_inv in Hrun as (p1 & Hup & Hrun).
    unfold UpdatePosition in Hup.
    apply bind_inv in Hup as (u & Hu%deref_inv & Hup).
    apply bind_inv in Hup as (u' & [-> _]%as_long_inv & Hup).
    injection Hup as <-.
    destruct (decide (GetBook t = book)) as [Heq | Hne].
    + rewrite filter_cons_True by exact Heq. subst book.
      rewrite Hu in Hv. injection Hv as ->.
      rewrite (IH _ _ _ _ Hrun (lookup_insert_eq _ _ _)).
      f_equal. simpl. unfold signed. destruct (GetSide t); lia.
    + rewrite filter_cons_False by exact Hne.
      apply (IH _ _ _ _ Hrun). simpl. now rewrite lookup_insert_ne.
Qed.

(** C3: for every sequence of trades on the three books whose total
    volume fits in a [long], applying them in turn to a freshly constructed
    position returns a position whose aggregate is the sum of the signed
    quantities (plus for BUY, minus for SELL), in which each book holds the
    signed quantities of the trades on that book, and whose books are the
    three books of the constructor, each of which started at zero. *)
Theorem position_invariant (b : Bond) (trades : list Trade) :
  Forall (fun t => GetBook t ∈ books_) trades ->
  volume trades <= LONG_MAX ->
  exists p,
    UpdateAll trades (Position_ctor b) = Returns p /\
    GetAggregatePosition p = Returns (signed_sum trades) /\
    (forall book, book ∈ books_ ->
       positions p !! book = Some (signed_sum (filter (fun t => GetBook t = book) trades))) /\
    dom (positions p) = dom (positions (Position_ctor b)) /\
    dom (positions p) = list_to_set books_ /\
    (forall book, book ∈ books_ -> positions (Position_ctor b) !! book = Some 0).
Proof.
  intros Hbooks Hvol.
  destruct (UpdateAll_books trades (Position_ctor b) 0 0 0 (ctor_books b) Hbooks)
    as (p & w1 & w2 & w3 & Hrun & _ & Hat & Hsum & Habs); [simpl; lia|].
  assert (Hzero : forall book, book ∈ books_ -> positions (Position_ctor b) !! book = Some 0).
  { intros book Hin. destruct (in_books _ Hin) as [-> | [-> | ->]]; reflexivity. }
  exists p. split; [exact Hrun|]. split; [|split].
  - rewrite (aggregate_books p w1 w2 w3 Hat) by (simpl in Habs; lia).
    f_equal. lia.
  - intros book Hin. now rewrite (UpdateAll_book _ _ _ _ _ Hrun (Hzero book Hin)).
  - destruct Hat as (_ & _ & _ & Hd). destruct (ctor_books b) as (_ & _ & _ & Hd0).
    repeat split.
    + now rewrite Hd, Hd0.
    + rewrite Hd. unfold books_. simpl. set_solver.
    + exact Hzero.
Qed.

(** A buy of 1,000,000 in TRSY1 and a sell of 3,000,000 in TRSY2 leave an
    aggregate of -2,000,000. *)
Lemma position_invariant_witness :
  exists p,
    UpdateAll [trade B02y "TRSY1" 1000000 BUY; trade B02y "TRSY2" 3000000 SELL]
      (Position_ctor B02y) = Returns p /\
    GetAggregatePosition p = Returns (-2000000) /\
    (forall book, book ∈ books_ ->
       positions p !! book
         = Some (signed_sum
                   (filter (fun t => GetBook t = book)
                      [trade B02y "TRSY1" 1000000 BUY; trade B02y "TRSY2" 3000000 SELL]))) /\
    dom (positions p) = dom (positions (Position_ctor B02y)) /\
    dom (positions p) = list_to_set books_ /\
    (forall book, book ∈ books_ -> positions (Position_ctor B02y) !! book = Some 0).
Proof.
  apply (position_invariant B02y
           [trade B02y "TRSY1" 1000000 BUY; trade B02y "TRSY2" 3000000 SELL]).
  - repeat constructor.
  - vm_compute. discriminate.
Defined.

End Positions.

(** ** The position service *)

Section PositionService.
Import PositionStage.
Context {W : Type}.
Variable listeners : list (@ServiceListener Position W).

Lemma PositionService_ctor_returns : PositionService_ctor = Returns initial_service.
Proof. reflexivity. Qed.

(** The constructed service holds a fresh position for each of the seven
    tickers and nothing else. *)
Lemma initial_service_tickers :
  dom (name_p initial_service) = list_to_set GetTickers /\
  Forall (fun ele => exists b, GetProductMap !! ele = Some b /\
                               name_p initial_service !! ele = Some (Position_ctor b))
         GetTickers.
Proof.
  split; [reflexivity|].
  repeat constructor; eexists; split; reflexivity.
Qed.

(** A trade on a known instrument: the position is updated in place and
    handed to the listeners, and stays in the service as they leave it;
    nothing is written to [cout]. *)
Lemma AddTrade_known (t : Trade) (svc : PositionService) (cout : list string) (w : W)
      (pos : Position) :
  name_p svc !! GetTicker (GetProduct t) = Some pos ->
  AddTrade listeners t (svc, cout, w) =
    (pos' ← UpdatePosition pos (GetBook t) (GetQuantity t) (GetSide t);
     '(pos'', w') ← Notify listeners pos' w;
     Returns (mkPositionService (<[GetTicker (GetProduct t) := pos'']> (name_p svc)),
              cout, w')).
Proof.
  intros Hfind. unfold AddTrade. rewrite Hfind.
  destruct (UpdatePosition pos (GetBook t) (GetQuantity t) (GetSide t)) as [pos'| |];
    simpl; try reflexivity.
  rewrite lookup_insert_eq. simpl.
  destruct (Notify listeners pos' w) as [[pos'' w']| |]; simpl; try reflexivity.
  now rewrite insert_insert_eq.
Qed.

(** A trade on an unknown instrument: the message is written, and then
    [name_p.find(ticker)->second] dereferences [end()]. *)
Lemma AddTrade_unknown_ticker (t : Trade) (svc : PositionService) (cout : list string) (w : W) :
  name_p svc !! GetTicker (GetProduct t) = None ->
  AddTrade listeners t (svc, cout, w) = Undefined.
Proof. intros Hfind. unfold AddTrade. rewrite Hfind. simpl. now rewrite Hfind. Qed.

(** A trade on a book the position does not have: [UpdatePosition]
    dereferences [end()]. *)
Lemma AddTrade_unknown_book (t : Trade) (svc : PositionService) (cout : list string) (w : W)
      (pos : Position) :
  name_p svc !! GetTicker (GetProduct t) = Some pos ->
  positions pos !! GetBook t = None ->
  AddTrade listeners t (svc, cout, w) = Undefined.
Proof.
  intros Hfind Hbook. rewrite (AddTrade_known _ _ _ _ _ Hfind).
  unfold UpdatePosition. now rewrite Hbook.
Qed.

(** Whenever [AddTrade] returns, the instrument was known, the update
    succeeded, the listeners were given the updated position, and [cout]
    is as before: no call that returns has dropped an update. *)
Lemma AddTrade_returns_inv (t : Trade) (svc svc' : PositionService)
      (cout cout' : list string) (w w' : W) :
  AddTrade listeners t (svc, cout, w) = Returns (svc', cout', w') ->
  exists pos pos' pos'',
    name_p svc !! GetTicker (GetProduct t) = Some pos /\
    UpdatePosition pos (GetBook t) (GetQuantity t) (GetSide t) = Returns pos' /\
    Notify listeners pos' w = Returns (pos'', w') /\
    svc' = mkPositionService (<[GetTicker (GetProduct t) := pos'']> (name_p svc)) /\
    cout' = cout.
Proof.
  intros Hrun.
  destruct (name_p svc !! GetTicker (GetProduct t)) as [pos|] eqn:Hfind.
  - rewrite (AddTrade_known _ _ _ _ _ Hfind) in Hrun.
    apply bind_inv in Hrun as (pos' & Hup & Hrun).
    apply bind_inv in Hrun as ([pos'' w1] & Hn & Hrun).
    injection Hrun as <- <- <-. exists pos, pos', pos''. auto.
  - now rewrite (AddTrade_unknown_ticker _ _ _ _ Hfind) in Hrun.
Qed.

(** C4, at the failing inputs.  A trade on the bond B99y, which is not in
    the catalog, and a trade on the book TRSY9 of a catalog bond both end
    in undefined behaviour, whatever the listeners are: the first writes
    its message and then dereferences [end()] in the call of [Notify], the
    second dereferences [end()] in [UpdatePosition] without any message.
    Neither call returns with the state unchanged. *)
Theorem AddTrade_unknown_is_undefined (cout : list string) (w : W) :
  AddTrade listeners (trade B99y "TRSY1" 1000000 BUY) (initial_service, cout, w) = Undefined /\
  AddTrade listeners (trade B02y "TRSY9" 1000000 BUY) (initial_service, cout, w) = Undefined.
Proof.
  split.
  - apply AddTrade_unknown_ticker. reflexivity.
  - apply (AddTrade_unknown_book _ _ _ _ (Position_ctor B02y)); reflexivity.
Qed.

End PositionService.

(** ** Snapshot queries *)

Section Lookup.

(** C9, at the failing inputs.  The key B99y is absent from the
    constructed position service, and the query for it is
    [name_p.find(key)->second] with no test: it dereferences [end()], which
    is undefined behaviour, where the claim has a NotFound condition.  The
    risk service stores nothing, so the same happens there for the catalog
    ticker B02y.  [AddTrade] tests the same [find] against [end()] before
    it uses it, and [GetPosition] tests its own. *)
Lemma GetData_absent_is_not_NotFound :
  PositionStage.name_p initial_service !! "B99y" = None /\
  PositionStage.GetData initial_service "B99y" = Undefined /\
  PositionStage.GetData initial_service "B99y" <> Raises NotFound /\
  RiskStage.data RiskStage.RiskService_ctor !! "B02y" = None /\
  RiskStage.GetData RiskStage.RiskService_ctor "B02y" = Undefined /\
  RiskStage.GetData RiskStage.RiskService_ctor "B02y" <> Raises NotFound.
Proof. repeat split; try reflexivity; discriminate. Qed.

Lemma PositionStage_GetData_present (svc : PositionStage.PositionService) (key : string)
      (v : PositionStage.Position) :
  PositionStage.name_p svc !! key = Some v ->
  PositionStage.GetData svc key = Returns (v, svc).
Proof. intros H. unfold PositionStage.GetData. now rewrite H. Qed.

(** After a trade has been added, the query for its ticker returns the
    position as that trade and its listeners left it. *)
Lemma GetData_after_AddTrade {W : Type}
      (listeners : list (@ServiceListener PositionStage.Position W))
      (t : PositionStage.Trade) (svc svc' : PositionStage.PositionService)
      (cout cout' : list string) (w w' : W) :
  PositionStage.AddTrade listeners t (svc, cout, w) = Returns (svc', cout', w') ->
  exists pos pos' pos'',
    PositionStage.name_p svc !! GetTicker (PositionStage.GetProduct t) = Some pos /\
    PositionStage.UpdatePosition pos (PositionStage.GetBook t)
      (PositionStage.GetQuantity t) (PositionStage.GetSide t) = Returns pos' /\
    Notify listeners pos' w = Returns (pos'', w') /\
    PositionStage.GetData svc' (GetTicker (PositionStage.GetProduct t)) = Returns (pos'', svc').
Proof.
  intros Hrun.
  destruct (AddTrade_returns_inv _ _ _ _ _ _ _ _ Hrun)
    as (pos & pos' & pos'' & Hfind & Hup & Hn & -> & _).
  exists pos, pos', pos''. repeat split; auto.
  apply PositionStage_GetData_present. simpl. apply lookup_insert_eq.
Qed.

(** A key that is present: the query of the position service returns the
    position stored for it and leaves the service as it was; after an
    [AddTrade] that returns, the query for the ticker of the trade returns
    the updated position as the listeners left it. *)
Theorem GetData_present_key :
  (forall svc key v,
      PositionStage.name_p svc !! key = Some v ->
      PositionStage.GetData svc key = Returns (v, svc)) /\
  (forall (W : Type) (listeners : list (@ServiceListener PositionStage.Position W))
          t svc cout w svc' cout' w',
      PositionStage.AddTrade listeners t (svc, cout, w) = Returns (svc', cout', w') ->
      exists pos pos' pos'',
        PositionStage.name_p svc !! GetTicker (PositionStage.GetProduct t) = Some pos /\
        PositionStage.UpdatePosition pos (PositionStage.GetBook t)
          (PositionStage.GetQuantity t) (PositionStage.GetSide t) = Returns pos' /\
        Notify listeners pos' w = Returns (pos'', w') /\
        PositionStage.GetData svc' (GetTicker (PositionStage.GetProduct t))
          = Returns (pos'', svc')).
Proof.
  split; [exact PositionStage_GetData_present|].
  intros W listeners t svc cout w svc' cout' w'. apply GetData_after_AddTrade.
Qed.

(** The query for B02y on the constructed service returns the fresh
    position of that bond. *)
Lemma GetData_present_key_witness :
  PositionStage.GetData initial_service "B02y"
    = Returns (PositionStage.Position_ctor B02y, initial_service).
Proof.
  apply (proj1 GetData_present_key initial_service "B02y"). reflexivity.
Defined.

End Lookup.

(** ** Risk *)

Section Risk.
Import RiskStage.
Context {W : Type}.
Variable listeners : list (@ServiceListener PV01 W).

Lemma position_of_books (b : Bond) (v1 v2 v3 : Z) :
  books_at (PositionStage.positions (position_of b v1 v2 v3)) v1 v2 v3.
Proof. unfold books_at. repeat split; reflexivity. Qed.

(** Every [long] is the aggregate of some position, so the statements
    below range over all of them. *)
Lemma every_long_is_an_aggregate (z : Z) :
  LONG_MIN <= z <= LONG_MAX ->
  PositionStage.GetAggregatePosition (position_of B02y z 0 0) = Returns z.
Proof.
  intros Hz. destruct (position_of_books B02y z 0 0) as (H1 & H2 & H3 & _).
  unfold PositionStage.GetAggregatePosition, PositionStage.books_, fold_left.
  rewrite H1, H2, H3. simpl.
  rewrite (as_long_in (0 + z)) by lia. simpl.
  rewrite (as_long_in (0 + z + 0)) by lia. simpl.
  rewrite (as_long_in (0 + z + 0 + 0)) by lia.
  f_equal. lia.
Qed.

(** C6: whenever the aggregate of the position is [aggregate] (any value,
    zero and negative included), [AddPosition] builds the measure with the
    constant 0.02 and that quantity, hands exactly this measure to each
    listener in turn, and leaves the service as it was; a recording
    listener receives it exactly once.  The total risk of the measure, as
    the risk sink computes and writes it, is the constant times the
    aggregate, and the constant does not depend on the product. *)
Theorem risk_linearity (position : PositionStage.Position) (aggregate : Z)
        (svc : RiskService) (w : W) (log : list PV01)
        (now_ms : Z) (file : list (Z * string * float)) :
  PositionStage.GetAggregatePosition position = Returns aggregate ->
  AddPosition listeners position (svc, w) =
    ('(_, w') ← Notify listeners
                  (mkPV01 (PositionStage.product position) sensitivity aggregate) w;
     Returns (svc, w')) /\
  AddPosition [recorder] position (svc, log) =
    Returns (svc, log ++ [mkPV01 (PositionStage.product position) sensitivity aggregate]) /\
  totalRisk (mkPV01 (PositionStage.product position) sensitivity aggregate) =
    (sensitivity * to_double aggregate)%float /\
  Publish now_ms (mkPV01 (PositionStage.product position) sensitivity aggregate) file =
    file ++ [(now_ms, GetTicker (PositionStage.product position),
              (sensitivity * to_double aggregate)%float)] /\
  sensitivity = 0.02%float.
Proof.
  intros Hagg. unfold AddPosition. rewrite Hagg. simpl. repeat split.
Qed.

End Risk.

(** With a listener that records what it is given: the short position
    yields exactly one measure, of quantity -2,000,000 and of total risk
    0.02 * -2,000,000 = -40,000. *)
Lemma risk_linearity_witness :
  RiskStage.AddPosition [recorder] short_position (RiskStage.RiskService_ctor, []) =
    ('(_, w') ← Notify [recorder] (RiskStage.mkPV01 B02y RiskStage.sensitivity (-2000000)) [];
     Returns (RiskStage.RiskService_ctor, w')) /\
  RiskStage.AddPosition [recorder] short_position (RiskStage.RiskService_ctor, []) =
    Returns (RiskStage.RiskService_ctor,
             [] ++ [RiskStage.mkPV01 B02y RiskStage.sensitivity (-2000000)]) /\
  RiskStage.totalRisk (RiskStage.mkPV01 B02y RiskStage.sensitivity (-2000000)) =
    (RiskStage.sensitivity * to_double (-2000000))%float /\
  RiskStage.Publish 1000 (RiskStage.mkPV01 B02y RiskStage.sensitivity (-2000000)) [] =
    [] ++ [(1000, "B02y", (RiskStage.sensitivity * to_double (-2000000))%float)] /\
  RiskStage.sensitivity = 0.02%float.
Proof.
  apply (risk_linearity [recorder] short_position (-2000000) RiskStage.RiskService_ctor
           [] [] 1000 []).
  reflexivity.
Defined.

Lemma risk_of_short_position :
  RiskStage.AddPosition [recorder] short_position (RiskStage.RiskService_ctor, []) =
    Returns (RiskStage.RiskService_ctor, [RiskStage.mkPV01 B02y 0.02 (-2000000)]) /\
  RiskStage.totalRisk (RiskStage.mkPV01 B02y 0.02 (-2000000)) = (-40000)%float.
Proof. split; reflexivity. Qed.

Lemma risk_of_flat_position :
  RiskStage.AddPosition [recorder] (PositionStage.Position_ctor B10y)
    (RiskStage.RiskService_ctor, []) =
    Returns (RiskStage.RiskService_ctor, [RiskStage.mkPV01 B10y 0.02 0]) /\
  RiskStage.totalRisk (RiskStage.mkPV01 B10y 0.02 0) = 0%float.
Proof. split; reflexivity. Qed.

(** ** The GUI throttle *)

Section Throttle.
Import GUIStage.

Lemma ProvideData_forwards (t : Z) (d : Price) (svc : GUIService) :
  300 < t - last_quote_time svc <= LONG_MAX ->
  ProvideData t d svc =
    Returns (mkGUIService (service_start_time svc) t (gui_connector svc ++ [d])).
Proof.
  intros [Hgt Hmax]. unfold ProvideData.
  rewrite as_long_in by (unfold LONG_MIN; lia). simpl.
  apply Z.ltb_lt in Hgt. now rewrite Hgt.
Qed.

Lemma ProvideData_drops (t : Z) (d : Price) (svc : GUIService) :
  LONG_MIN <= t - last_quote_time svc <= 300 ->
  ProvideData t d svc = Returns svc.
Proof.
  intros [Hmin Hle]. unfold ProvideData.
  rewrite as_long_in by (unfold LONG_MAX; lia). simpl.
  apply Z.ltb_ge in Hle. now rewrite Hle.
Qed.




End Throttle.

(** ** Execution decisions *)

Section Execution.
Import ExecutionStage.

Lemma side_of_counter (n : Z) :
  0 <= n -> PricingSide_of_int (Z.rem n 2) = Returns (if Z.even n then BID else OFFER).
Proof.
  intros Hn. rewrite Z.rem_mod_nonneg by lia. rewrite Zmod_even.
  destruct (Z.even n); reflexivity.
Qed.

Lemma front_head {A : Type} (v : list A) (a : A) : head v = Some a -> front v = Returns a.
Proof. intros H. unfold front. now rewrite H. Qed.

Lemma front_inv {A : Type} (v : list A) (a : A) : front v = Returns a -> head v = Some a.
Proof. unfold front. apply deref_inv. Qed.

(** The constructor on a counter that can still be incremented: the new
    count names the order and picks the side, and price and quantity come
    from opposite sides of the book. *)
Lemma AlgoExecution_ctor_returns (data_ : OrderBook) (counter : Z) (bid0 offer0 : Order) (h : Z) :
  0 <= counter < INT_MAX ->
  head (GetBidStack data_) = Some bid0 ->
  head (GetOfferStack data_) = Some offer0 ->
  static_cast_long
    (to_double (if Z.even (counter + 1) then GetQuantity offer0 else GetQuantity bid0)
     * hidden_ratio)%float = Returns h ->
  AlgoExecution_ctor data_ counter =
    Returns (mkAlgoExecution
               (mkExecutionOrder (GetProduct data_)
                  (if Z.even (counter + 1) then BID else OFFER)
                  (to_string (counter + 1)) MARKET
                  (if Z.even (counter + 1) then GetPrice bid0 else GetPrice offer0)
                  (if Z.even (counter + 1) then GetQuantity offer0 else GetQuantity bid0)
                  h (to_string (counter + 1)) false)
               CME,
             counter + 1).
Proof.
  intros Hc Hb Ho Hh. unfold AlgoExecution_ctor.
  rewrite as_int_in by (unfold INT_MIN, INT_MAX in *; lia). simpl.
  rewrite side_of_counter by lia. simpl.
  rewrite (front_head _ _ Hb), (front_head _ _ Ho). simpl.
  destruct (Z.even (counter + 1)); rewrite Hh; reflexivity.
Qed.

Section Instance.
Context {W : Type}.
Variable listeners : list (@ServiceListener AlgoExecution W).

Lemma Execute_skips (data_ : OrderBook) (counter : Z) (w : W) (bid0 offer0 : Order) :
  head (GetBidStack data_) = Some bid0 ->
  head (GetOfferStack data_) = Some offer0 ->
  within_tol (GetPrice bid0) (GetPrice offer0) = false ->
  Execute listeners data_ (counter, w) = Returns (counter, w).
Proof.
  intros Hb Ho Htol. unfold Execute.
  rewrite (front_head _ _ Hb), (front_head _ _ Ho). simpl. now rewrite Htol.
Qed.

Lemma Execute_emits (data_ : OrderBook) (counter counter' : Z) (w : W) (bid0 offer0 : Order)
      (algo : AlgoExecution) :
  head (GetBidStack data_) = Some bid0 ->
  head (GetOfferStack data_) = Some offer0 ->
  within_tol (GetPrice bid0) (GetPrice offer0) = true ->
  AlgoExecution_ctor data_ counter = Returns (algo, counter') ->
  Execute listeners data_ (counter, w) =
    ('(_, w') ← Notify listeners algo w; Returns (counter', w')).
Proof.
  intros Hb Ho Htol Hctor. unfold Execute.
  rewrite (front_head _ _ Hb), (front_head _ _ Ho). simpl. rewrite Htol, Hctor. reflexivity.
Qed.

(** Whenever [Execute] returns, either the spread was above the tolerance
    and nothing happened, or it was within the tolerance and one execution
    was constructed and handed to the listeners. *)
Lemma Execute_inv (data_ : OrderBook) (counter counter' : Z) (w w' : W) :
  Execute listeners data_ (counter, w) = Returns (counter', w') ->
  exists bid0 offer0,
    head (GetBidStack data_) = Some bid0 /\
    head (GetOfferStack data_) = Some offer0 /\
    ((within_tol (GetPrice bid0) (GetPrice offer0) = false /\ counter' = counter /\ w' = w) \/
     (within_tol (GetPrice bid0) (GetPrice offer0) = true /\
      exists algo algo',
        AlgoExecution_ctor data_ counter = Returns (algo, counter') /\
        Notify listeners algo w = Returns (algo', w'))).
Proof.
  unfold Execute. intros Hrun.
  apply bind_inv in Hrun as (bid0 & Hb & Hrun).
  apply bind_inv in Hrun as (offer0 & Ho & Hrun).
  exists bid0, offer0. split; [now apply front_inv|]. split; [now apply front_inv|].
  destruct (within_tol (GetPrice bid0) (GetPrice offer0)).
  - right. split; [reflexivity|].
    apply bind_inv in Hrun as ([algo c1] & Hctor & Hrun).
    apply bind_inv in Hrun as ([algo' w1] & Hn & Hrun).
    injection Hrun as <- <-. exists algo, algo'. auto.
  - left. injection Hrun as <- <-. auto.
Qed.

End Instance.

End Execution.

Section ExecutionRuns.
Import ExecutionStage.

Lemma converts_inv (q : Z) :
  converts q = true -> exists h, static_cast_long (to_double q * hidden_ratio)%float = Returns h.
Proof.
  unfold converts.
  destruct (static_cast_long (to_double q * hidden_ratio)%float) as [h| |];
    simpl; [eauto | discriminate | discriminate].
Qed.

Lemma well_formed_inv (ob : OrderBook) :
  well_formed ob = true ->
  exists bid0 offer0,
    head (GetBidStack ob) = Some bid0 /\ head (GetOfferStack ob) = Some offer0 /\
    qualifies ob = within_tol (GetPrice bid0) (GetPrice offer0) /\
    converts (GetQuantity bid0) = true /\ converts (GetQuantity offer0) = true.
Proof.
  unfold well_formed, qualifies.
  destruct (head (GetBidStack ob)) as [bid0|]; [|discriminate].
  destruct (head (GetOfferStack ob)) as [offer0|]; [|discriminate].
  intros [H1 H2]%andb_true_iff. exists bid0, offer0. auto.
Qed.

(** One evaluation by the instance numbered [i]. *)
Lemma Execute_instance (i : nat) (ob : OrderBook) (c : Z) (log : list (nat * AlgoExecution)) :
  0 <= c < INT_MAX ->
  well_formed ob = true ->
  if qualifies ob
  then exists algo bid0 offer0,
      Execute (instance i) ob (c, log) = Returns (c + 1, log ++ [(i, algo)]) /\
      head (GetBidStack ob) = Some bid0 /\ head (GetOfferStack ob) = Some offer0 /\
      GetOrderId (GetOrder algo) = to_string (c + 1) /\
      GetPricingSide (GetOrder algo) = (if Z.even (c + 1) then BID else OFFER) /\
      GetOrderPrice (GetOrder algo) = (if Z.even (c + 1) then GetPrice bid0 else GetPrice offer0) /\
      GetVisibleQuantity (GetOrder algo) =
        (if Z.even (c + 1) then GetQuantity offer0 else GetQuantity bid0)
  else Execute (instance i) ob (c, log) = Returns (c, log).
Proof.
  intros Hc Hwf.
  destruct (well_formed_inv ob Hwf) as (bid0 & offer0 & Hb & Ho & Hq & Hcb & Hco).
  rewrite Hq. destruct (within_tol (GetPrice bid0) (GetPrice offer0)) eqn:Htol.
  - assert (exists h, static_cast_long
              (to_double (if Z.even (c + 1) then GetQuantity offer0 else GetQuantity bid0)
               * hidden_ratio)%float = Returns h) as [h Hh].
    { destruct (Z.even (c + 1)); now apply converts_inv. }
    pose proof (AlgoExecution_ctor_returns ob c bid0 offer0 h Hc Hb Ho Hh) as Hctor.
    eexists _, bid0, offer0. split.
    + rewrite (Execute_emits _ _ _ _ _ _ _ _ Hb Ho Htol Hctor). reflexivity.
    + simpl. auto 10.
  - now apply (Execute_skips _ _ _ _ bid0 offer0).
Qed.

Lemma ExecuteAll_feed_cons (i : nat) (ob : OrderBook) (rest : list (nat * OrderBook))
      (st : Z * list (nat * AlgoExecution)) :
  ExecuteAll (feed_of ((i, ob) :: rest)) st =
    (st' ← Execute (instance i) ob st; ExecuteAll (feed_of rest) st').
Proof. reflexivity. Qed.

(** C5: order books of any instruments, each evaluated by any of several
    service instances, from a counter [c].  The run returns; the counter
    has grown by the number of executions, which is the number of
    qualifying books; and the [k]-th execution (from 0) comes from the
    [k]-th qualifying book, is named by the count [c + 1 + k], aggresses
    on the bid when that count is even and on the offer when it is odd,
    and takes the best-bid price with the best-offer quantity in the first
    case and the best-offer price with the best-bid quantity in the
    second.  Two consecutive executions are on opposite sides. *)
Theorem execution_side_alternates (runs : list (nat * OrderBook)) :
  forall (c : Z) (log : list (nat * AlgoExecution)),
  0 <= c ->
  c + Z.of_nat (length runs) <= INT_MAX ->
  Forall (fun r => well_formed r.2 = true) runs ->
  exists emitted,
    ExecuteAll (feed_of runs) (c, log) = Returns (c + Z.of_nat (length emitted), log ++ emitted) /\
    length emitted = length (filter (fun r => qualifies r.2 = true) runs) /\
    (forall (k i : nat) (algo : AlgoExecution),
        emitted !! k = Some (i, algo) ->
        exists ob bid0 offer0,
          filter (fun r => qualifies r.2 = true) runs !! k = Some (i, ob) /\
          head (GetBidStack ob) = Some bid0 /\
          head (GetOfferStack ob) = Some offer0 /\
          GetOrderId (GetOrder algo) = to_string (c + 1 + Z.of_nat k) /\
          GetPricingSide (GetOrder algo) =
            (if Z.even (c + 1 + Z.of_nat k) then BID else OFFER) /\
          (GetPricingSide (GetOrder algo) = BID ->
           GetOrderPrice (GetOrder algo) = GetPrice bid0 /\
           GetVisibleQuantity (GetOrder algo) = GetQuantity offer0) /\
          (GetPricingSide (GetOrder algo) = OFFER ->
           GetOrderPrice (GetOrder algo) = GetPrice offer0 /\
           GetVisibleQuantity (GetOrder algo) = GetQuantity bid0)) /\
    (forall (k : nat) (a1 a2 : nat * AlgoExecution),
        emitted !! k = Some a1 -> emitted !! S k = Some a2 ->
        GetPricingSide (GetOrder a1.2) <> GetPricingSide (GetOrder a2.2)).
Proof.
  induction runs as [|[i ob] rest IH]; intros c log Hc Hmax Hwf.
  - exists []. simpl. rewrite Z.add_0_r, app_nil_r.
    repeat split; intros k; intros; rewrite lookup_nil in *; discriminate.
  - inversion Hwf as [|? ? Hob Hrest]; subst. simpl in Hob.
    rewrite length_cons, Nat2Z.inj_succ in Hmax.
    pose proof (Execute_instance i ob c log ltac:(lia) Hob) as Hstep.
    destruct (qualifies ob) eqn:Hq.
    + destruct Hstep as (algo & bid0 & offer0 & Hrun & Hb & Ho & Hid & Hside & Hprice & Hqty).
      destruct (IH (c + 1) (log ++ [(i, algo)]) ltac:(lia) ltac:(lia) Hrest)
        as (emitted & Hruns & Hlen & Hspec & Halt).
      exists ((i, algo) :: emitted).
      rewrite filter_cons_True by exact Hq.
      split; [|split; [|split]].
      * rewrite ExecuteAll_feed_cons, Hrun. simpl. rewrite Hruns.
        rewrite <- app_assoc. simpl. do 2 f_equal. lia.
      * simpl. now rewrite Hlen.
      * intros [|k] j a Hk; simpl in Hk.
        -- injection Hk as <- <-. exists ob, bid0, offer0.
           change (Z.of_nat 0) with 0. rewrite Z.add_0_r.
           split; [reflexivity|]. split; [exact Hb|]. split; [exact Ho|].
           split; [exact Hid|]. split; [exact Hside|].
           rewrite Hside, Hprice, Hqty.
           destruct (Z.even (c + 1)); split; intros; try discriminate; split; reflexivity.
        -- destruct (Hspec k j a Hk) as (ob' & b' & o' & Hf & Hb' & Ho' & Hid' & Hside' & HB & HO).
           exists ob', b', o'. simpl.
           replace (c + 1 + Z.of_nat (S k)) with (c + 1 + 1 + Z.of_nat k) by lia.
           auto 10.
      * intros [|k] a1 a2 H1 H2; simpl in H1, H2.
        -- injection H1 as <-. destruct a2 as [j a2].
           destruct (Hspec 0%nat j a2 H2) as (_ & _ & _ & _ & _ & _ & _ & Hside2 & _).
           change (Z.of_nat 0) with 0 in Hside2. rewrite Z.add_0_r in Hside2.
           simpl. rewrite Hside, Hside2.
           replace (c + 1 + 1) with (Z.succ (c + 1)) by lia. rewrite Z.even_succ.
           rewrite <- Z.negb_even. destruct (Z.even (c + 1)); discriminate.
        -- now apply (Halt k).
    + destruct (IH c log Hc ltac:(lia) Hrest) as (emitted & Hruns & Hlen & Hspec & Halt).
      exists emitted.
      rewrite filter_cons_False by (simpl; rewrite Hq; discriminate).
      split; [|auto].
      rewrite ExecuteAll_feed_cons, Hstep. simpl. exact Hruns.
Qed.

End ExecutionRuns.

(** Two instances and two instruments: the first and the third book
    qualify; the executions are numbered 1 and 2 and lie on opposite
    sides. *)
Lemma execution_side_alternates_witness :
  exists emitted,
    ExecutionStage.ExecuteAll
      (feed_of [(0%nat, book B02y p99_16 p99_16_128th);
                (1%nat, book B10y p99_16 p99_17);
                (1%nat, book B10y p99_16 p99_16_128th)])
      (0, []) = Returns (0 + Z.of_nat (length emitted), [] ++ emitted) /\
    length emitted =
      length (filter (fun r => qualifies r.2 = true)
                [(0%nat, book B02y p99_16 p99_16_128th);
                 (1%nat, book B10y p99_16 p99_17);
                 (1%nat, book B10y p99_16 p99_16_128th)]) /\
    (forall (k i : nat) (algo : ExecutionStage.AlgoExecution),
        emitted !! k = Some (i, algo) ->
        exists ob bid0 offer0,
          filter (fun r => qualifies r.2 = true)
            [(0%nat, book B02y p99_16 p99_16_128th);
             (1%nat, book B10y p99_16 p99_17);
             (1%nat, book B10y p99_16 p99_16_128th)] !! k = Some (i, ob) /\
          head (ExecutionStage.GetBidStack ob) = Some bid0 /\
          head (ExecutionStage.GetOfferStack ob) = Some offer0 /\
          ExecutionStage.GetOrderId (ExecutionStage.GetOrder algo)
            = to_string (0 + 1 + Z.of_nat k) /\
          ExecutionStage.GetPricingSide (ExecutionStage.GetOrder algo) =
            (if Z.even (0 + 1 + Z.of_nat k) then ExecutionStage.BID else ExecutionStage.OFFER) /\
          (ExecutionStage.GetPricingSide (ExecutionStage.GetOrder algo) = ExecutionStage.BID ->
           ExecutionStage.GetOrderPrice (ExecutionStage.GetOrder algo)
             = ExecutionStage.GetPrice bid0 /\
           ExecutionStage.GetVisibleQuantity (ExecutionStage.GetOrder algo)
             = ExecutionStage.GetQuantity offer0) /\
          (ExecutionStage.GetPricingSide (ExecutionStage.GetOrder algo) = ExecutionStage.OFFER ->
           ExecutionStage.GetOrderPrice (ExecutionStage.GetOrder algo)
             = ExecutionStage.GetPrice offer0 /\
           ExecutionStage.GetVisibleQuantity (ExecutionStage.GetOrder algo)
             = ExecutionStage.GetQuantity bid0)) /\
    (forall (k : nat) (a1 a2 : nat * ExecutionStage.AlgoExecution),
        emitted !! k = Some a1 -> emitted !! S k = Some a2 ->
        ExecutionStage.GetPricingSide (ExecutionStage.GetOrder a1.2)
          <> ExecutionStage.GetPricingSide (ExecutionStage.GetOrder a2.2)).
Proof.
  apply (execution_side_alternates
           [(0%nat, book B02y p99_16 p99_16_128th);
            (1%nat, book B10y p99_16 p99_17);
            (1%nat, book B10y p99_16 p99_16_128th)] 0 []).
  - lia.
  - vm_compute. discriminate.
  - repeat constructor.
Defined.

(** The same run, evaluated. *)
Lemma two_executions_evaluated :
  exists o1 o2,
    ExecutionStage.ExecuteAll
      (feed_of [(0%nat, book B02y p99_16 p99_16_128th);
                (1%nat, book B10y p99_16 p99_17);
                (1%nat, book B10y p99_16 p99_16_128th)])
      (0, []) = Returns (2, [(0%nat, ExecutionStage.mkAlgoExecution o1 ExecutionStage.CME);
                             (1%nat, ExecutionStage.mkAlgoExecution o2 ExecutionStage.CME)]) /\
    o1 = ExecutionStage.mkExecutionOrder B02y ExecutionStage.OFFER "1" ExecutionStage.MARKET
           p99_16_128th 1000000 900000 "1" false /\
    o2 = ExecutionStage.mkExecutionOrder B10y ExecutionStage.BID "2" ExecutionStage.MARKET
           p99_16 1000000 900000 "2" false.
Proof. eexists _, _. split; [vm_compute; reflexivity|]. split; reflexivity. Qed.

(** ** The hidden quantity in binary64

    [static_cast<long>(quantity * hidden_ratio)] is computed on doubles.
    The lemmas below follow the IEEE multiplication through its
    specification ([SpecFloat]) and show that the result is nine tenths of
    the quantity, rounded down, for every quantity from 0 up to [2^48]. *)

Section HiddenQuantity.

Lemma digits2_pos_bounds (p : positive) :
  2 ^ (Z.pos (digits2_pos p) - 1) <= Z.pos p < 2 ^ Z.pos (digits2_pos p).
Proof.
  induction p as [p IH|p IH|]; simpl digits2_pos.
  - rewrite Pos2Z.inj_succ. replace (Z.succ (Z.pos (digits2_pos p)) - 1)
      with (Z.succ (Z.pos (digits2_pos p) - 1)) by lia.
    rewrite !Z.pow_succ_r by lia. lia.
  - rewrite Pos2Z.inj_succ. replace (Z.succ (Z.pos (digits2_pos p)) - 1)
      with (Z.succ (Z.pos (digits2_pos p) - 1)) by lia.
    rewrite !Z.pow_succ_r by lia. lia.
  - simpl. lia.
Qed.

Lemma digits2_pos_unique (p : positive) (d : Z) :
  2 ^ (d - 1) <= Z.pos p < 2 ^ d -> 0 < d -> Z.pos (digits2_pos p) = d.
Proof.
  intros [Hlo Hhi] Hd. pose proof (digits2_pos_bounds p) as [Glo Ghi].
  assert (d - 1 < Z.pos (digits2_pos p)).
  { apply (Z.pow_lt_mono_r_iff 2); lia. }
  assert (Z.pos (digits2_pos p) - 1 < d).
  { apply (Z.pow_lt_mono_r_iff 2); lia. }
  lia.
Qed.

Lemma iter_xO (k : positive) (p : positive) :
  Z.pos (Pos.iter xO p k) = Z.pos p * 2 ^ Z.pos k.
Proof.
  induction k as [|k IH] using Pos.peano_ind.
  - simpl. lia.
  - rewrite Pos.iter_succ, Pos2Z.inj_xO, IH, Pos2Z.inj_succ, Z.pow_succ_r by lia. lia.
Qed.

Lemma shr_1_half (r : shr_record) :
  0 <= shr_m r -> shr_m (shr_1 r) = shr_m r / 2 /\ 0 <= shr_m (shr_1 r).
Proof.
  destruct r as [m rb sb]. intros Hm. cbn [shr_m] in Hm.
  destruct m as [|[p|p|]|p]; cbn [shr_1 shr_m]; try lia.
  - split; [reflexivity | lia].
  - split; [|lia]. apply (Z.div_unique (Z.pos p~1) 2 (Z.pos p) 1); lia.
  - split; [|lia]. apply (Z.div_unique (Z.pos p~0) 2 (Z.pos p) 0); lia.
  - split; [reflexivity | lia].
Qed.

Lemma iter_shr_1 (n : positive) :
  forall r : shr_record,
    0 <= shr_m r ->
    shr_m (SpecFloat.iter_pos shr_1 n r) = shr_m r / 2 ^ Z.pos n /\ 0 <= shr_m (SpecFloat.iter_pos shr_1 n r).
Proof.
  induction n as [n IH|n IH|]; intros r Hr; cbn [SpecFloat.iter_pos].
  - destruct (shr_1_half r Hr) as [E1 P1].
    destruct (IH _ P1) as [E2 P2]. destruct (IH _ P2) as [E3 P3].
    split; [|exact P3]. rewrite E3, E2, E1.
    assert (0 < 2 ^ Z.pos n) by (apply Z.pow_pos_nonneg; lia).
    rewrite !Z.div_div by lia. f_equal.
    replace (Z.pos n~1) with (1 + Z.pos n + Z.pos n) by lia.
    rewrite !Z.pow_add_r by lia. change (2 ^ 1) with 2. lia.
  - destruct (IH _ Hr) as [E2 P2]. destruct (IH _ P2) as [E3 P3].
    split; [|exact P3]. rewrite E3, E2.
    assert (0 < 2 ^ Z.pos n) by (apply Z.pow_pos_nonneg; lia).
    rewrite !Z.div_div by lia. f_equal.
    replace (Z.pos n~0) with (Z.pos n + Z.pos n) by lia.
    rewrite !Z.pow_add_r by lia. lia.
  - destruct (shr_1_half r Hr) as [E1 P1]. split; [|exact P1].
    rewrite E1. reflexivity.
Qed.

Lemma round_nearest_even_cases (m : Z) (l : location) :
  round_nearest_even m l = m \/ round_nearest_even m l = m + 1.
Proof. destruct l as [|[]]; simpl; auto. destruct (Z.even m); auto. Qed.


(** A mantissa of 53 digits is left alone by the rounding step. *)
Lemma binary_round_aux_53 (s : bool) (m : positive) (e : Z) :
  Z.pos (digits2_pos m) = 53 -> -1074 <= e <= 971 ->
  binary_round_aux prec emax s (Z.pos m) e loc_Exact = S754_finite s m e.
Proof.
  intros Hd He. unfold binary_round_aux, shr_fexp. cbn [Zdigits2]. rewrite Hd.
  replace (fexp prec emax (53 + e) - e) with 0
    by (unfold fexp, SpecFloat.emin, prec, emax; lia).
  cbn [shr shr_record_of_loc shr_m loc_of_shr_record round_nearest_even Zdigits2].
  rewrite Hd.
  replace (fexp prec emax (53 + e) - e) with 0
    by (unfold fexp, SpecFloat.emin, prec, emax; lia).
  cbn [shr shr_record_of_loc shr_m].
  replace (e <=? emax - prec) with true; [reflexivity|].
  symmetry. apply Z.leb_le. unfold prec, emax. lia.
Qed.

(** The double of a positive integer below [2^53]: its digits moved up to
    53, exactly. *)
Lemma binary_normalize_pos (p : positive) :
  Z.pos (digits2_pos p) <= 53 ->
  exists mz,
    binary_normalize prec emax (Z.pos p) 0 false
      = S754_finite false mz (Z.pos (digits2_pos p) - 53) /\
    Z.pos mz = Z.pos p * 2 ^ (53 - Z.pos (digits2_pos p)) /\
    Z.pos (digits2_pos mz) = 53.
Proof.
  intros Hd. pose proof (digits2_pos_bounds p) as [Hlo Hhi].
  unfold binary_normalize, binary_round.
  remember (Z.pos (digits2_pos p)) as d eqn:Ed.
  replace (fexp prec emax (d + 0)) with (d - 53)
    by (unfold fexp, SpecFloat.emin, prec, emax; lia).
  unfold shl_align.
  destruct (d - 53 - 0) as [|k|k] eqn:Hk; try lia.
  - assert (d = 53) as -> by lia. exists p.
    rewrite binary_round_aux_53 by (rewrite <- ?Ed; lia).
    repeat split; [|now symmetry]. change (2 ^ (53 - 53)) with 1. lia.
  - assert (Z.pos k = 53 - d) as Hk' by lia.
    assert (Z.pos (digits2_pos (Pos.iter xO p k)) = 53) as Hd53.
    { apply digits2_pos_unique; [|lia]. rewrite iter_xO, Hk'.
      assert (2 ^ (53 - 1) = 2 ^ (d - 1) * 2 ^ (53 - d)) as ->
        by (rewrite <- Z.pow_add_r by lia; f_equal; lia).
      assert (2 ^ 53 = 2 ^ d * 2 ^ (53 - d)) as ->
        by (rewrite <- Z.pow_add_r by lia; f_equal; lia).
      assert (0 < 2 ^ (53 - d)) by (apply Z.pow_pos_nonneg; lia).
      split; [apply Z.mul_le_mono_nonneg_r | apply Z.mul_lt_mono_pos_r]; lia. }
    exists (Pos.iter xO p k).
    rewrite binary_round_aux_53 by (try exact Hd53; lia).
    repeat split; [|exact Hd53]. now rewrite iter_xO, Hk'.
Qed.


(** The last step of [binary_round_aux] on a mantissa of 53 digits, and on
    [2^53], which a rounding up can produce. *)
Lemma round_finish_53 (s : bool) (pm : positive) (e : Z) :
  Z.pos (digits2_pos pm) = 53 -> -1074 <= e <= 971 ->
  (let '(mrs'', e'') := shr_fexp prec emax (Z.pos pm) e loc_Exact in
   match shr_m mrs'' with
   | Z0 => S754_zero s
   | Zpos m => if e'' <=? emax - prec then S754_finite s m e'' else S754_infinity s
   | Zneg _ => S754_nan
   end) = S754_finite s pm e.
Proof.
  intros Hd He. unfold shr_fexp. cbn [Zdigits2]. rewrite Hd.
  replace (fexp prec emax (53 + e) - e) with 0
    by (unfold fexp, SpecFloat.emin, prec, emax; lia).
  cbn [shr shr_record_of_loc shr_m].
  replace (e <=? emax - prec) with true; [reflexivity|].
  symmetry. apply Z.leb_le. unfold prec, emax. lia.
Qed.

Lemma round_finish_54 (s : bool) (e : Z) :
  -1074 <= e <= 970 ->
  (let '(mrs'', e'') := shr_fexp prec emax 9007199254740992 e loc_Exact in
   match shr_m mrs'' with
   | Z0 => S754_zero s
   | Zpos m => if e'' <=? emax - prec then S754_finite s m e'' else S754_infinity s
   | Zneg _ => S754_nan
   end) = S754_finite s 4503599627370496 (e + 1).
Proof.
  intros He. unfold shr_fexp.
  change (Zdigits2 9007199254740992) with 54.
  replace (fexp prec emax (54 + e) - e) with 1
    by (unfold fexp, SpecFloat.emin, prec, emax; lia).
  cbn [shr shr_record_of_loc shr_m SpecFloat.iter_pos shr_1].
  replace (e + 1 <=? emax - prec) with true; [reflexivity|].
  symmetry. apply Z.leb_le. unfold prec, emax. lia.
Qed.

(** Rounding a mantissa [M] of [D > 53] digits: [D - 53] digits are shifted
    out, and the mantissa kept is the quotient or the quotient plus one. *)
Lemma binary_round_aux_long (s : bool) (M : positive) (e0 : Z) :
  53 < Z.pos (digits2_pos M) ->
  -1074 <= e0 + (Z.pos (digits2_pos M) - 53) <= 970 ->
  exists (mf : positive) (ef : Z) (m'' : Z),
    binary_round_aux prec emax s (Z.pos M) e0 loc_Exact = S754_finite s mf ef /\
    (m'' = Z.pos M / 2 ^ (Z.pos (digits2_pos M) - 53) \/
     m'' = Z.pos M / 2 ^ (Z.pos (digits2_pos M) - 53) + 1) /\
    ((Z.pos mf = m'' /\ ef = e0 + (Z.pos (digits2_pos M) - 53)) \/
     (m'' = 9007199254740992 /\ Z.pos mf = 4503599627370496 /\
      ef = e0 + (Z.pos (digits2_pos M) - 53) + 1)).
Proof.
  intros HD He. pose proof (digits2_pos_bounds M) as [Hlo Hhi].
  remember (Z.pos (digits2_pos M)) as D eqn:ED.
  unfold binary_round_aux. unfold shr_fexp at 1. cbn [Zdigits2]. rewrite <- ED.
  replace (fexp prec emax (D + e0) - e0) with (D - 53)
    by (unfold fexp, SpecFloat.emin, prec, emax; lia).
  destruct (D - 53) as [|n|n] eqn:En; try lia.
  cbn [shr shr_record_of_loc].
  destruct (iter_shr_1 n {| shr_m := Z.pos M; shr_r := false; shr_s := false |})
    as [Em Pm]; [cbn; lia|].
  destruct (SpecFloat.iter_pos shr_1 n {| shr_m := Z.pos M; shr_r := false; shr_s := false |})
    as [m' rb sb]. cbn [shr_m] in Em, Pm |- *.
  assert (0 < 2 ^ Z.pos n) as Hpow by (apply Z.pow_pos_nonneg; lia).
  assert (2 ^ 52 <= m' < 2 ^ 53) as Hm'.
  { rewrite Em. split.
    - apply Z.div_le_lower_bound; [lia|]. rewrite <- Z.pow_add_r by lia.
      replace (Z.pos n + 52) with (D - 1) by lia. exact Hlo.
    - apply Z.div_lt_upper_bound; [lia|]. rewrite <- Z.pow_add_r by lia.
      replace (Z.pos n + 53) with D by lia. exact Hhi. }
  change (2 ^ 52) with 4503599627370496 in Hm'.
  change (2 ^ 53) with 9007199254740992 in Hm'.
  remember (round_nearest_even m' (loc_of_shr_record {| shr_m := m'; shr_r := rb; shr_s := sb |}))
    as m'' eqn:Em''.
  assert (m'' = m' \/ m'' = m' + 1) as Hcases
    by (rewrite Em''; apply round_nearest_even_cases).
  destruct (Z.eq_dec m'' 9007199254740992) as [Hcarry|Hnocarry].
  - exists 4503599627370496%positive, (e0 + Z.pos n + 1), m''.
    split; [|split].
    + rewrite Hcarry. apply round_finish_54. lia.
    + rewrite <- Em. exact Hcases.
    + right. auto.
  - destruct m'' as [|pm|pm]; try lia.
    exists pm, (e0 + Z.pos n), (Z.pos pm). split; [|split].
    + apply round_finish_53; [|lia]. apply digits2_pos_unique; [|lia].
      change (2 ^ (53 - 1)) with 4503599627370496.
      change (2 ^ 53) with 9007199254740992. lia.
    + rewrite <- Em. exact Hcases.
    + left. auto.
Qed.


(** The arithmetic of nine tenths.  [8106479329266893 / 2^53] is the double
    0.9; ten times its mantissa is [9 * 2^53 + 2].  [S] is the power of two
    that brings [q] to 53 digits, [T] the power of two shifted out by the
    rounding, and [m] the mantissa kept or its successor. *)
Lemma nine_tenths_quotient (q S T K m : Z) :
  0 < q < 2 ^ 48 -> 32 <= S -> 0 < T <= 2 ^ 53 -> 0 < K ->
  T * K = 2 ^ 53 * S ->
  (m = q * S * 8106479329266893 / T \/ m = q * S * 8106479329266893 / T + 1) ->
  m / K = 9 * q / 10.
Proof.
  change (2 ^ 48) with 281474976710656. change (2 ^ 53) with 9007199254740992.
  intros Hq HS HT HK HTK Hm.
  set (N := 9 * q / 10).
  assert (10 * N <= 9 * q < 10 * N + 10) as HN.
  { pose proof (Z.div_mod (9 * q) 10 ltac:(lia)) as Hdm.
    pose proof (Z.mod_pos_bound (9 * q) 10 ltac:(lia)) as Hmod. subst N. lia. }
  assert (0 <= N) as HN0 by (subst N; apply Z.div_pos; lia).
  set (M := q * S * 8106479329266893) in *.
  assert (T * (N * K) <= M) as Hlow.
  { replace (T * (N * K)) with (N * (T * K)) by ring. rewrite HTK. subst M.
    replace (N * (9007199254740992 * S)) with ((N * 9007199254740992) * S) by ring.
    replace (q * S * 8106479329266893) with ((q * 8106479329266893) * S) by ring.
    apply Z.mul_le_mono_nonneg_r; lia. }
  assert (M < T * ((N + 1) * K - 1)) as Hhigh.
  { replace (T * ((N + 1) * K - 1)) with ((N + 1) * (T * K) - T) by ring. rewrite HTK.
    subst M.
    set (X := (N + 1) * 9007199254740992 - q * 8106479329266893).
    assert (562949953421312 <= X) as HX by (subst X; lia).
    assert (562949953421312 * 32 <= X * S) as HXS by (apply Z.mul_le_mono_nonneg; lia).
    replace ((N + 1) * (9007199254740992 * S)) with (X * S + q * S * 8106479329266893)
      by (subst X; ring).
    lia. }
  assert (N * K <= M / T) as Hl by (apply Z.div_le_lower_bound; lia).
  assert (M / T < (N + 1) * K - 1) as Hh by (apply Z.div_lt_upper_bound; lia).
  symmetry. apply (Z.div_unique m K N (m - N * K)); [|ring].
  left. destruct Hm as [-> | ->]; lia.
Qed.

Lemma Prim2SF_hidden_ratio :
  Prim2SF ExecutionStage.hidden_ratio = S754_finite false 8106479329266893 (-53).
Proof. reflexivity. Qed.

(** The product of the double of [q] with the double 0.9, truncated, is
    [floor (9 q / 10)] for every positive [q] below [2^48]. *)
Lemma SFmul_nine_tenths (p : positive) :
  Z.pos p < 2 ^ 48 ->
  exists (mf : positive) (ef : Z),
    SFmul prec emax (binary_normalize prec emax (Z.pos p) 0 false)
          (S754_finite false 8106479329266893 (-53)) = S754_finite false mf ef /\
    ef < 0 /\
    Z.pos mf / 2 ^ (- ef) = 9 * Z.pos p / 10.
Proof.
  intros Hq. pose proof (digits2_pos_bounds p) as [Hlo Hhi].
  assert (Z.pos (digits2_pos p) <= 48) as Hd.
  { assert (Z.pos (digits2_pos p) - 1 < 48); [|lia].
    apply (Z.pow_lt_mono_r_iff 2); lia. }
  destruct (binary_normalize_pos p) as (mz & -> & Hmz & Hdz); [lia|].
  remember (Z.pos (digits2_pos p)) as d eqn:Ed.
  assert (1 <= d) as Hd1 by lia.
  cbn [SFmul xorb].
  pose proof (digits2_pos_bounds mz) as Bz. rewrite Hdz in Bz.
  change (2 ^ (53 - 1)) with 4503599627370496 in Bz.
  change (2 ^ 53) with 9007199254740992 in Bz.
  set (M := (mz * 8106479329266893)%positive).
  assert (Z.pos M = Z.pos mz * 8106479329266893) as EM by (subst M; apply Pos2Z.inj_mul).
  pose proof (digits2_pos_bounds M) as [Mlo Mhi].
  assert (Z.pos (digits2_pos M) = 105 \/ Z.pos (digits2_pos M) = 106) as HD.
  { assert (104 < Z.pos (digits2_pos M)).
    { apply (Z.pow_lt_mono_r_iff 2); [lia..|].
      change (2 ^ 104) with 20282409603651670423947251286016. lia. }
    assert (Z.pos (digits2_pos M) - 1 < 106); [|lia].
    apply (Z.pow_lt_mono_r_iff 2); [lia..|].
    change (2 ^ 106) with 81129638414606681695789005144064. lia. }
  destruct (binary_round_aux_long false M (d - 53 + -53)) as (mf & ef & m'' & -> & Hm'' & Hfin);
    [lia | lia |].
  exists mf, ef. split; [reflexivity|].
  assert (0 < 2 ^ (53 - d)) as HS by (apply Z.pow_pos_nonneg; lia).
  assert (32 <= 2 ^ (53 - d)) as HS32.
  { change 32 with (2 ^ 5). apply Z.pow_le_mono_r; lia. }
  rewrite EM, Hmz in Hm''.
  assert (forall T K, 0 < T <= 2 ^ 53 -> 0 < K -> T * K = 2 ^ 53 * 2 ^ (53 - d) ->
            T = 2 ^ (Z.pos (digits2_pos M) - 53) ->
            m'' / K = 9 * Z.pos p / 10) as Harith.
  { intros T K HT HK HTK ET. rewrite <- ET in Hm''.
    apply (nine_tenths_quotient (Z.pos p) (2 ^ (53 - d)) T K m''); auto; lia. }
  assert (m'' / 2 ^ (159 - d - Z.pos (digits2_pos M)) = 9 * Z.pos p / 10) as Hval.
  { apply (Harith (2 ^ (Z.pos (digits2_pos M) - 53))).
    - split; [apply Z.pow_pos_nonneg; lia|]. apply Z.pow_le_mono_r; lia.
    - apply Z.pow_pos_nonneg; lia.
    - rewrite <- !Z.pow_add_r by lia. f_equal. lia.
    - reflexivity. }
  destruct Hfin as [[Emf Eef] | (Ecarry & Emf & Eef)].
  - split; [lia|]. rewrite Emf. replace (- ef) with (159 - d - Z.pos (digits2_pos M)) by lia.
    exact Hval.
  - split; [lia|]. rewrite Emf, <- Hval, Ecarry.
    replace (159 - d - Z.pos (digits2_pos M)) with (1 + - ef) by lia.
    rewrite Z.pow_add_r by lia. change (2 ^ 1) with 2.
    change 9007199254740992 with (2 * 4503599627370496).
    rewrite Z.div_mul_cancel_l; [reflexivity| |lia].
    apply Z.pow_nonzero; lia.
Qed.

(** [static_cast<long>(quantity * hidden_ratio)] is nine tenths of the
    quantity, rounded down, for every quantity from 0 up to [2^48]. *)
Lemma hidden_is_floor (q : Z) :
  0 <= q < 2 ^ 48 ->
  static_cast_long (to_double q * ExecutionStage.hidden_ratio)%float = Returns (9 * q / 10).
Proof.
  intros [Hq0 Hq]. destruct q as [|p|p]; [reflexivity| |lia].
  unfold static_cast_long, trunc.
  rewrite mul_spec, Prim2SF_hidden_ratio.
  assert (to_double (Z.pos p) = of_uint63 (of_Z (Z.pos p))) as -> by reflexivity.
  rewrite of_uint63_spec, of_Z_spec, Z.mod_small
    by (change wB with (2 ^ 63); change (2 ^ 48) with 281474976710656 in Hq;
        change (2 ^ 63) with 9223372036854775808; lia).
  destruct (SFmul_nine_tenths p Hq) as (mf & ef & Hmul & Hef & Hval).
  unfold SF64mul. rewrite Hmul.
  replace (0 <=? ef) with false by (symmetry; apply Z.leb_gt; lia).
  rewrite Hval. apply as_long_in.
  change (2 ^ 48) with 281474976710656 in Hq. unfold LONG_MIN, LONG_MAX.
  assert (0 <= 9 * Z.pos p / 10) by (apply Z.div_pos; lia).
  assert (9 * Z.pos p / 10 <= 9 * Z.pos p) by (apply Z.div_le_upper_bound; lia).
  lia.
Qed.

End HiddenQuantity.

Section Gating.
Import ExecutionStage.

Lemma spread_of_one_32nd : within_tol p99_16 p99_17 = false.
Proof. vm_compute. reflexivity. Qed.

Lemma spread_of_one_64th : within_tol p99_16 p99_16plus = false.
Proof. vm_compute. reflexivity. Qed.

Lemma spread_of_one_128th : within_tol p99_16 p99_16_128th = true.
Proof. vm_compute. reflexivity. Qed.

Lemma hidden_of_one_million :
  static_cast_long (to_double 1000000 * hidden_ratio)%float = Returns 900000.
Proof. vm_compute. reflexivity. Qed.

(** On the sizes the market data adapter gives the five levels, and on
    every quantity up to 2000, the hidden quantity is nine tenths of the
    quantity, rounded down. *)
Lemma hidden_is_floor_of_nine_tenths :
  forallb (fun q => match static_cast_long (to_double q * hidden_ratio)%float with
                    | Returns h => h =? 9 * q / 10
                    | _ => false
                    end)
          (map (fun i => 1000000 * (i + 1)) (seqZ 0 5) ++ seqZ 0 2001) = true.
Proof. vm_compute. reflexivity. Qed.

(** C2 as stated fails: with best bid 99-16 and best offer 99-16+ the
    spread is 1/64, which is above the tolerance 1/127, and no execution is
    generated. *)
Lemma no_execution_at_one_64th :
  (p99_16plus - p99_16 =? 0.015625)%float = true /\
  (p99_16plus - p99_16 <=? tol)%float = false /\
  Execute [recorder] (book B02y p99_16 p99_16plus) (0, []) = Returns (0, []).
Proof. vm_compute. repeat split; reflexivity. Qed.

(** C2, amended.  Whenever [Execute] returns, an execution was generated
    only if best offer minus best bid was at most the tolerance 1/127, and
    then exactly one was constructed and handed to the listeners.  A book
    with best bid 99-16 and best offer 99-17 produces no execution; a book
    with best bid 99-16 and best offer 99-16+ produces none either; a book
    with best bid 99-16 and best offer 1/128 above it produces exactly one
    execution.  For every order book whose best prices are within the
    tolerance and whose best-level quantities are between 0 and [2^48],
    evaluated while the counter is below [INT_MAX], exactly one execution
    is handed over; its quantity is the matched quantity, which is the
    quantity of the best level on the side opposite to the order (the
    best offer's for an order on the bid side, the best bid's for an order
    on the offer side), and its hidden quantity is nine tenths of the
    matched quantity, rounded down. *)
Theorem execution_gating :
  (forall (W : Type) (listeners : list (@ServiceListener AlgoExecution W))
          data_ counter w counter' w',
      Execute listeners data_ (counter, w) = Returns (counter', w') ->
      exists bid0 offer0,
        head (GetBidStack data_) = Some bid0 /\
        head (GetOfferStack data_) = Some offer0 /\
        (((GetPrice offer0 - GetPrice bid0 <=? 1 / 127)%float = false /\
          counter' = counter /\ w' = w) \/
         ((GetPrice offer0 - GetPrice bid0 <=? 1 / 127)%float = true /\
          exists algo algo',
            AlgoExecution_ctor data_ counter = Returns (algo, counter') /\
            Notify listeners algo w = Returns (algo', w')))) /\
  (forall b counter log,
      Execute [recorder] (book b p99_16 p99_17) (counter, log) = Returns (counter, log)) /\
  (forall b counter log,
      Execute [recorder] (book b p99_16 p99_16plus) (counter, log) = Returns (counter, log)) /\
  (forall b counter log,
      0 <= counter < INT_MAX ->
      exists algo,
        Execute [recorder] (book b p99_16 p99_16_128th) (counter, log)
          = Returns (counter + 1, log ++ [algo]) /\
        GetVisibleQuantity (GetOrder algo) = 1000000 /\
        GetHiddenQuantity (GetOrder algo) = 9 * GetVisibleQuantity (GetOrder algo) / 10) /\
  (forall (data_ : OrderBook) (bid0 offer0 : Order) counter log,
      head (GetBidStack data_) = Some bid0 ->
      head (GetOfferStack data_) = Some offer0 ->
      (GetPrice offer0 - GetPrice bid0 <=? 1 / 127)%float = true ->
      0 <= GetQuantity bid0 < 2 ^ 48 ->
      0 <= GetQuantity offer0 < 2 ^ 48 ->
      0 <= counter < INT_MAX ->
      exists algo,
        Execute [recorder] data_ (counter, log) = Returns (counter + 1, log ++ [algo]) /\
        GetOrderProduct (GetOrder algo) = GetProduct data_ /\
        GetPricingSide (GetOrder algo) = (if Z.even (counter + 1) then BID else OFFER) /\
        GetOrderPrice (GetOrder algo)
          = (if Z.even (counter + 1) then GetPrice bid0 else GetPrice offer0) /\
        GetVisibleQuantity (GetOrder algo)
          = (if Z.even (counter + 1) then GetQuantity offer0 else GetQuantity bid0) /\
        GetHiddenQuantity (GetOrder algo) = 9 * GetVisibleQuantity (GetOrder algo) / 10).
Proof.
  split; [|split; [|split; [|split]]].
  - intros W listeners data_ counter w counter' w' Hrun.
    exact (Execute_inv listeners data_ counter counter' w w' Hrun).
  - intros b counter log.
    apply (Execute_skips _ _ _ _ (mkOrder p99_16 1000000 BID) (mkOrder p99_17 1000000 OFFER));
      reflexivity.
  - intros b counter log.
    apply (Execute_skips _ _ _ _ (mkOrder p99_16 1000000 BID) (mkOrder p99_16plus 1000000 OFFER));
      reflexivity.
  - intros b counter log Hc.
    pose proof (AlgoExecution_ctor_returns (book b p99_16 p99_16_128th) counter
                  (mkOrder p99_16 1000000 BID) (mkOrder p99_16_128th 1000000 OFFER) 900000
                  Hc eq_refl eq_refl) as Hctor.
    simpl in Hctor.
    assert (static_cast_long
              (to_double (if Z.even (counter + 1) then 1000000 else 1000000) * hidden_ratio)%float
            = Returns 900000) as Hh.
    { destruct (Z.even (counter + 1)); exact hidden_of_one_million. }
    specialize (Hctor Hh).
    eexists. split.
    + rewrite (Execute_emits [recorder] (book b p99_16 p99_16_128th) counter (counter + 1) log
                 (mkOrder p99_16 1000000 BID) (mkOrder p99_16_128th 1000000 OFFER) _
                 eq_refl eq_refl spread_of_one_128th Hctor).
      reflexivity.
    + simpl. split; [destruct (Z.even (counter + 1)); reflexivity|].
      destruct (Z.even (counter + 1)); reflexivity.
  - intros data_ bid0 offer0 counter log Hb Ho Htol Hqb Hqo Hc.
    set (matched := if Z.even (counter + 1) then GetQuantity offer0 else GetQuantity bid0).
    assert (static_cast_long (to_double matched * hidden_ratio)%float
            = Returns (9 * matched / 10)) as Hh.
    { apply hidden_is_floor. subst matched. destruct (Z.even (counter + 1)); assumption. }
    pose proof (AlgoExecution_ctor_returns data_ counter bid0 offer0 (9 * matched / 10)
                  Hc Hb Ho Hh) as Hctor.
    eexists. split.
    + rewrite (Execute_emits [recorder] data_ counter (counter + 1) log bid0 offer0 _
                 Hb Ho Htol Hctor).
      reflexivity.
    + simpl. repeat split; reflexivity.
Qed.

End Gating.

(** The three books of the statement on a fresh counter, and a book one
    128th wide with 7 on the bid and 1,000,001 on the offer: from the
    counter 0 the order is on the offer side for 7 with 6 hidden, from the
    counter 1 it is on the bid side for 1,000,001 with 900,000 hidden. *)
Lemma execution_gating_witness :
  ExecutionStage.Execute [recorder] (book B02y p99_16 p99_17) (0, []) = Returns (0, []) /\
  ExecutionStage.Execute [recorder] (book B02y p99_16 p99_16plus) (0, []) = Returns (0, []) /\
  (exists algo,
     ExecutionStage.Execute [recorder] (book B02y p99_16 p99_16_128th) (0, [])
       = Returns (0 + 1, [] ++ [algo]) /\
     ExecutionStage.GetVisibleQuantity (ExecutionStage.GetOrder algo) = 1000000 /\
     ExecutionStage.GetHiddenQuantity (ExecutionStage.GetOrder algo)
       = 9 * ExecutionStage.GetVisibleQuantity (ExecutionStage.GetOrder algo) / 10) /\
  (exists algo,
     ExecutionStage.Execute [recorder] (sized_book B02y p99_16 7 p99_16_128th 1000001) (0, [])
       = Returns (1, [algo]) /\
     ExecutionStage.GetPricingSide (ExecutionStage.GetOrder algo) = ExecutionStage.OFFER /\
     ExecutionStage.GetOrderPrice (ExecutionStage.GetOrder algo) = p99_16_128th /\
     ExecutionStage.GetVisibleQuantity (ExecutionStage.GetOrder algo) = 7 /\
     ExecutionStage.GetHiddenQuantity (ExecutionStage.GetOrder algo) = 6) /\
  (exists algo,
     ExecutionStage.Execute [recorder] (sized_book B02y p99_16 7 p99_16_128th 1000001) (1, [])
       = Returns (2, [algo]) /\
     ExecutionStage.GetPricingSide (ExecutionStage.GetOrder algo) = ExecutionStage.BID /\
     ExecutionStage.GetOrderPrice (ExecutionStage.GetOrder algo) = p99_16 /\
     ExecutionStage.GetVisibleQuantity (ExecutionStage.GetOrder algo) = 1000001 /\
     ExecutionStage.GetHiddenQuantity (ExecutionStage.GetOrder algo) = 900000).
Proof.
  split; [apply (proj1 (proj2 execution_gating))|].
  split; [apply (proj1 (proj2 (proj2 execution_gating)))|].
  split; [apply (proj1 (proj2 (proj2 (proj2 execution_gating)))); unfold INT_MAX; lia|].
  split.
  - destruct (proj2 (proj2 (proj2 (proj2 execution_gating)))
                (sized_book B02y p99_16 7 p99_16_128th 1000001)
                (ExecutionStage.mkOrder p99_16 7 ExecutionStage.BID)
                (ExecutionStage.mkOrder p99_16_128th 1000001 ExecutionStage.OFFER) 0 [])
      as (algo & Hrun & _ & Hside & Hprice & Hvis & Hhid);
      try reflexivity; try (simpl; lia); try (unfold INT_MAX; lia).
    exists algo. rewrite Hhid, Hvis. auto.
  - destruct (proj2 (proj2 (proj2 (proj2 execution_gating)))
                (sized_book B02y p99_16 7 p99_16_128th 1000001)
                (ExecutionStage.mkOrder p99_16 7 ExecutionStage.BID)
                (ExecutionStage.mkOrder p99_16_128th 1000001 ExecutionStage.OFFER) 1 [])
      as (algo & Hrun & _ & Hside & Hprice & Hvis & Hhid);
      try reflexivity; try (simpl; lia); try (unfold INT_MAX; lia).
    exists algo. rewrite Hhid, Hvis. auto.
Defined.

(** ** The inquiry cascade *)

Section Inquiries.
Import InquiryStage.

(** On any service: an inquiry in state RECEIVED is sent back twice, as
    QUOTED and then, as the service left it, as DONE; an inquiry in any
    other state is not sent back. *)
Lemma Publish_received {S : Type} (OnMessage : Inquiry -> S -> outcome (Inquiry * S))
      (d : Inquiry) (s : S) :
  GetState d = RECEIVED ->
  Publish OnMessage d s =
    ('(q, s1) ← OnMessage (SetState d QUOTED) s;
     '(_, s2) ← OnMessage (SetState q DONE) s1;
     Returns s2).
Proof. intros Hst. unfold Publish. rewrite Hst. reflexivity. Qed.

Lemma Publish_other {S : Type} (OnMessage : Inquiry -> S -> outcome (Inquiry * S))
      (d : Inquiry) (s : S) :
  GetState d <> RECEIVED -> Publish OnMessage d s = Returns s.
Proof.
  intros Hst. unfold Publish. destruct (GetState d); try reflexivity. congruence.
Qed.

Lemma states_of_app (id : string) (l1 l2 : list Inquiry) :
  states_of id (l1 ++ l2) = states_of id l1 ++ states_of id l2.
Proof. unfold states_of. now rewrite filter_app, map_app. Qed.

Lemma states_of_same (id : string) (q : Inquiry) (rest : list Inquiry) :
  GetInquiryId q = id ->
  states_of id (q :: rest) = GetState q :: states_of id rest.
Proof. intros Hid. unfold states_of. now rewrite filter_cons_True by exact Hid. Qed.

Lemma states_of_other (id : string) (q : Inquiry) (rest : list Inquiry) :
  GetInquiryId q <> id ->
  states_of id (q :: rest) = states_of id rest.
Proof. intros Hne. unfold states_of. now rewrite filter_cons_False by exact Hne. Qed.

(** C8: an inquiry [d] in state RECEIVED is published to a service whose
    entry point returns on every inquiry and leaves the identifier of the
    inquiry alone.  The call returns, and the service has been entered
    exactly twice more: by an inquiry of the identifier of [d] in state
    QUOTED, and then by one in state DONE.  The states recorded for that
    identifier grow by QUOTED, DONE in this order, those of every other
    identifier by nothing, and REJECTED is not among the new states. *)
Theorem inquiry_cascade {S : Type} (OnMessage : Inquiry -> S -> outcome (Inquiry * S))
        (d : Inquiry) (s : S) (trace : list Inquiry) :
  GetState d = RECEIVED ->
  (forall q s0, exists q' s', OnMessage q s0 = Returns (q', s')) ->
  (forall q s0 q' s', OnMessage q s0 = Returns (q', s') -> GetInquiryId q' = GetInquiryId q) ->
  exists s' q1 q2,
    Publish (traced OnMessage) d (s, trace) = Returns (s', trace ++ [q1; q2]) /\
    q1 = SetState d QUOTED /\
    GetInquiryId q2 = GetInquiryId d /\
    map GetState [q1; q2] = [QUOTED; DONE] /\
    states_of (GetInquiryId d) (trace ++ [q1; q2])
      = states_of (GetInquiryId d) trace ++ [QUOTED; DONE] /\
    (forall id, id <> GetInquiryId d -> states_of id (trace ++ [q1; q2]) = states_of id trace) /\
    REJECTED ∉ map GetState [q1; q2].
Proof.
  intros Hst Htotal Hid.
  destruct (Htotal (SetState d QUOTED) s) as (q & s1 & H1).
  destruct (Htotal (SetState q DONE) s1) as (q' & s2 & H2).
  pose proof (Hid _ _ _ _ H1) as Hq. simpl in Hq.
  exists s2, (SetState d QUOTED), (SetState q DONE).
  split; [|split; [|split; [|split; [|split; [|split]]]]].
  - rewrite Publish_received by exact Hst. unfold traced.
    rewrite H1. simpl. rewrite H2. simpl. now rewrite <- app_assoc.
  - reflexivity.
  - exact Hq.
  - reflexivity.
  - rewrite states_of_app. f_equal.
    rewrite states_of_same by reflexivity.
    now rewrite states_of_same by exact Hq.
  - intros id Hne. rewrite states_of_app.
    rewrite !states_of_other by (simpl; congruence).
    unfold states_of at 2. simpl. now rewrite app_nil_r.
  - simpl. rewrite !elem_of_cons, elem_of_nil. intros [H | [H | []]]; discriminate.
Qed.

(** The same on the service of the spec, which keeps the latest inquiry
    per identifier and hands every inquiry to a recording listener: the
    listener receives [d] as QUOTED and then as DONE, and the state kept
    for the identifier of [d] is DONE. *)
Lemma inquiry_cascade_recorded (d : Inquiry) (svc : InquiryService) (log : list Inquiry) :
  GetState d = RECEIVED ->
  Publish (Service_OnMessage [recorder]) d (svc, log)
    = Returns (mkInquiryService
                 (<[GetInquiryId d := SetState d DONE]>
                    (<[GetInquiryId d := SetState d QUOTED]> (inquiries svc))),
               log ++ [SetState d QUOTED; SetState d DONE]) /\
  (<[GetInquiryId d := SetState d DONE]>
     (<[GetInquiryId d := SetState d QUOTED]> (inquiries svc))) !! GetInquiryId d
    = Some (SetState d DONE).
Proof.
  intros Hst. split.
  - rewrite Publish_received by exact Hst. simpl.
    unfold recorder. simpl. now rewrite <- app_assoc.
  - apply lookup_insert_eq.
Qed.

End Inquiries.

(** The inquiry 7 on B02y, published to the entry point of the base
    class, which returns and leaves the inquiry alone. *)
Lemma inquiry_cascade_witness :
  exists (s' : unit) q1 q2,
    InquiryStage.Publish (InquiryStage.traced OnMessage)
      (inquiry "7" B02y InquiryStage.RECEIVED) (tt, []) = Returns (s', [] ++ [q1; q2]) /\
    q1 = InquiryStage.SetState (inquiry "7" B02y InquiryStage.RECEIVED) InquiryStage.QUOTED /\
    InquiryStage.GetInquiryId q2 = "7" /\
    map InquiryStage.GetState [q1; q2] = [InquiryStage.QUOTED; InquiryStage.DONE] /\
    InquiryStage.states_of "7" ([] ++ [q1; q2])
      = InquiryStage.states_of "7" [] ++ [InquiryStage.QUOTED; InquiryStage.DONE] /\
    (forall id, id <> "7" ->
       InquiryStage.states_of id ([] ++ [q1; q2]) = InquiryStage.states_of id []) /\
    InquiryStage.REJECTED ∉ map InquiryStage.GetState [q1; q2].
Proof.
  apply (inquiry_cascade OnMessage (inquiry "7" B02y InquiryStage.RECEIVED) tt []).
  - reflexivity.
  - intros q s0. exists q, s0. reflexivity.
  - intros q s0 q' s' H. injection H as <- _. reflexivity.
Defined.

(** ** Further properties of the stages *)

Section Further.

(** The texts 99-16 and 99-16+ read through [ParsePriceFormat] give
    99.3125 and 99.48046875; a book built from them produces no execution
    either. *)
Lemma no_execution_through_decoder :
  ParsePriceFormat "99-16" = Returns 99.3125%float /\
  ParsePriceFormat "99-16+" = Returns 99.48046875%float /\
  ExecutionStage.Execute [recorder] (book B02y 99.3125 99.48046875) (0, []) = Returns (0, []).
Proof. vm_compute. repeat split; reflexivity. Qed.

(** Quote symmetry: for every quote, [PublishPrice] hands the listeners
    one stream whose bid leg is at mid - spread/2 and whose offer leg is at
    mid + spread/2, both legs with 1,000,000 visible and 1,000,000 hidden;
    for mid 100 and spread 0.5 the legs are at 99.75 and 100.25. *)
Theorem quote_symmetry :
  (forall (W : Type) (listeners : list (@ServiceListener ExecutionStage.PriceStream W))
          (d : GUIStage.Price) (w : W),
      ExecutionStage.PublishPrice listeners d w =
        ('(_, w') ← Notify listeners
           (ExecutionStage.mkPriceStream (GUIStage.GetProduct d)
              (ExecutionStage.mkPriceStreamOrder
                 (GUIStage.GetMid d - GUIStage.GetBidOfferSpread d / 2)%float
                 1000000 1000000 ExecutionStage.BID)
              (ExecutionStage.mkPriceStreamOrder
                 (GUIStage.GetMid d + GUIStage.GetBidOfferSpread d / 2)%float
                 1000000 1000000 ExecutionStage.OFFER)) w;
         Returns w')) /\
  ExecutionStage.PublishPrice [recorder] (quote B02y 100 0.5) [] =
    Returns [ExecutionStage.mkPriceStream B02y
               (ExecutionStage.mkPriceStreamOrder 99.75 1000000 1000000 ExecutionStage.BID)
               (ExecutionStage.mkPriceStreamOrder 100.25 1000000 1000000 ExecutionStage.OFFER)].
Proof. split; [reflexivity | vm_compute; reflexivity]. Qed.

(** Notification order: the listeners registered first are called first,
    each on the value and the state the one before left, and the
    listeners registered later are called on what the earlier ones leave;
    [AddListener] appends, so a listener added to a service is called
    last. *)
Theorem Notify_in_registration_order {V W : Type}
        (l1 l2 : list (@ServiceListener V W)) (listener : @ServiceListener V W)
        (data : V) (w : W) :
  Notify (l1 ++ l2) data w = ('(data', w') ← Notify l1 data w; Notify l2 data' w') /\
  Notify (AddListener l1 listener) data w
    = ('(data', w') ← Notify l1 data w; listener data' w').
Proof.
  assert (Happ : forall (a b : list (@ServiceListener V W)) d0 w0,
             Notify (a ++ b) d0 w0 = ('(d1, w1) ← Notify a d0 w0; Notify b d1 w1)).
  { induction a as [|ele rest IH]; intros b d0 w0; simpl; [reflexivity|].
    destruct (ele d0 w0) as [[d1 w1]| |]; simpl; [apply IH | reflexivity | reflexivity]. }
  split; [apply Happ|].
  unfold AddListener. rewrite Happ.
  destruct (Notify l1 data w) as [[d1 w1]| |]; simpl; try reflexivity.
  destruct (listener d1 w1) as [[d2 w2]| |]; reflexivity.
Qed.

(** The risk service keeps nothing: [AddPosition] returns the service it
    was given, so on a service that started empty every query, whatever
    the key, dereferences [end()]. *)
Theorem risk_service_keeps_nothing {W : Type}
        (listeners : list (@ServiceListener RiskStage.PV01 W))
        (position : PositionStage.Position) (svc svc' : RiskStage.RiskService) (w w' : W)
        (key : string) :
  (RiskStage.AddPosition listeners position (svc, w) = Returns (svc', w') -> svc' = svc) /\
  RiskStage.GetData RiskStage.RiskService_ctor key = Undefined.
Proof.
  split; [|reflexivity].
  unfold RiskStage.AddPosition. intros Hrun.
  apply bind_inv in Hrun as (aggregate & _ & Hrun).
  apply bind_inv in Hrun as ([pv w1] & _ & Hrun).
  now injection Hrun as <- _.
Qed.

End Further.

Section ServiceRuns.
Import PositionStage.

Lemma AddTrades_recorded (trades : list Trade) :
  forall (svc : PositionService) (pos : Position) (cout : list string) (log : list Position)
         (v1 v2 v3 : Z) (ticker : string),
    name_p svc !! ticker = Some pos ->
    books_at (positions pos) v1 v2 v3 ->
    Forall (fun t => GetTicker (GetProduct t) = ticker /\ GetBook t ∈ books_) trades ->
    Z.abs v1 + Z.abs v2 + Z.abs v3 + volume trades <= LONG_MAX ->
    exists pos' svc' new,
      UpdateAll trades pos = Returns pos' /\
      AddTrades [recorder] trades (svc, cout, log) = Returns (svc', cout, log ++ new) /\
      name_p svc' = <[ticker := pos']> (name_p svc) /\
      length new = length trades.
Proof.
  induction trades as [|t rest IH]; intros svc pos cout log v1 v2 v3 ticker Hfind Hat Hall Hvol.
  - exists pos, svc, []. simpl. rewrite app_nil_r. repeat split.
    symmetry. now apply insert_id.
  - inversion Hall as [|? ? [Htick Hbook] Hrest]; subst.
    simpl in Hvol. pose proof (volume_nonneg rest).
    destruct (update_books pos v1 v2 v3 (GetBook t) (GetQuantity t) (GetSide t) Hat Hbook)
      as (pos1 & u1 & u2 & u3 & Hup & _ & Hat1 & _ & Habs1); [lia|].
    destruct (IH (mkPositionService (<[GetTicker (GetProduct t) := pos1]> (name_p svc)))
                 pos1 cout (log ++ [pos1]) u1 u2 u3 (GetTicker (GetProduct t)))
      as (pos' & svc' & new & Hrun & Hadd & Hname & Hlen);
      [simpl; apply lookup_insert_eq | exact Hat1 | exact Hrest | lia |].
    exists pos', svc', (pos1 :: new).
    split; [simpl; rewrite Hup; exact Hrun|].
    split; [|split].
    + change (AddTrades [recorder] (t :: rest) (svc, cout, log))
        with (st' ← AddTrade [recorder] t (svc, cout, log); AddTrades [recorder] rest st').
      rewrite (AddTrade_known _ _ _ _ _ _ Hfind), Hup. simpl.
      rewrite Hadd. now rewrite <- app_assoc.
    + rewrite Hname. simpl. apply insert_insert_eq.
    + simpl. now rewrite Hlen.
Qed.

(** Trades on one catalog instrument, on the three books, of a total
    volume that fits in a [long], added to the constructed service: every
    call returns, the listener has received one position per trade, the
    query for the instrument returns a position whose aggregate is the sum
    of the signed quantities and whose books are the three books, and the
    positions of the other instruments are as constructed. *)
Theorem position_service_aggregates (b : Bond) (trades : list Trade)
        (cout : list string) (log : list Position) :
  name_p initial_service !! GetTicker b = Some (Position_ctor b) ->
  Forall (fun t => GetTicker (GetProduct t) = GetTicker b /\ GetBook t ∈ books_) trades ->
  volume trades <= LONG_MAX ->
  exists svc' new p,
    AddTrades [recorder] trades (initial_service, cout, log) = Returns (svc', cout, log ++ new) /\
    length new = length trades /\
    GetData svc' (GetTicker b) = Returns (p, svc') /\
    GetAggregatePosition p = Returns (signed_sum trades) /\
    dom (positions p) = list_to_set books_ /\
    (forall key, key <> GetTicker b -> name_p svc' !! key = name_p initial_service !! key).
Proof.
  intros Hfind Hall Hvol.
  destruct (AddTrades_recorded trades initial_service (Position_ctor b) cout log 0 0 0
              (GetTicker b) Hfind (ctor_books b) Hall)
    as (p & svc' & new & Hrun & Hadd & Hname & Hlen); [simpl; lia|].
  assert (Hbooks : Forall (fun t => GetBook t ∈ books_) trades).
  { eapply Forall_impl; [exact Hall|]. intros t [_ Hb]. exact Hb. }
  destruct (UpdateAll_books trades (Position_ctor b) 0 0 0 (ctor_books b) Hbooks)
    as (p2 & w1 & w2 & w3 & Hrun2 & _ & Hat & Hsum & Habs); [simpl; lia|].
  rewrite Hrun in Hrun2. injection Hrun2 as <-.
  exists svc', new, p. split; [exact Hadd|]. split; [exact Hlen|]. split; [|split; [|split]].
  - unfold GetData. rewrite Hname, lookup_insert_eq. reflexivity.
  - rewrite (aggregate_books p w1 w2 w3 Hat) by (simpl in Habs; lia). f_equal. lia.
  - destruct Hat as (_ & _ & _ & Hd). rewrite Hd. unfold books_. simpl. set_solver.
  - intros key Hne. rewrite Hname. now rewrite lookup_insert_ne by congruence.
Qed.

End ServiceRuns.

(** Two trades on B02y. *)
Lemma position_service_aggregates_witness :
  exists svc' new p,
    PositionStage.AddTrades [recorder]
      [trade B02y "TRSY1" 1000000 PositionStage.BUY;
       trade B02y "TRSY2" 3000000 PositionStage.SELL]
      (initial_service, [], []) = Returns (svc', [], [] ++ new) /\
    length new = 2%nat /\
    PositionStage.GetData svc' "B02y" = Returns (p, svc') /\
    PositionStage.GetAggregatePosition p = Returns (-2000000) /\
    dom (PositionStage.positions p) = list_to_set PositionStage.books_ /\
    (forall key, key <> "B02y" ->
       PositionStage.name_p svc' !! key = PositionStage.name_p initial_service !! key).
Proof.
  apply (position_service_aggregates B02y
           [trade B02y "TRSY1" 1000000 PositionStage.BUY;
            trade B02y "TRSY2" 3000000 PositionStage.SELL] [] []).
  - reflexivity.
  - repeat constructor.
  - vm_compute. discriminate.
Defined.

(** ** The line parsers *)

Section LineParsers.
Import Parsing Terms.

Lemma append_nil_r (s : string) : s +:+ "" = s.
Proof.
  induction s as [|c s IH]; [reflexivity|].
  change (String c (s +:+ "") = String c s). now rewrite IH.
Qed.

Lemma append_assoc (a b c : string) : (a +:+ b) +:+ c = a +:+ (b +:+ c).
Proof.
  induction a as [|x a IH]; [reflexivity|].
  change (String x ((a +:+ b) +:+ c) = String x (a +:+ (b +:+ c))). now rewrite IH.
Qed.

Lemma append_snoc (a : string) (c : ascii) (b : string) :
  (a +:+ String c "") +:+ b = a +:+ String c b.
Proof. now rewrite append_assoc. Qed.

Lemma has_comma_app (a b : string) : has_comma (a +:+ b) = has_comma a || has_comma b.
Proof.
  induction a as [|c a IH]; [reflexivity|].
  change (Ascii.eqb c "," || has_comma (a +:+ b) = Ascii.eqb c "," || has_comma a || has_comma b).
  now rewrite IH, orb_assoc.
Qed.

(** A token without a comma followed by a comma: the token is pushed and
    the loop goes on after the comma. *)
Lemma getline_loop_token (ignore : bool) (t : string) :
  forall (token rest : string),
    has_comma t = false ->
    getline_loop ignore false token (t +:+ String "," rest)
      = (token +:+ t) :: getline_loop ignore ignore "" rest.
Proof.
  induction t as [|c t IH]; intros token rest Hc.
  - rewrite append_nil_r. reflexivity.
  - simpl in Hc. apply orb_false_iff in Hc as [Hc1 Hc2].
    rewrite <- (append_snoc token c t).
    change (getline_loop ignore false token (String c t +:+ String "," rest))
      with (if Ascii.eqb c "," then token :: getline_loop ignore ignore "" (t +:+ String "," rest)
            else getline_loop ignore false (token +:+ String c "") (t +:+ String "," rest)).
    rewrite Hc1. apply IH, Hc2.
Qed.

(** A token without a comma that runs to the end of the text. *)
Lemma getline_loop_last (ignore : bool) (t : string) :
  forall (token : string),
    has_comma t = false ->
    token +:+ t <> "" ->
    getline_loop ignore false token t = [token +:+ t].
Proof.
  induction t as [|c t IH]; intros token Hc Hne.
  - rewrite append_nil_r in *. destruct token; [congruence | reflexivity].
  - simpl in Hc. apply orb_false_iff in Hc as [Hc1 Hc2].
    rewrite <- (append_snoc token c t).
    change (getline_loop ignore false token (String c t))
      with (if Ascii.eqb c "," then token :: getline_loop ignore ignore "" t
            else getline_loop ignore false (token +:+ String c "") t).
    rewrite Hc1. apply IH; [exact Hc2|].
    rewrite append_snoc. destruct token; discriminate.
Qed.

Lemma join_cons (sep t t' : string) (rest : list string) :
  join sep (t :: t' :: rest) = t +:+ sep +:+ join sep (t' :: rest).
Proof. reflexivity. Qed.

Lemma ParseCommaSepLine_written (tokens : list string) :
  Forall (fun t => has_comma t = false) tokens ->
  (last tokens <> Some "" -> ParseCommaSepLine (join "," tokens) = tokens) /\
  (tokens <> [] -> ParseCommaSepLine (join "," tokens +:+ ",") = tokens).
Proof.
  unfold ParseCommaSepLine.
  induction tokens as [|t rest IH]; intros Hall; [split; [reflexivity | congruence]|].
  inversion Hall as [|? ? Ht Hrest]; subst. specialize (IH Hrest) as [IH1 IH2].
  destruct rest as [|t' rest].
  - change (join "," [t]) with t. split.
    + intros Hlast. apply (getline_loop_last false t ""); [exact Ht|].
      change ("" +:+ t) with t. intros ->. now apply Hlast.
    + intros _. now rewrite (getline_loop_token false t "" "" Ht).
  - rewrite join_cons. split.
    + intros Hlast.
      change (t +:+ "," +:+ join "," (t' :: rest))
        with (t +:+ String "," (join "," (t' :: rest))).
      rewrite (getline_loop_token false t "" _ Ht).
      change ("" +:+ t) with t. f_equal. apply IH1. exact Hlast.
    + intros _. rewrite !append_assoc.
      change (t +:+ "," +:+ join "," (t' :: rest) +:+ ",")
        with (t +:+ String "," (join "," (t' :: rest) +:+ ",")).
      rewrite (getline_loop_token false t "" _ Ht).
      change ("" +:+ t) with t. f_equal. now apply IH2.
Qed.

(** Writing tokens with commas between them and reading the line back
    gives the tokens, provided no token holds a comma and the last one is
    not empty; a comma after the last token changes nothing, and then the
    last token may be empty. *)
Theorem ParseCommaSepLine_join (tokens : list string) :
  Forall (fun t => has_comma t = false) tokens ->
  (last tokens <> Some "" -> ParseCommaSepLine (join "," tokens) = tokens) /\
  (tokens <> [] -> ParseCommaSepLine (join "," tokens +:+ ",") = tokens).
Proof. exact (ParseCommaSepLine_written tokens). Qed.

Lemma getline_loop_cons (ignore skip : bool) (token : string) (c : ascii) (rest : string) :
  getline_loop ignore skip token (String c rest) =
    if skip then getline_loop ignore false token rest
    else if Ascii.eqb c "," then token :: getline_loop ignore ignore "" rest
         else getline_loop ignore false (token +:+ String c "") rest.
Proof. reflexivity. Qed.

Lemma snoc_not_empty (token : string) (c : ascii) : token +:+ String c "" <> "".
Proof. destruct token; discriminate. Qed.

Lemma getline_loop_no_comma (rest : string) :
  forall token,
    has_comma token = false ->
    Forall (fun t => has_comma t = false) (getline_loop false false token rest).
Proof.
  induction rest as [|c rest IH]; intros token Htok.
  - destruct token; simpl; repeat constructor. exact Htok.
  - rewrite getline_loop_cons. simpl. destruct (Ascii.eqb c ",") eqn:Hc.
    + constructor; [exact Htok | now apply IH].
    + apply IH. rewrite has_comma_app, Htok. simpl. now rewrite Hc.
Qed.

Lemma getline_loop_rejoin (rest : string) :
  forall token,
    (getline_loop false false token rest = [] /\ token = "" /\ rest = "") \/
    (getline_loop false false token rest <> [] /\
     (join "," (getline_loop false false token rest) = token +:+ rest \/
      join "," (getline_loop false false token rest) +:+ "," = token +:+ rest)).
Proof.
  induction rest as [|c rest IH]; intros token.
  - destruct token as [|x token]; [left; auto|].
    right. split; [discriminate|]. left. simpl. now rewrite append_nil_r.
  - right. rewrite getline_loop_cons. simpl. destruct (Ascii.eqb c ",") eqn:Hc.
    + apply Ascii.eqb_eq in Hc as ->. split; [discriminate|].
      destruct (IH "") as [(Hr & _ & ->) | (Hne & [Hj | Hj])].
      * rewrite Hr. right. reflexivity.
      * left. destruct (getline_loop false false "" rest) as [|a r'] eqn:Hr; [congruence|].
        rewrite join_cons, Hj. reflexivity.
      * right. destruct (getline_loop false false "" rest) as [|a r'] eqn:Hr; [congruence|].
        rewrite join_cons, !append_assoc, Hj. reflexivity.
    + destruct (IH (token +:+ String c "")) as [(_ & Hempty & _) | (Hne & Hj)].
      * now apply snoc_not_empty in Hempty.
      * split; [exact Hne|]. now rewrite <- (append_snoc token c rest).
Qed.

(** For every text: no token holds a comma, and writing the tokens with
    commas between them gives the text back, up to one comma at its end;
    no token is returned for the empty text only. *)
Theorem ParseCommaSepLine_tokens (text : string) :
  Forall (fun t => has_comma t = false) (ParseCommaSepLine text) /\
  (join "," (ParseCommaSepLine text) = text \/
   join "," (ParseCommaSepLine text) +:+ "," = text) /\
  (ParseCommaSepLine text = [] <-> text = "").
Proof.
  unfold ParseCommaSepLine. split; [now apply getline_loop_no_comma|].
  destruct (getline_loop_rejoin text "") as [(Hr & _ & ->) | (Hne & Hj)].
  - split; [left; reflexivity | split; reflexivity].
  - split; [exact Hj|]. split; [congruence|]. intros ->. now contradict Hne.
Qed.

(** [Parse] reads back tokens written with a comma and a blank between
    them, provided no token holds a comma and the last one is not empty.
    The character after a comma is dropped whatever it is: it is part of
    no token. *)
Theorem Parse_join (tokens : list string) :
  Forall (fun t => has_comma t = false) tokens ->
  last tokens <> Some "" ->
  Parse (join ", " tokens) = tokens /\
  (forall t c rest,
      has_comma t = false ->
      Parse (t +:+ String "," (String c rest)) = t :: Parse rest).
Proof.
  unfold Parse. intros Hall Hlast. split.
  - induction tokens as [|t rest IH]; [reflexivity|].
    inversion Hall as [|? ? Ht Hrest]; subst.
    destruct rest as [|t' rest].
    + change (join ", " [t]) with t.
      apply (getline_loop_last true t ""); [exact Ht|].
      change ("" +:+ t) with t. intros ->. now apply Hlast.
    + rewrite join_cons.
      change (t +:+ ", " +:+ join ", " (t' :: rest))
        with (t +:+ String "," (String " " (join ", " (t' :: rest)))).
      rewrite (getline_loop_token true t "" _ Ht), getline_loop_cons.
      change ("" +:+ t) with t. f_equal. apply IH; [exact Hrest | exact Hlast].
  - intros t c rest Ht.
    rewrite (getline_loop_token true t "" _ Ht), getline_loop_cons. reflexivity.
Qed.

(** Three tokens with a comma and a blank between them. *)
Lemma Parse_join_witness :
  Parse (join ", " ["B02y"; "99-160"; "99-170"]) = ["B02y"; "99-160"; "99-170"] /\
  (forall t c rest,
      has_comma t = false ->
      Parse (t +:+ String "," (String c rest)) = t :: Parse rest).
Proof.
  apply (Parse_join ["B02y"; "99-160"; "99-170"]).
  - repeat constructor.
  - discriminate.
Defined.

(** A trade line of the generator. *)
Lemma ParseCommaSepLine_join_witness :
  (last ["B02y"; "TradeId1"; "TRSY1"; "1000000"; "99-16+"; "BUY"] <> Some "" ->
   ParseCommaSepLine (join "," ["B02y"; "TradeId1"; "TRSY1"; "1000000"; "99-16+"; "BUY"])
     = ["B02y"; "TradeId1"; "TRSY1"; "1000000"; "99-16+"; "BUY"]) /\
  (["B02y"; "TradeId1"; "TRSY1"; "1000000"; "99-16+"; "BUY"] <> [] ->
   ParseCommaSepLine
     (join "," ["B02y"; "TradeId1"; "TRSY1"; "1000000"; "99-16+"; "BUY"] +:+ ",")
     = ["B02y"; "TradeId1"; "TRSY1"; "1000000"; "99-16+"; "BUY"]).
Proof.
  apply (ParseCommaSepLine_join ["B02y"; "TradeId1"; "TRSY1"; "1000000"; "99-16+"; "BUY"]).
  repeat constructor.
Defined.

End LineParsers.

(** ** ParsePriceFormat on arbitrary text *)

Section PriceText.
Import Parsing Terms Generator GeneratorText.

Lemma get_None (s : string) : forall i, String.get i s = None <-> (String.length s <= i)%nat.
Proof.
  induction s as [|c s IH]; intros i; simpl.
  - split; [lia | reflexivity].
  - destruct i as [|i]; simpl; [split; [discriminate | lia]|].
    rewrite IH. lia.
Qed.

Lemma c_str_at_in (s : string) (i : nat) :
  (i <= String.length s)%nat -> exists z, c_str_at s i = Returns z.
Proof.
  intros Hi. unfold c_str_at. destruct (String.get i s) as [c|] eqn:Hget; [eauto|].
  apply get_None in Hget. replace i with (String.length s) by lia.
  rewrite Nat.eqb_refl. eauto.
Qed.

Lemma c_str_at_out (s : string) (i : nat) :
  (String.length s < i)%nat -> c_str_at s i = Undefined.
Proof.
  intros Hi. unfold c_str_at.
  destruct (String.get i s) as [c|] eqn:Hget.
  - assert (String.get i s = None) as Hn by (apply get_None; lia). congruence.
  - destruct (Nat.eqb_spec i (String.length s)); [lia | reflexivity].
Qed.

Lemma c_str_at_S (c : ascii) (s : string) (i : nat) :
  c_str_at (String c s) (S i) = c_str_at s i.
Proof. reflexivity. Qed.

Lemma char_is_9 (c : ascii) : (char_to_int c =? char_to_int "9") = Ascii.eqb c "9".
Proof. destruct c as [[] [] [] [] [] [] [] []]; reflexivity. Qed.

Lemma first_char (s : string) :
  exists z, c_str_at s 0 = Returns z /\ (z =? char_to_int "9") = starts_with_9 s.
Proof.
  destruct s as [|c s]; simpl.
  - exists 0. split; reflexivity.
  - exists (char_to_int c). split; [reflexivity | apply char_is_9].
Qed.

(** The three reads of [ParsePriceFormat] from [offset] on. *)
Lemma three_reads (s : string) (offset : nat) :
  ((offset + 2 <= String.length s)%nat ->
   exists d0 d1 d2,
     c_str_at s offset = Returns d0 /\ c_str_at s (offset + 1) = Returns d1 /\
     c_str_at s (offset + 2) = Returns d2) /\
  ((String.length s < offset + 2)%nat ->
   forall (k : Z -> Z -> Z -> outcome float),
     (d0 ← c_str_at s offset; d1 ← c_str_at s (offset + 1);
      d2 ← c_str_at s (offset + 2); k d0 d1 d2) = Undefined).
Proof.
  split.
  - intros Hlen.
    destruct (c_str_at_in s offset) as [d0 H0]; [lia|].
    destruct (c_str_at_in s (offset + 1)) as [d1 H1]; [lia|].
    destruct (c_str_at_in s (offset + 2)) as [d2 H2]; [lia|].
    eauto 10.
  - intros Hlen k. rewrite (c_str_at_out s (offset + 2)) by lia.
    unfold c_str_at at 1 2.
    destruct (String.get offset s); [|destruct (offset =? String.length s)%nat];
      simpl; try reflexivity;
      (destruct (String.get (offset + 1) s);
       [|destruct (offset + 1 =? String.length s)%nat]); reflexivity.
Qed.

Lemma ParsePriceFormat_reads (price_string : string) :
  ((needed price_string <= String.length price_string)%nat ->
   exists v, ParsePriceFormat price_string = Returns v) /\
  ((String.length price_string < needed price_string)%nat ->
   ParsePriceFormat price_string = Undefined).
Proof.
  unfold ParsePriceFormat, needed.
  destruct (first_char price_string) as (z & Hz & H9). rewrite Hz.
  cbn [mbind outcome_bind]. rewrite H9.
  destruct (starts_with_9 price_string).
  - destruct (three_reads price_string 3) as [Hin Hout]. split.
    + intros Hlen. destruct Hin as (d0 & d1 & d2 & -> & -> & ->); [lia|]. simpl. eauto.
    + intros Hlen. apply Hout. lia.
  - destruct (three_reads price_string 4) as [Hin Hout]. split.
    + intros Hlen. destruct Hin as (d0 & d1 & d2 & -> & -> & ->); [lia|]. simpl. eauto.
    + intros Hlen. apply Hout. lia.
Qed.

(** The reads of [ParsePriceFormat].  On a text of at least five
    characters that starts with the digit 9, and on any other text of at
    least six characters, the three reads are inside the text or at its
    terminating NUL, and the call returns.  On every shorter text, the
    empty one included, the last read is past the terminating NUL, which
    is undefined behaviour. *)
Theorem ParsePriceFormat_defined (price_string : string) :
  ((needed price_string <= String.length price_string)%nat ->
   exists v, ParsePriceFormat price_string = Returns v) /\
  ((String.length price_string < needed price_string)%nat ->
   ParsePriceFormat price_string = Undefined).
Proof. exact (ParsePriceFormat_reads price_string). Qed.

(** The text 99-16 has its five characters; the text 100-1 has not the six
    it needs. *)
Lemma ParsePriceFormat_defined_witness :
  (exists v, ParsePriceFormat "99-16" = Returns v) /\ ParsePriceFormat "100-1" = Undefined.
Proof.
  split.
  - apply (proj1 (ParsePriceFormat_defined "99-16")). vm_compute. lia.
  - apply (proj2 (ParsePriceFormat_defined "100-1")). vm_compute. lia.
Defined.



End PriceText.

(** ** The price texts of the generator and of the decoder's grammar *)

Section PriceGrammar.
Import Parsing Terms Generator GeneratorText.

Lemma forallb_seqZ (f : Z -> bool) (lo len : Z) :
  forallb f (seqZ lo len) = true -> forall z, lo <= z < lo + len -> f z = true.
Proof.
  intros H z Hz. rewrite forallb_forall in H. apply H.
  apply list_elem_of_In, elem_of_seqZ. exact Hz.
Qed.

Lemma three_digits_table :
  forallb (fun whole => forallb (fun xy => forallb (fun z =>
    decodes_to (three_digit_text whole xy z) (of_256ths (256 * whole + 8 * xy + z)))
    (seqZ 0 10)) (seqZ 0 100)) (seqZ 99 2) = true.
Proof. vm_compute. reflexivity. Qed.

(** On a text [whole-xyz] with whole part 99 or 100, two decimal digits
    [xy] and one decimal digit [z], [ParsePriceFormat] returns
    [whole + xy/32 + z/256]: the three-digit grammar is the one the decoder
    reads correctly. *)
Theorem ParsePriceFormat_three_digits (whole xy z : Z) :
  99 <= whole <= 100 -> 0 <= xy <= 99 -> 0 <= z <= 9 ->
  decodes_to (three_digit_text whole xy z) (of_256ths (256 * whole + 8 * xy + z)) = true.
Proof.
  intros Hw Hxy Hz. pose proof three_digits_table as H.
  pose proof (forallb_seqZ _ _ _ H whole ltac:(lia)) as H1; cbv beta in H1.
  pose proof (forallb_seqZ _ _ _ H1 xy ltac:(lia)) as H2; cbv beta in H2.
  apply (forallb_seqZ _ _ _ H2 z). lia.
Qed.

(** The text 99-162 is read as 99 + 16/32 + 2/256. *)
Lemma ParsePriceFormat_three_digits_witness :
  decodes_to "99-162" (of_256ths 25474) = true.
Proof. apply (ParsePriceFormat_three_digits 99 16 2); lia. Defined.

Lemma draws_table :
  forallb (fun whole => forallb (fun frac => forallb (fun hasPlus =>
    match decimalToFractional (price_of_draws whole frac hasPlus) with
    | Returns text => String.eqb text (generateFractionalPrice whole frac hasPlus)
    | _ => false
    end) [false; true]) (seqZ 0 32)) (seqZ 98 4) = true.
Proof. vm_compute. reflexivity. Qed.

(** The two writers of the generator agree: the text
    [generateFractionalPrice] builds from a whole part, a number of
    thirty-seconds and the '+' flag is the text [decimalToFractional]
    writes for the price these stand for.  The whole parts are those of
    the generator: 99 and 100 for trades, 98 to 101 for quotes and order
    books. *)
Theorem generated_text_is_the_encoding (whole frac : Z) (hasPlus : bool) :
  98 <= whole <= 101 -> 0 <= frac <= 31 ->
  decimalToFractional (price_of_draws whole frac hasPlus)
    = Returns (generateFractionalPrice whole frac hasPlus).
Proof.
  intros Hw Hf. pose proof draws_table as H.
  pose proof (forallb_seqZ _ _ _ H whole ltac:(lia)) as H1; cbv beta in H1.
  pose proof (forallb_seqZ _ _ _ H1 frac ltac:(lia)) as H2; cbv beta in H2.
  rewrite forallb_forall in H2.
  assert (In hasPlus [false; true]) as Hin by (destruct hasPlus; simpl; auto).
  apply H2 in Hin.
  destruct (decimalToFractional (price_of_draws whole frac hasPlus)) as [text| |].
  - f_equal. apply String.eqb_eq. exact Hin.
  - exfalso. exact (Bool.diff_false_true Hin).
  - exfalso. exact (Bool.diff_false_true Hin).
Qed.

Lemma generated_text_is_the_encoding_witness :
  decimalToFractional (price_of_draws 99 16 true) = Returns "99-16+".
Proof. apply (generated_text_is_the_encoding 99 16 true); lia. Defined.

Lemma generated_decode_table :
  forallb (fun whole => forallb (fun frac =>
    decodes_to (generateFractionalPrice whole frac false)
               (price_of_draws (base_of whole) frac false - 0.1875)%float &&
    decodes_to (generateFractionalPrice whole frac true)
               (price_of_draws (base_of whole) frac true - 0.03515625)%float)
    (seqZ 0 32)) (seqZ 98 4) = true.
Proof. vm_compute. reflexivity. Qed.

(** What the decoder makes of the generator's own texts, for the whole
    parts 98 to 101.  The whole part is read as 99 below 100 and as 100
    from 100 on.  Without a '+' the terminating NUL is read as the 256ths
    digit and the fraction comes out 3/16 too low; with a '+' that
    character is read as the digit and the fraction comes out 9/256 too
    low.  No generated text decodes to its price. *)
Theorem generated_text_decodes_low (whole frac : Z) :
  98 <= whole <= 101 -> 0 <= frac <= 31 ->
  decodes_to (generateFractionalPrice whole frac false)
             (price_of_draws (base_of whole) frac false - 0.1875)%float = true /\
  decodes_to (generateFractionalPrice whole frac true)
             (price_of_draws (base_of whole) frac true - 0.03515625)%float = true.
Proof.
  intros Hw Hf. pose proof generated_decode_table as H.
  pose proof (forallb_seqZ _ _ _ H whole ltac:(lia)) as H1; cbv beta in H1.
  pose proof (forallb_seqZ _ _ _ H1 frac ltac:(lia)) as H2; cbv beta in H2.
  apply andb_true_iff in H2. exact H2.
Qed.

Lemma generated_text_decodes_low_witness :
  decodes_to "101-08" 100.0625%float = true /\
  decodes_to "101-08+" 100.23046875%float = true.
Proof. apply (generated_text_decodes_low 101 8); lia. Defined.

Lemma round_trip_table :
  forallb (fun whole => forallb (fun frac => forallb (fun hasPlus =>
    match decimalToFractional (price_of_draws whole frac hasPlus) with
    | Returns text =>
        Bool.eqb (ends_with_plus text) hasPlus &&
        decodes_to text (price_of_draws whole frac hasPlus
                         - (if hasPlus then 0.03515625 else 0.1875))%float
    | _ => false
    end) [false; true]) (seqZ 0 32)) (seqZ 99 2) = true.
Proof. vm_compute. reflexivity. Qed.

(** The round trip on the prices with whole part 99 or 100 and a whole
    number of sixty-fourths, [whole + frac / 32] and one sixty-fourth more
    when [hasPlus].  The generator writes a text that ends with '+'
    exactly when [hasPlus], and decoding that text returns the price less
    3/16 when the text has no '+' and the price less 9/256 when it has
    one. *)
Theorem round_trip_shift_by_text (whole frac : Z) (hasPlus : bool) :
  99 <= whole <= 100 -> 0 <= frac <= 31 ->
  exists text y,
    decimalToFractional (price_of_draws whole frac hasPlus) = Returns text /\
    ends_with_plus text = hasPlus /\
    ParsePriceFormat text = Returns y /\
    (y =? price_of_draws whole frac hasPlus
          - (if hasPlus then 0.03515625 else 0.1875))%float = true.
Proof.
  intros Hw Hf. pose proof round_trip_table as H.
  pose proof (forallb_seqZ _ _ _ H whole ltac:(lia)) as H1; cbv beta in H1.
  pose proof (forallb_seqZ _ _ _ H1 frac ltac:(lia)) as H2; cbv beta in H2.
  rewrite forallb_forall in H2.
  assert (In hasPlus [false; true]) as Hin by (destruct hasPlus; simpl; auto).
  apply H2 in Hin.
  destruct (decimalToFractional (price_of_draws whole frac hasPlus)) as [text| |].
  - apply andb_true_iff in Hin as [Hplus Hdec]. apply Bool.eqb_prop in Hplus.
    unfold decodes_to in Hdec.
    destruct (ParsePriceFormat text) as [y| |] eqn:Hy.
    + exists text, y. split; [reflexivity|]. split; [exact Hplus|].
      split; [exact Hy | exact Hdec].
    + exfalso. exact (Bool.diff_false_true Hdec).
    + exfalso. exact (Bool.diff_false_true Hdec).
  - exfalso. exact (Bool.diff_false_true Hin).
  - exfalso. exact (Bool.diff_false_true Hin).
Qed.

(** The price 99 + 16/32 + 1/64 is written 99-16+ and read back as
    99.48046875. *)
Lemma round_trip_shift_by_text_witness :
  exists text y,
    decimalToFractional (price_of_draws 99 16 true) = Returns text /\
    ends_with_plus text = true /\
    ParsePriceFormat text = Returns y /\
    (y =? price_of_draws 99 16 true - 0.03515625)%float = true.
Proof. apply (round_trip_shift_by_text 99 16 true); lia. Defined.

End PriceGrammar.

(** ** Order book lines *)

Section OrderBookLines.
Import Parsing Terms Connectors ExecutionStage.

Lemma decoded_exists (ts : list string) :
  Forall (fun t => long_enough t = true) ts -> exists ps, decoded ts ps.
Proof.
  induction 1 as [|t ts Ht _ [ps IH]]; [exists []; constructor|].
  destruct (proj1 (ParsePriceFormat_reads t)) as [p Hp].
  { now apply Nat.leb_le. }
  exists (p :: ps). now constructor.
Qed.

Lemma drop_cons_inv {A : Type} (l : list A) (i : nat) (t : A) (l' : list A) :
  drop i l = t :: l' -> l !! i = Some t /\ drop (S i) l = l'.
Proof.
  intros H. assert (l !! i = Some t) as Hi.
  { rewrite <- (Nat.add_0_r i), <- lookup_drop, H. reflexivity. }
  split; [exact Hi|]. rewrite (drop_S _ _ _ Hi) in H. now injection H.
Qed.

Lemma push_prices_decoded (splitted : list string) (ts : list string) (ps : list float) :
  decoded ts ps ->
  forall (i : nat) (px : list float),
    take (length ts) (drop i splitted) = ts ->
    push_prices splitted i (length ts) px = Returns (px ++ ps).
Proof.
  induction 1 as [|t p ts ps Hp _ IH]; intros i px Htake; simpl.
  - now rewrite app_nil_r.
  - simpl in Htake. destruct (drop i splitted) as [|t' l'] eqn:Hdrop; [discriminate|].
    simpl in Htake. injection Htake as -> Htake.
    apply drop_cons_inv in Hdrop as [Hi Hdrop]. rewrite Hi. simpl. rewrite Hp. simpl.
    rewrite IH by now rewrite Hdrop. now rewrite <- app_assoc.
Qed.

Lemma push_prices_short (splitted : list string) :
  forall (n i : nat) (px : list float),
    Exists (fun t => long_enough t = false) (take n (drop i splitted)) ->
    push_prices splitted i n px = Undefined.
Proof.
  induction n as [|n IH]; intros i px Hex; simpl in *.
  - rewrite take_0 in Hex. inversion Hex.
  - destruct (drop i splitted) as [|t l'] eqn:Hdrop; [inversion Hex|].
    apply drop_cons_inv in Hdrop as [Hi Hdrop]. rewrite Hi. simpl.
    destruct (long_enough t) eqn:Hlong.
    + destruct (proj1 (ParsePriceFormat_reads t)) as [p Hp]; [now apply Nat.leb_le|].
      rewrite Hp. simpl. apply IH. rewrite Hdrop.
      simpl in Hex. inversion Hex; subst; [congruence | assumption].
    + rewrite (proj2 (ParsePriceFormat_reads t)); [reflexivity|].
      now apply Nat.leb_gt.
Qed.

Lemma count_take (ticker : string) (prices : list string) :
  let count := if (length (ticker :: prices) <? 11)%nat
               then (length (ticker :: prices) - 1)%nat else 10%nat in
  count = length (take 10 prices) /\ take count (drop 1 (ticker :: prices)) = take 10 prices.
Proof.
  simpl. rewrite length_take, drop_0.
  destruct (Nat.ltb_spec (S (length prices)) 11) as [Hlt|Hge].
  - rewrite Nat.sub_0_r. split; [lia|]. rewrite !take_ge by lia. reflexivity.
  - split; [lia | reflexivity].
Qed.

Lemma ParseOrderBook_decoded (text ticker : string) (prices : list string) (px : list float) :
  ParseCommaSepLine text = ticker :: prices ->
  decoded (take 10 prices) px ->
  ParseOrderBook text = Returns (ticker, px).
Proof.
  intros Htokens Hdec. unfold ParseOrderBook. rewrite Htokens.
  destruct (count_take ticker prices) as [-> Htake]. cbv zeta in Htake.
  rewrite (push_prices_decoded _ _ _ Hdec); [reflexivity|].
  destruct (count_take ticker prices) as [<- Htake']. exact Htake'.
Qed.

Lemma ParseOrderBook_short (text ticker : string) (prices : list string) :
  ParseCommaSepLine text = ticker :: prices ->
  Exists (fun t => long_enough t = false) (take 10 prices) ->
  ParseOrderBook text = Undefined.
Proof.
  intros Htokens Hex. unfold ParseOrderBook. rewrite Htokens.
  rewrite push_prices_short; [reflexivity|].
  destruct (count_take ticker prices) as [_ ->]. exact Hex.
Qed.

(** [ParseOrderBook] takes the first token of the line as the ticker and
    decodes the next tokens, ten at most.  When each of them has the
    characters [ParsePriceFormat] reads, it returns one price per token,
    in order; the tokens after the eleventh are ignored.  When one of them
    is too short, the call reads past the end of that token, which is
    undefined behaviour.  The empty line gives the empty ticker and no
    price. *)
Theorem ParseOrderBook_prices (text : string) :
  let tokens := ParseCommaSepLine text in
  let prices := take 10 (tail tokens) in
  (Forall (fun t => long_enough t = true) prices ->
   exists px, ParseOrderBook text = Returns (default "" (head tokens), px) /\
              decoded prices px) /\
  (Exists (fun t => long_enough t = false) prices -> ParseOrderBook text = Undefined).
Proof.
  cbv zeta. destruct (ParseCommaSepLine text) as [|ticker prices] eqn:Htokens; simpl.
  - split.
    + intros _. exists []. split; [|constructor].
      unfold ParseOrderBook. now rewrite Htokens.
    + intros Hex. inversion Hex.
  - split.
    + intros Hlong. destruct (decoded_exists _ Hlong) as [px Hdec].
      exists px. split; [|exact Hdec]. now apply (ParseOrderBook_decoded _ _ prices).
    + intros Hex. now apply (ParseOrderBook_short text ticker prices).
Qed.

Lemma ParseOrderBook_prices_witness :
  (exists px, ParseOrderBook "B02y,99-160,100-012" = Returns ("B02y", px) /\
              decoded ["99-160"; "100-012"] px) /\
  ParseOrderBook "B02y,99-160,100-0" = Undefined.
Proof.
  split.
  - apply (proj1 (ParseOrderBook_prices "B02y,99-160,100-012")).
    repeat constructor.
  - apply (proj2 (ParseOrderBook_prices "B02y,99-160,100-0")).
    right. left. reflexivity.
Defined.

Section Lines.
Context {St : Type}.
Variable ProcessOrderBook : OrderBook -> St -> outcome St.

Lemma fill_stacks_ten (px : list float) :
  length px = 10%nat ->
  fill_stacks px 0 5 [] [] =
    Returns (levels BID (alternate px).1, levels OFFER (alternate px).2).
Proof.
  intros Hlen.
  do 10 (destruct px as [|? px]; [discriminate|]).
  destruct px; [reflexivity | discriminate].
Qed.

Lemma fill_stacks_few (px : list float) :
  (length px < 10)%nat -> fill_stacks px 0 5 [] [] = Undefined.
Proof.
  intros Hlen.
  do 10 (destruct px as [|? px]; [reflexivity|]).
  simpl in Hlen. lia.
Qed.

Lemma MrktDataConnector_line_ten (line : string) (s : St) (ticker : string)
      (prices : list string) (product : Bond) (px : list float) :
  ParseCommaSepLine line = ticker :: prices ->
  GetProductMap !! ticker = Some product ->
  (10 <= length prices)%nat ->
  decoded (take 10 prices) px ->
  MrktDataConnector_line ProcessOrderBook line s = ProcessOrderBook (book_of product px) s.
Proof.
  intros Htokens Hproduct Hten Hdec.
  pose proof (ParseOrderBook_decoded _ _ _ _ Htokens Hdec) as Hparse.
  pose proof (Forall2_length _ _ _ Hdec) as Hlen. rewrite length_take in Hlen.
  unfold MrktDataConnector_line. rewrite Hparse. cbn [mbind outcome_bind].
  rewrite Hproduct, fill_stacks_ten by lia. reflexivity.
Qed.

(** What [MrktDataConnector::Subscribe] does with one line.  The prices
    are decoded before the ticker is looked up, so a price token that is
    too short is read past its end (undefined behaviour) whatever the
    ticker.  With prices that decode: a line with an unknown ticker is
    skipped; on a line of a catalog instrument with fewer than ten prices
    the loop reads [px] out of bounds (undefined behaviour); with ten
    prices or more, the service is handed the book whose bid levels are
    the prices at the even places and whose offer levels those at the odd
    places, level [i] of size 1,000,000 * (i + 1).  The empty line is
    skipped. *)
Theorem MrktDataConnector_line_cases (line : string) (s : St)
        (ticker : string) (prices : list string) :
  ParseCommaSepLine line = ticker :: prices ->
  MrktDataConnector_line ProcessOrderBook "" s = Returns s /\
  (Exists (fun t => long_enough t = false) (take 10 prices) ->
   MrktDataConnector_line ProcessOrderBook line s = Undefined) /\
  (Forall (fun t => long_enough t = true) (take 10 prices) ->
   (GetProductMap !! ticker = None ->
    MrktDataConnector_line ProcessOrderBook line s = Returns s) /\
   (forall product, GetProductMap !! ticker = Some product ->
      ((length prices < 10)%nat ->
       MrktDataConnector_line ProcessOrderBook line s = Undefined) /\
      ((10 <= length prices)%nat ->
       exists px, decoded (take 10 prices) px /\
         MrktDataConnector_line ProcessOrderBook line s =
           ProcessOrderBook (book_of product px) s))).
Proof.
  intros Htokens. split; [vm_compute; reflexivity|]. split.
  - intros Hex. unfold MrktDataConnector_line.
    now rewrite (ParseOrderBook_short _ _ _ Htokens Hex).
  - intros Hlong. destruct (decoded_exists _ Hlong) as [px Hdec].
    pose proof (ParseOrderBook_decoded _ _ _ _ Htokens Hdec) as Hparse.
    pose proof (Forall2_length _ _ _ Hdec) as Hlen. rewrite length_take in Hlen.
    unfold MrktDataConnector_line. rewrite Hparse. cbn [mbind outcome_bind]. split.
    + intros ->. reflexivity.
    + intros product ->. split.
      * intros Hfew. rewrite fill_stacks_few by lia. reflexivity.
      * intros Hten. exists px. split; [exact Hdec|].
        rewrite fill_stacks_ten by lia. reflexivity.
Qed.

End Lines.

End OrderBookLines.

(** A line of ten prices for B02y, and the same line cut after the ninth. *)
Lemma MrktDataConnector_line_cases_witness :
  let line := "B02y,99-160,99-162,99-150,99-170,99-140,99-180,99-130,99-190,99-120,99-200" in
  let cut := "B02y,99-160,99-162,99-150,99-170,99-140,99-180,99-130,99-190,99-120" in
  (exists px,
      Terms.decoded ["99-160"; "99-162"; "99-150"; "99-170"; "99-140";
                     "99-180"; "99-130"; "99-190"; "99-120"; "99-200"] px /\
      Connectors.MrktDataConnector_line (fun ob s => Returns (s ++ [ob])) line [] =
        Returns [Terms.book_of B02y px]) /\
  Connectors.MrktDataConnector_line (fun ob s => Returns (s ++ [ob])) cut [] = Undefined.
Proof.
  cbv zeta. split.
  - apply (MrktDataConnector_line_cases (fun ob s => Returns (s ++ [ob]))
             "B02y,99-160,99-162,99-150,99-170,99-140,99-180,99-130,99-190,99-120,99-200"
             [] "B02y"
             ["99-160"; "99-162"; "99-150"; "99-170"; "99-140";
              "99-180"; "99-130"; "99-190"; "99-120"; "99-200"]).
    + vm_compute. reflexivity.
    + repeat constructor.
    + vm_compute. reflexivity.
    + simpl. lia.
  - destruct (MrktDataConnector_line_cases (fun ob s => Returns (s ++ [ob]))
             "B02y,99-160,99-162,99-150,99-170,99-140,99-180,99-130,99-190,99-120"
             [] "B02y"
             ["99-160"; "99-162"; "99-150"; "99-170"; "99-140";
              "99-180"; "99-130"; "99-190"; "99-120"]) as (_ & _ & H).
    + vm_compute. reflexivity.
    + destruct H as [_ H]; [repeat constructor|].
      apply (H B02y); [vm_compute; reflexivity | simpl; lia].
Defined.

(** ** Books of the market data adapter under the execution algorithm *)

Section BookExecution.
Import Terms ExecutionStage Listeners.

(** One evaluation of a book whose best levels both have size 1,000,000. *)
Lemma Execute_best_levels (i : nat) (ob : OrderBook) (best_bid best_offer : float)
      (c : Z) (log : list (nat * AlgoExecution)) :
  head (GetBidStack ob) = Some (mkOrder best_bid 1000000 BID) ->
  head (GetOfferStack ob) = Some (mkOrder best_offer 1000000 OFFER) ->
  0 <= c < INT_MAX ->
  Execute (instance i) ob (c, log) =
    Returns (if within_tol best_bid best_offer
             then (c + 1,
                   log ++ [(i, mkAlgoExecution
                                 (mkExecutionOrder (GetProduct ob)
                                    (if Z.even (c + 1) then BID else OFFER)
                                    (to_string (c + 1)) MARKET
                                    (if Z.even (c + 1) then best_bid else best_offer)
                                    1000000 900000 (to_string (c + 1)) false)
                                 CME)])
             else (c, log)).
Proof.
  intros Hb Ho Hc.
  set (bid0 := mkOrder best_bid 1000000 BID) in *.
  set (offer0 := mkOrder best_offer 1000000 OFFER) in *.
  destruct (within_tol best_bid best_offer) eqn:Htol.
  - assert (Hh : static_cast_long
              (to_double (if Z.even (c + 1) then GetQuantity offer0 else GetQuantity bid0)
               * hidden_ratio)%float = Returns 900000).
    { destruct (Z.even (c + 1)); exact hidden_of_one_million. }
    pose proof (AlgoExecution_ctor_returns ob c bid0 offer0 900000 Hc Hb Ho Hh) as Hctor.
    rewrite (Execute_emits (instance i) ob c (c + 1) log bid0 offer0 _ Hb Ho Htol Hctor).
    simpl. destruct (Z.even (c + 1)); reflexivity.
  - rewrite (Execute_skips (instance i) ob c log bid0 offer0 Hb Ho Htol). reflexivity.
Qed.

Lemma book_of_heads (product : Bond) (best_bid best_offer : float) (deeper : list float) :
  head (GetBidStack (book_of product (best_bid :: best_offer :: deeper)))
    = Some (mkOrder best_bid 1000000 BID) /\
  head (GetOfferStack (book_of product (best_bid :: best_offer :: deeper)))
    = Some (mkOrder best_offer 1000000 OFFER).
Proof. unfold book_of. simpl. destruct (alternate deeper). split; reflexivity. Qed.

(** A book built by the market data adapter, handed to the execution
    listener.  Both best levels have size 1,000,000, so whenever the
    counter can still be incremented the call returns and leaves the book
    alone: when the first two prices are within the tolerance, one order
    named by the new count, at the best bid (even count) or the best offer
    (odd count), of 1,000,000 with 900,000 hidden; otherwise nothing.  The
    deeper prices play no part. *)
Theorem connector_book_executes (i : nat) (product : Bond) (best_bid best_offer : float)
        (deeper : list float) (c : Z) (log : list (nat * AlgoExecution)) :
  0 <= c < INT_MAX ->
  Notify [BondAlgoExecutionListener (instance i)]
         (book_of product (best_bid :: best_offer :: deeper)) (c, log) =
    Returns (book_of product (best_bid :: best_offer :: deeper),
             if within_tol best_bid best_offer
             then (c + 1,
                   log ++ [(i, mkAlgoExecution
                                 (mkExecutionOrder product
                                    (if Z.even (c + 1) then BID else OFFER)
                                    (to_string (c + 1)) MARKET
                                    (if Z.even (c + 1) then best_bid else best_offer)
                                    1000000 900000 (to_string (c + 1)) false)
                                 CME)])
             else (c, log)).
Proof.
  intros Hc.
  destruct (book_of_heads product best_bid best_offer deeper) as [Hb Ho].
  unfold Notify, BondAlgoExecutionListener.
  rewrite (Execute_best_levels i _ best_bid best_offer c log Hb Ho Hc). reflexivity.
Qed.

Lemma threshold_grid : threshold_table 25296 1106 = true.
Proof. vm_compute. reflexivity. Qed.

Lemma threshold_table_In (lo len n1 n2 : Z) :
  threshold_table lo len = true ->
  lo <= n1 < lo + len -> lo <= n2 < lo + len ->
  within_tol (of_256ths n1) (of_256ths n2) = (n2 - n1 <=? 2).
Proof.
  unfold threshold_table. cbv zeta. intros H H1 H2.
  rewrite forallb_forall in H.
  assert (forall n, lo <= n < lo + len ->
            In (n, of_256ths n) ((fun n => (n, of_256ths n)) <$> seqZ lo len)) as Hin.
  { intros n Hn. apply (in_map (fun n => (n, of_256ths n))), list_elem_of_In, elem_of_seqZ.
    exact Hn. }
  specialize (H _ (Hin n1 H1)). rewrite forallb_forall in H.
  specialize (H _ (Hin n2 H2)). simpl in H. now apply Bool.eqb_prop in H.
Qed.

(** The threshold of the execution algorithm on prices that are whole
    numbers of 256ths between 98.8125 and 103.12890625.  A book whose best
    offer is at most two 256ths above its best bid gets an order; this
    includes every locked book (offer equal to bid) and every crossed book
    (offer below bid).  A book whose best offer is three 256ths or more
    above its best bid gets none.  The counter moves in the first case
    only. *)
Theorem execution_threshold (i : nat) (product : Bond) (n1 n2 : Z) (deeper : list float)
        (c : Z) (log : list (nat * AlgoExecution)) :
  25296 <= n1 <= 26401 ->
  25296 <= n2 <= 26401 ->
  0 <= c < INT_MAX ->
  exists new,
    Execute (instance i) (book_of product (of_256ths n1 :: of_256ths n2 :: deeper)) (c, log) =
      Returns (if n2 - n1 <=? 2 then c + 1 else c, log ++ new) /\
    length new = (if n2 - n1 <=? 2 then 1%nat else 0%nat).
Proof.
  intros H1 H2 Hc.
  destruct (book_of_heads product (of_256ths n1) (of_256ths n2) deeper) as [Hb Ho].
  rewrite (Execute_best_levels i _ _ _ c log Hb Ho Hc).
  rewrite (threshold_table_In 25296 1106 n1 n2 threshold_grid) by lia.
  destruct (n2 - n1 <=? 2).
  - eexists [_]. split; reflexivity.
  - exists []. rewrite app_nil_r. split; reflexivity.
Qed.

(** A crossed book, bid 99-170 and offer 99-160, gets an order; a book one
    64th wide, bid 99-160 and offer 99-164, gets none. *)
Lemma execution_threshold_witness :
  (exists new,
      Execute (instance 0) (book_of B02y [of_256ths 25480; of_256ths 25472]) (0, []) =
        Returns (if 25472 - 25480 <=? 2 then 0 + 1 else 0, [] ++ new) /\
      length new = (if 25472 - 25480 <=? 2 then 1%nat else 0%nat)) /\
  (exists new,
      Execute (instance 0) (book_of B02y [of_256ths 25472; of_256ths 25476]) (0, []) =
        Returns (if 25476 - 25472 <=? 2 then 0 + 1 else 0, [] ++ new) /\
      length new = (if 25476 - 25472 <=? 2 then 1%nat else 0%nat)).
Proof.
  split.
  - apply (execution_threshold 0 B02y 25480 25472 [] 0 []); unfold INT_MAX; lia.
  - apply (execution_threshold 0 B02y 25472 25476 [] 0 []); unfold INT_MAX; lia.
Defined.

(** Best bid 99-160 and best offer 99-162, one 128th apart, from the
    counter 0: one order on the offer side. *)
Lemma connector_book_executes_witness :
  Notify [BondAlgoExecutionListener (instance 0)]
         (book_of B02y [99.5; 99.5078125; 99.4; 99.6; 99.3; 99.7; 99.2; 99.8; 99.1; 99.9]%float)
         (0, []) =
    Returns (book_of B02y [99.5; 99.5078125; 99.4; 99.6; 99.3; 99.7; 99.2; 99.8; 99.1; 99.9]%float,
             (1, [(0%nat, mkAlgoExecution
                        (mkExecutionOrder B02y OFFER "1" MARKET 99.5078125 1000000 900000
                                          "1" false) CME)])).
Proof.
  apply (connector_book_executes 0 B02y 99.5 99.5078125
           [99.4; 99.6; 99.3; 99.7; 99.2; 99.8; 99.1; 99.9]%float 0 []).
  unfold INT_MAX. lia.
Defined.

End BookExecution.

(** ** Price lines and the streams built from them *)

Section PriceLines.
Import Parsing Terms Connectors Listeners.

Section Lines.
Context {St : Type}.
Variable OnMessage : GUIStage.Price -> St -> outcome (GUIStage.Price * St).

Lemma PricingConnector_line_known (line : string) (s : St) (t0 t1 t2 : string)
      (rest : list string) (bond : Bond) (bid ask : float) :
  ParseCommaSepLine line = t0 :: t1 :: t2 :: rest ->
  GetProductMap !! t0 = Some bond ->
  ParsePriceFormat t1 = Returns bid ->
  ParsePriceFormat t2 = Returns ask ->
  PricingConnector_line OnMessage line s =
    ('(_, s') ← OnMessage (price_of bond bid ask) s; Returns s').
Proof.
  intros Htokens Hbond Hbid Hask. unfold PricingConnector_line. rewrite Htokens.
  change (length (t0 :: t1 :: t2 :: rest) <? 3)%nat with false.
  cbn [lookup list_lookup deref mbind outcome_bind]. rewrite Hbond.
  cbn [lookup list_lookup deref mbind outcome_bind]. rewrite Hbid, Hask. reflexivity.
Qed.

(** What [PricingConnector::Subscribe] does with one line.  A line of
    fewer than three tokens is skipped, and so is a line whose first token
    is not a catalog ticker, before any price is decoded.  For a catalog
    ticker the second and third token are decoded as bid and ask: when one
    of them is too short it is read past its end (undefined behaviour);
    otherwise the service is given the quote with mid (bid + ask) / 2 and
    spread ask - bid.  Tokens after the third are ignored. *)
Theorem PricingConnector_line_cases (line : string) (s : St) :
  ((length (ParseCommaSepLine line) < 3)%nat ->
   PricingConnector_line OnMessage line s = Returns s) /\
  (forall t0 t1 t2 rest,
      ParseCommaSepLine line = t0 :: t1 :: t2 :: rest ->
      (GetProductMap !! t0 = None -> PricingConnector_line OnMessage line s = Returns s) /\
      (forall bond, GetProductMap !! t0 = Some bond ->
         (long_enough t1 && long_enough t2 = false ->
          PricingConnector_line OnMessage line s = Undefined) /\
         (long_enough t1 && long_enough t2 = true ->
          exists bid ask,
            ParsePriceFormat t1 = Returns bid /\ ParsePriceFormat t2 = Returns ask /\
            PricingConnector_line OnMessage line s =
              ('(_, s') ← OnMessage (price_of bond bid ask) s; Returns s')))).
Proof.
  unfold PricingConnector_line. split.
  - intros Hlen. apply Nat.ltb_lt in Hlen. now rewrite Hlen.
  - intros t0 t1 t2 rest ->.
    change (length (t0 :: t1 :: t2 :: rest) <? 3)%nat with false.
    cbn [lookup list_lookup deref mbind outcome_bind]. split.
    + intros ->. reflexivity.
    + intros bond ->. cbn [lookup list_lookup deref mbind outcome_bind]. split.
      * intros Hshort. apply andb_false_iff in Hshort.
        destruct (long_enough t1) eqn:H1.
        -- destruct (proj1 (ParsePriceFormat_reads t1)) as [bid ->]; [now apply Nat.leb_le|].
           destruct Hshort as [Hshort|Hshort]; [discriminate|].
           rewrite (proj2 (ParsePriceFormat_reads t2)); [reflexivity | now apply Nat.leb_gt].
        -- rewrite (proj2 (ParsePriceFormat_reads t1)); [reflexivity | now apply Nat.leb_gt].
      * intros [H1 H2]%andb_true_iff.
        destruct (proj1 (ParsePriceFormat_reads t1)) as [bid Hbid]; [now apply Nat.leb_le|].
        destruct (proj1 (ParsePriceFormat_reads t2)) as [ask Hask]; [now apply Nat.leb_le|].
        exists bid, ask. rewrite Hbid, Hask. auto.
Qed.

End Lines.

Lemma legs_grid : legs_table (grid_256ths 25296 1106) = true.
Proof. vm_compute. reflexivity. Qed.

Lemma legs_table_In (grid : list float) (bid ask : float) :
  legs_table grid = true -> In bid grid -> In ask grid ->
  ((((bid + ask) / 2 - (ask - bid) / 2 =? bid) &&
    ((bid + ask) / 2 + (ask - bid) / 2 =? ask))%float) = true.
Proof.
  unfold legs_table. intros H Hbid Hask.
  rewrite forallb_forall in H. specialize (H bid Hbid).
  rewrite forallb_forall in H. exact (H ask Hask).
Qed.

Lemma in_grid_256ths (lo len n : Z) : lo <= n < lo + len -> In (of_256ths n) (grid_256ths lo len).
Proof. intros Hn. apply in_map, list_elem_of_In, elem_of_seqZ. exact Hn. Qed.

(** Quotes round trip through the streaming algorithm.  For a bid and an
    ask that are whole numbers of 256ths between 98.8125 and 103.12890625
    (every value [ParsePriceFormat] returns on the texts of the generator
    and on the three-digit texts lies there), the stream the streaming
    listener publishes for the quote the pricing adapter builds has its
    bid leg at the bid and its offer leg at the ask, whichever of the two
    is higher; it is on the same instrument, and the quote is left as it
    was. *)
Theorem stream_legs_are_bid_and_ask (bond : Bond) (n1 n2 : Z)
        (log : list ExecutionStage.PriceStream) :
  25296 <= n1 <= 26401 ->
  25296 <= n2 <= 26401 ->
  exists stream,
    Notify [AlgoStreamingListener [recorder]]
           (price_of bond (of_256ths n1) (of_256ths n2)) log =
      Returns (price_of bond (of_256ths n1) (of_256ths n2), log ++ [stream]) /\
    ExecutionStage.GetStreamProduct stream = bond /\
    legs_at stream (of_256ths n1) (of_256ths n2) = true /\
    ExecutionStage.GetStreamSide (ExecutionStage.GetBidOrder stream) = ExecutionStage.BID /\
    ExecutionStage.GetStreamSide (ExecutionStage.GetOfferOrder stream) = ExecutionStage.OFFER.
Proof.
  intros H1 H2.
  pose proof (legs_table_In _ (of_256ths n1) (of_256ths n2) legs_grid
                (in_grid_256ths 25296 1106 n1 ltac:(lia))
                (in_grid_256ths 25296 1106 n2 ltac:(lia))) as H.
  generalize dependent (of_256ths n2). intros ask H.
  generalize dependent (of_256ths n1). intros bid H.
  exists (ExecutionStage.mkPriceStream bond
            (ExecutionStage.mkPriceStreamOrder
               ((bid + ask) / 2 - (ask - bid) / 2)%float 1000000 1000000 ExecutionStage.BID)
            (ExecutionStage.mkPriceStreamOrder
               ((bid + ask) / 2 + (ask - bid) / 2)%float 1000000 1000000 ExecutionStage.OFFER)).
  split; [reflexivity|]. split; [reflexivity|]. split; [exact H|]. split; reflexivity.
Qed.

(** Bid 99-160 and ask 99-162. *)
Lemma stream_legs_are_bid_and_ask_witness :
  exists stream,
    Notify [AlgoStreamingListener [recorder]]
           (price_of B02y (of_256ths 25472) (of_256ths 25474)) [] =
      Returns (price_of B02y (of_256ths 25472) (of_256ths 25474), [] ++ [stream]) /\
    ExecutionStage.GetStreamProduct stream = B02y /\
    legs_at stream (of_256ths 25472) (of_256ths 25474) = true /\
    ExecutionStage.GetStreamSide (ExecutionStage.GetBidOrder stream) = ExecutionStage.BID /\
    ExecutionStage.GetStreamSide (ExecutionStage.GetOfferOrder stream) = ExecutionStage.OFFER.
Proof. apply (stream_legs_are_bid_and_ask B02y 25472 25474 []); lia. Defined.

End PriceLines.

(** A price line for B02y read into a record of the quotes received. *)
Lemma PricingConnector_line_cases_witness :
  exists bid ask,
    ParsePriceFormat "99-160" = Returns bid /\ ParsePriceFormat "99-162" = Returns ask /\
    Connectors.PricingConnector_line recorder "B02y,99-160,99-162" [] =
      ('(_, s') ← recorder (Terms.price_of B02y bid ask) []; Returns s').
Proof.
  destruct (PricingConnector_line_cases recorder "B02y,99-160,99-162" []) as [_ H].
  destruct (H "B02y" "99-160" "99-162" [] ltac:(vm_compute; reflexivity)) as [_ H2].
  apply (H2 B02y ltac:(vm_compute; reflexivity)). reflexivity.
Defined.

(** ** The position line and the risk measure of a position *)

Section PositionLines.
Import Terms Connectors Listeners PositionStage.

(** The line [PositionConnector::Publish] appends for a position that has
    the three books: time, ticker, the three books and their sum, nothing
    being written to [cout]; it needs the sums [p1 + p2] and
    [p1 + p2 + p3] to fit in a [long].  The aggregate on the line is the
    one [GetAggregatePosition] returns, which the risk service reads.  On
    a position that lacks one of the three books the call dereferences
    [end()] (undefined behaviour). *)
Theorem PositionConnector_line (now_ms : Z) (data : Position) (v1 v2 v3 : Z)
        (file : list PositionLine) (cout : list string) :
  books_at (positions data) v1 v2 v3 ->
  Z.abs v1 + Z.abs v2 + Z.abs v3 <= LONG_MAX ->
  PositionConnector_Publish now_ms data (file, cout) =
    Returns (file ++ [(now_ms, GetTicker (product data), v1, v2, v3, v1 + v2 + v3)], cout) /\
  GetAggregatePosition data = Returns (v1 + v2 + v3) /\
  (forall (other : Position) (book : string),
      book ∈ books_ -> positions other !! book = None ->
      PositionConnector_Publish now_ms other (file, cout) = Undefined).
Proof.
  intros Hat Hb. split; [|split].
  - destruct Hat as (H1 & H2 & H3 & _).
    unfold PositionConnector_Publish, GetPosition. rewrite H1, H2, H3.
    cbn [deref mbind outcome_bind].
    rewrite (as_long_in (v1 + v2)) by (unfold LONG_MIN, LONG_MAX in *; lia).
    cbn [mbind outcome_bind].
    rewrite (as_long_in (v1 + v2 + v3)) by (unfold LONG_MIN, LONG_MAX in *; lia).
    reflexivity.
  - now apply aggregate_books.
  - intros other book Hin Hnone.
    unfold PositionConnector_Publish, GetPosition.
    destruct (in_books _ Hin) as [-> | [-> | ->]].
    + rewrite Hnone. reflexivity.
    + rewrite Hnone. destruct (positions other !! "TRSY1"); reflexivity.
    + rewrite Hnone.
      destruct (positions other !! "TRSY1"); [|reflexivity].
      destruct (positions other !! "TRSY2"); reflexivity.
Qed.

(** The short position: 1,000,000 long in TRSY1, 3,000,000 short in TRSY2. *)
Lemma PositionConnector_line_witness :
  PositionConnector_Publish 1700 short_position ([], []) =
    Returns ([] ++ [(1700, "B02y", 1000000, -3000000, 0, 1000000 + -3000000 + 0)], []) /\
  GetAggregatePosition short_position = Returns (1000000 + -3000000 + 0) /\
  (forall (other : Position) (book : string),
      book ∈ books_ -> positions other !! book = None ->
      PositionConnector_Publish 1700 other ([], []) = Undefined).
Proof.
  apply (PositionConnector_line 1700 short_position 1000000 (-3000000) 0 [] []).
  - unfold books_at. repeat split; vm_compute; reflexivity.
  - vm_compute. discriminate.
Defined.

(** One position handed to the risk listener. *)
Lemma RiskServiceListener_step (pos : Position) (v1 v2 v3 : Z)
      (risk : RiskStage.RiskService) (log : list RiskStage.PV01) :
  books_at (positions pos) v1 v2 v3 ->
  Z.abs v1 + Z.abs v2 + Z.abs v3 <= LONG_MAX ->
  Notify [RiskServiceListener [recorder]] pos (risk, log) =
    Returns (pos, (risk, log ++ [RiskStage.mkPV01 (product pos) RiskStage.sensitivity
                                                  (v1 + v2 + v3)])).
Proof.
  intros Hat Hb. unfold Notify, RiskServiceListener, RiskStage.AddPosition.
  rewrite (aggregate_books pos v1 v2 v3 Hat Hb). reflexivity.
Qed.

Lemma AddTrades_risk (trades : list Trade) :
  forall (svc : PositionService) (pos : Position) (cout : list string)
         (risk : RiskStage.RiskService) (log : list RiskStage.PV01)
         (v1 v2 v3 : Z) (ticker : string),
    name_p svc !! ticker = Some pos ->
    books_at (positions pos) v1 v2 v3 ->
    Forall (fun t => GetTicker (GetProduct t) = ticker /\ GetBook t ∈ books_) trades ->
    Z.abs v1 + Z.abs v2 + Z.abs v3 + volume trades <= LONG_MAX ->
    exists pos' svc',
      UpdateAll trades pos = Returns pos' /\
      AddTrades [RiskServiceListener [recorder]] trades (svc, cout, (risk, log)) =
        Returns (svc', cout,
                 (risk, log ++ map (RiskStage.mkPV01 (product pos) RiskStage.sensitivity)
                                   (running (v1 + v2 + v3) trades))) /\
      name_p svc' = <[ticker := pos']> (name_p svc).
Proof.
  induction trades as [|t rest IH];
    intros svc pos cout risk log v1 v2 v3 ticker Hfind Hat Hall Hvol.
  - exists pos, svc. simpl. rewrite app_nil_r. repeat split.
    symmetry. now apply insert_id.
  - inversion Hall as [|? ? [Htick Hbook] Hrest]; subst.
    simpl in Hvol. pose proof (volume_nonneg rest).
    destruct (update_books pos v1 v2 v3 (GetBook t) (GetQuantity t) (GetSide t) Hat Hbook)
      as (pos1 & u1 & u2 & u3 & Hup & Hprod & Hat1 & Hsum & Habs1); [lia|].
    destruct (IH (mkPositionService (<[GetTicker (GetProduct t) := pos1]> (name_p svc)))
                 pos1 cout risk
                 (log ++ [RiskStage.mkPV01 (product pos1) RiskStage.sensitivity (u1 + u2 + u3)])
                 u1 u2 u3 (GetTicker (GetProduct t)))
      as (pos' & svc' & Hrun & Hadd & Hname);
      [simpl; apply lookup_insert_eq | exact Hat1 | exact Hrest | lia |].
    exists pos', svc'.
    split; [simpl; rewrite Hup; exact Hrun|]. split.
    + change (AddTrades [RiskServiceListener [recorder]] (t :: rest) (svc, cout, (risk, log)))
        with (st' ← AddTrade [RiskServiceListener [recorder]] t (svc, cout, (risk, log));
              AddTrades [RiskServiceListener [recorder]] rest st').
      rewrite (AddTrade_known _ _ _ _ _ _ Hfind), Hup.
      cbn [mbind outcome_bind].
      rewrite (RiskServiceListener_step pos1 u1 u2 u3 risk log Hat1) by lia.
      cbn [mbind outcome_bind]. rewrite Hadd.
      rewrite <- app_assoc. simpl.
      replace (v1 + v2 + v3 + signed t) with (u1 + u2 + u3)
        by (rewrite Hsum; unfold signed; reflexivity).
      now rewrite Hprod.
    + rewrite Hname. simpl. apply insert_insert_eq.
Qed.

(** From trades to risk.  Trades on one catalog instrument and the three
    books, of a total volume that fits in a [long], are added to the
    constructed position service, whose listener hands every position to
    the risk service.  Every call returns; the risk service publishes one
    measure per trade, for that instrument, with PV01 0.02 and the
    aggregate after that trade as its quantity; it keeps no measure
    itself, and nothing is written to [cout]. *)
Theorem trades_reach_risk (b : Bond) (trades : list Trade)
        (cout : list string) (log : list RiskStage.PV01) :
  name_p initial_service !! GetTicker b = Some (Position_ctor b) ->
  Forall (fun t => GetTicker (GetProduct t) = GetTicker b /\ GetBook t ∈ books_) trades ->
  volume trades <= LONG_MAX ->
  exists svc',
    AddTrades [RiskServiceListener [recorder]] trades
              (initial_service, cout, (RiskStage.RiskService_ctor, log)) =
      Returns (svc', cout,
               (RiskStage.RiskService_ctor,
                log ++ map (RiskStage.mkPV01 b RiskStage.sensitivity) (running 0 trades))) /\
    length (running 0 trades) = length trades /\
    last (running 0 trades) = (if trades is [] then None else Some (signed_sum trades)).
Proof.
  intros Hfind Hall Hvol.
  destruct (AddTrades_risk trades initial_service (Position_ctor b) cout
              RiskStage.RiskService_ctor log 0 0 0 (GetTicker b) Hfind (ctor_books b) Hall)
    as (p & svc' & _ & Hadd & _); [simpl; lia|].
  exists svc'. split; [exact Hadd|].
  assert (forall l acc, length (running acc l) = length l /\
                        last (running acc l)
                          = (if l is [] then None else Some (acc + signed_sum l))) as Hrun.
  { clear. induction l as [|t rest IH]; intros acc; [split; reflexivity|].
    destruct (IH (acc + signed t)) as [Hlen Hlast]. split; [simpl; now rewrite Hlen|].
    destruct rest as [|t' rest'].
    - simpl. f_equal. lia.
    - change (running acc (t :: t' :: rest'))
        with ((acc + signed t) :: running (acc + signed t) (t' :: rest')).
      change (running (acc + signed t) (t' :: rest'))
        with ((acc + signed t + signed t') :: running (acc + signed t + signed t') rest')
        in *.
      rewrite last_cons_cons, Hlast. f_equal. simpl. lia. }
  destruct (Hrun trades 0) as [Hlen Hlast]. split; [exact Hlen|].
  rewrite Hlast. destruct trades; [reflexivity|]. now rewrite Z.add_0_l.
Qed.

End PositionLines.

(** A buy of 1,000,000 in TRSY1 and a sell of 3,000,000 in TRSY2 on B02y:
    the measures carry 1,000,000 and then -2,000,000. *)
Lemma trades_reach_risk_witness :
  exists svc',
    PositionStage.AddTrades [Listeners.RiskServiceListener [recorder]]
      [trade B02y "TRSY1" 1000000 PositionStage.BUY;
       trade B02y "TRSY2" 3000000 PositionStage.SELL]
      (initial_service, [], (RiskStage.RiskService_ctor, [])) =
      Returns (svc', [],
               (RiskStage.RiskService_ctor,
                [] ++ map (RiskStage.mkPV01 B02y RiskStage.sensitivity)
                          (Terms.running 0
                             [trade B02y "TRSY1" 1000000 PositionStage.BUY;
                              trade B02y "TRSY2" 3000000 PositionStage.SELL]))) /\
    length (Terms.running 0
              [trade B02y "TRSY1" 1000000 PositionStage.BUY;
               trade B02y "TRSY2" 3000000 PositionStage.SELL]) = 2%nat /\
    last (Terms.running 0
            [trade B02y "TRSY1" 1000000 PositionStage.BUY;
             trade B02y "TRSY2" 3000000 PositionStage.SELL]) = Some (-2000000).
Proof.
  apply (trades_reach_risk B02y
           [trade B02y "TRSY1" 1000000 PositionStage.BUY;
            trade B02y "TRSY2" 3000000 PositionStage.SELL] [] []).
  - reflexivity.
  - repeat constructor.
  - vm_compute. discriminate.
Defined.

(** ** The spacing of the quotes the GUI receives *)

Section Spacing.
Import GUIStage.

(** Any sequence of quotes, with clock readings in any order, handed to a
    GUI service: every call returns; the quotes forwarded are a
    subsequence of the quotes received, in their order; the start time is
    never changed; and each forwarded quote moves the time of the last
    forwarded quote by more than 300 ms, so [n] forwarded quotes take more
    than [300 * n] ms of that clock. *)
Theorem throttle_spacing (quotes : list (Z * Price)) :
  forall svc : GUIService,
    Forall (fun q => 0 <= q.1 <= LONG_MAX) quotes ->
    0 <= last_quote_time svc <= LONG_MAX ->
    exists svc' delivered,
      ProvideAll quotes svc = Returns svc' /\
      gui_connector svc' = gui_connector svc ++ delivered /\
      delivered `sublist_of` quotes.*2 /\
      service_start_time svc' = service_start_time svc /\
      301 * Z.of_nat (length delivered) <= last_quote_time svc' - last_quote_time svc /\
      0 <= last_quote_time svc' <= LONG_MAX.
Proof.
  induction quotes as [|[t d] rest IH]; intros svc Hall Hlast.
  - exists svc, []. simpl. rewrite app_nil_r. repeat split; try lia. constructor.
  - inversion Hall as [|? ? Ht Hrest]; subst. simpl in Ht.
    change (ProvideAll ((t, d) :: rest) svc)
      with (svc' ← ProvideData t d svc; ProvideAll rest svc').
    destruct (Z_lt_le_dec 300 (t - last_quote_time svc)) as [Hgt|Hle].
    + rewrite ProvideData_forwards by lia. cbn [mbind outcome_bind].
      destruct (IH (mkGUIService (service_start_time svc) t (gui_connector svc ++ [d])) Hrest)
        as (svc' & delivered & Hrun & Hconn & Hsub & Hstart & Hgap & Hrange);
        [simpl; lia|].
      simpl in Hconn, Hstart, Hgap.
      exists svc', (d :: delivered). rewrite Hrun, Hconn, <- app_assoc.
      repeat split; try lia; try assumption.
      * simpl. now apply sublist_skip.
      * rewrite length_cons. lia.
    + rewrite ProvideData_drops by (unfold LONG_MIN, LONG_MAX in *; lia).
      cbn [mbind outcome_bind].
      destruct (IH svc Hrest Hlast)
        as (svc' & delivered & Hrun & Hconn & Hsub & Hstart & Hgap & Hrange).
      exists svc', delivered. rewrite Hrun.
      repeat split; try lia; try assumption.
      simpl. now apply sublist_cons.
Qed.

End Spacing.

(** A service constructed at 1000 and three quotes at 1400, 1500 and 1800. *)
Lemma throttle_spacing_witness :
  exists svc' delivered,
    GUIStage.ProvideAll
      [(1400, quote B02y 99.5 0.015625); (1500, quote B10y 100 0.03125);
       (1800, quote B02y 99.5 0.03125)] (GUIStage.GUIService_ctor 1000) = Returns svc' /\
    GUIStage.gui_connector svc'
      = GUIStage.gui_connector (GUIStage.GUIService_ctor 1000) ++ delivered /\
    delivered `sublist_of`
      [(1400, quote B02y 99.5 0.015625); (1500, quote B10y 100 0.03125);
       (1800, quote B02y 99.5 0.03125)].*2 /\
    GUIStage.service_start_time svc'
      = GUIStage.service_start_time (GUIStage.GUIService_ctor 1000) /\
    301 * Z.of_nat (length delivered)
      <= GUIStage.last_quote_time svc'
         - GUIStage.last_quote_time (GUIStage.GUIService_ctor 1000) /\
    0 <= GUIStage.last_quote_time svc' <= LONG_MAX.
Proof.
  apply (throttle_spacing
           [(1400, quote B02y 99.5 0.015625); (1500, quote B10y 100 0.03125);
            (1800, quote B02y 99.5 0.03125)] (GUIStage.GUIService_ctor 1000)).
  - repeat constructor; vm_compute; congruence.
  - vm_compute. split; congruence.
Defined.

(** ** The order of the trades *)

Section TradeOrder.
Import PositionStage.

Lemma signed_sum_Permutation (l l' : list Trade) : l ≡ₚ l' -> signed_sum l = signed_sum l'.
Proof. induction 1; simpl; lia. Qed.

Lemma volume_Permutation (l l' : list Trade) : l ≡ₚ l' -> volume l = volume l'.
Proof. induction 1; simpl; lia. Qed.

Lemma books_at_lookup (m m' : gmap string Z) (v1 v2 v3 : Z) :
  books_at m v1 v2 v3 -> books_at m' v1 v2 v3 -> m = m'.
Proof.
  intros (H1 & H2 & H3 & Hd) (H1' & H2' & H3' & Hd'). apply map_eq. intros i.
  destruct (decide (i ∈ dom m)) as [Hin|Hout].
  - rewrite Hd in Hin.
    rewrite !elem_of_union, !elem_of_singleton in Hin.
    destruct Hin as [[-> | ->] | ->]; congruence.
  - assert (i ∉ dom m') as Hout' by (rewrite Hd', <- Hd; exact Hout).
    apply not_elem_of_dom in Hout. apply not_elem_of_dom in Hout'. congruence.
Qed.

(** The order of the trades does not matter.  From a position with the
    three books, two sequences of the same trades on these books, in any
    two orders, of a total volume that keeps every sum in a [long]: both
    runs return, and they return the same position. *)
Theorem UpdateAll_any_order (p0 : Position) (v1 v2 v3 : Z) (trades trades' : list Trade) :
  trades ≡ₚ trades' ->
  books_at (positions p0) v1 v2 v3 ->
  Forall (fun t => GetBook t ∈ books_) trades ->
  Z.abs v1 + Z.abs v2 + Z.abs v3 + volume trades <= LONG_MAX ->
  exists p, UpdateAll trades p0 = Returns p /\ UpdateAll trades' p0 = Returns p.
Proof.
  intros Hperm Hat Hbooks Hvol.
  assert (Hbooks' : Forall (fun t => GetBook t ∈ books_) trades') by now rewrite <- Hperm.
  destruct (UpdateAll_books trades p0 v1 v2 v3 Hat Hbooks Hvol)
    as (p & w1 & w2 & w3 & Hrun & Hprod & Hw & _).
  destruct (UpdateAll_books trades' p0 v1 v2 v3 Hat Hbooks')
    as (p' & w1' & w2' & w3' & Hrun' & Hprod' & Hw' & _).
  { now rewrite <- (volume_Permutation _ _ Hperm). }
  exists p. split; [exact Hrun|]. rewrite Hrun'. f_equal.
  assert (forall book v, positions p0 !! book = Some v ->
            positions p !! book = positions p' !! book) as Hsame.
  { intros book v Hv.
    rewrite (UpdateAll_book _ _ _ _ _ Hrun Hv), (UpdateAll_book _ _ _ _ _ Hrun' Hv).
    do 2 f_equal. apply signed_sum_Permutation. now rewrite Hperm. }
  pose proof Hat as (H1 & H2 & H3 & _).
  pose proof Hw as (G1 & G2 & G3 & _). pose proof Hw' as (G1' & G2' & G3' & _).
  assert (w1' = w1) as -> by (specialize (Hsame _ _ H1); congruence).
  assert (w2' = w2) as -> by (specialize (Hsame _ _ H2); congruence).
  assert (w3' = w3) as -> by (specialize (Hsame _ _ H3); congruence).
  destruct p as [b m], p' as [b' m']. simpl in *.
  rewrite (books_at_lookup m' m w1 w2 w3 Hw' Hw). congruence.
Qed.

End TradeOrder.

(** A buy in TRSY1 and a sell in TRSY2, in both orders. *)
Lemma UpdateAll_any_order_witness :
  exists p,
    UpdateAll [trade B02y "TRSY1" 1000000 PositionStage.BUY;
               trade B02y "TRSY2" 3000000 PositionStage.SELL]
              (PositionStage.Position_ctor B02y) = Returns p /\
    UpdateAll [trade B02y "TRSY2" 3000000 PositionStage.SELL;
               trade B02y "TRSY1" 1000000 PositionStage.BUY]
              (PositionStage.Position_ctor B02y) = Returns p.
Proof.
  apply (UpdateAll_any_order (PositionStage.Position_ctor B02y) 0 0 0).
  - apply perm_swap.
  - unfold books_at. repeat split; reflexivity.
  - repeat constructor.
  - vm_compute. discriminate.
Defined.

(** ** Inquiry lines *)

Section InquiryLines.
Import Parsing Terms Connectors InquiryStage.
Context {St : Type}.
Variable OnMessage : Inquiry -> St -> outcome (Inquiry * St).
Variable Bond_default : Bond.

(** An inquiry line written as identifier, ticker, side and any further
    columns, none of which holds a comma and the last of which is not
    empty.  The service is given one inquiry in state RECEIVED, for
    1,000,000 at the price -1 whatever the further columns say; the side is
    BUY for the text BUY and SELL for every other text; a ticker that is
    not in the catalog does not make the line be skipped, the inquiry is
    then on the default bond.  A line of fewer than three tokens is
    skipped. *)
Theorem InquiryConnector_line_written (inqId ticker side : string) (more : list string)
        (s : St) :
  Forall (fun t => has_comma t = false) (inqId :: ticker :: side :: more) ->
  last (inqId :: ticker :: side :: more) <> Some "" ->
  InquiryConnector_line OnMessage Bond_default
      (join "," (inqId :: ticker :: side :: more)) s =
    ('(_, s') ← OnMessage
        (mkInquiry inqId (default Bond_default (GetProductMap !! ticker))
           (if String.eqb side "BUY" then PositionStage.BUY else PositionStage.SELL)
           1000000 (-1) RECEIVED) s;
     Returns s') /\
  (forall line, (length (ParseCommaSepLine line) < 3)%nat ->
     InquiryConnector_line OnMessage Bond_default line s = Returns s).
Proof.
  intros Hall Hlast. split.
  - unfold InquiryConnector_line.
    rewrite (proj1 (ParseCommaSepLine_written _ Hall) Hlast). reflexivity.
  - intros line Hlen. unfold InquiryConnector_line.
    apply Nat.ltb_lt in Hlen. now rewrite Hlen.
Qed.

End InquiryLines.

(** A line with a status column, and a side that is not the text BUY. *)
Lemma InquiryConnector_line_written_witness :
  Connectors.InquiryConnector_line recorder B99y
      (Terms.join "," ["7"; "B02y"; "Buy"; "CANCELLED"]) [] =
    ('(_, s') ← recorder
        (InquiryStage.mkInquiry "7" (default B99y (GetProductMap !! "B02y"))
           (if String.eqb "Buy" "BUY" then PositionStage.BUY else PositionStage.SELL)
           1000000 (-1) InquiryStage.RECEIVED) [];
     Returns s') /\
  (forall line, (length (Parsing.ParseCommaSepLine line) < 3)%nat ->
     Connectors.InquiryConnector_line recorder B99y line [] = Returns []).
Proof.
  apply (InquiryConnector_line_written recorder B99y "7" "B02y" "Buy" ["CANCELLED"] []).
  - repeat constructor.
  - discriminate.
Defined.

(** ** The two listeners of the pricing service *)

Section FanOut.
Import GUIStage Listeners Feeds.

Lemma price_feed_cons (t : Z) (d : Price) (rest : list (Z * Price))
      (st : GUIService * list ExecutionStage.PriceStream) :
  price_feed ((t, d) :: rest) st =
    ('(_, st') ← Notify [GUIListener t; AlgoStreamingListener [stream_log]] d st;
     price_feed rest st').
Proof. reflexivity. Qed.

(** One quote through both listeners, once the GUI service has returned. *)
Lemma fan_out_step (t : Z) (d : Price) (svc svc' : GUIService)
      (log : list ExecutionStage.PriceStream) :
  ProvideData t d svc = Returns svc' ->
  exists stream,
    Notify [GUIListener t; AlgoStreamingListener [stream_log]] d (svc, log) =
      Returns (d, (svc', log ++ [stream])) /\
    ExecutionStage.GetStreamProduct stream = GetProduct d.
Proof.
  intros Hgui. eexists. split.
  - unfold Notify, GUIListener. rewrite Hgui. reflexivity.
  - reflexivity.
Qed.

(** The GUI throttle does not touch the streaming path.  Quotes with any
    clock readings go to the GUI listener and then to the streaming
    listener: every call returns, the GUI service ends as it does when it
    is given the quotes alone, and the streaming side has published one
    stream per quote, in order and on the instrument of the quote, whether
    the GUI forwarded the quote or dropped it. *)
Theorem price_fan_out (quotes : list (Z * Price)) :
  forall (svc : GUIService) (log : list ExecutionStage.PriceStream),
    Forall (fun q => 0 <= q.1 <= LONG_MAX) quotes ->
    0 <= last_quote_time svc <= LONG_MAX ->
    exists svc' streams,
      price_feed quotes (svc, log) = Returns (svc', log ++ streams) /\
      ProvideAll quotes svc = Returns svc' /\
      map ExecutionStage.GetStreamProduct streams = map GetProduct quotes.*2 /\
      0 <= last_quote_time svc' <= LONG_MAX.
Proof.
  induction quotes as [|[t d] rest IH]; intros svc log Hall Hlast.
  - exists svc, []. simpl. rewrite app_nil_r. auto.
  - inversion Hall as [|? ? Ht Hrest]; subst. simpl in Ht.
    assert (exists svc1, ProvideData t d svc = Returns svc1 /\
                         0 <= last_quote_time svc1 <= LONG_MAX) as (svc1 & Hgui & Hlast1).
    { destruct (Z_lt_le_dec 300 (t - last_quote_time svc)) as [Hgt|Hle].
      - eexists. split; [apply ProvideData_forwards; lia | simpl; lia].
      - exists svc. split; [|exact Hlast].
        apply ProvideData_drops. unfold LONG_MIN, LONG_MAX in *. lia. }
    destruct (fan_out_step t d svc svc1 log Hgui) as (stream & Hstep & Hprod).
    destruct (IH svc1 (log ++ [stream]) Hrest Hlast1)
      as (svc' & streams & Hfeed & Hgui' & Hprods & Hrange).
    exists svc', (stream :: streams).
    rewrite price_feed_cons, Hstep. cbn [mbind outcome_bind].
    rewrite Hfeed, <- app_assoc. split; [reflexivity|]. split; [|split].
    + change (ProvideAll ((t, d) :: rest) svc)
        with (s ← ProvideData t d svc; ProvideAll rest s).
      now rewrite Hgui.
    + simpl. now rewrite Hprod, Hprods.
    + exact Hrange.
Qed.

End FanOut.

(** A service constructed at 1000 and three quotes at 1400, 1500 and 1800:
    the GUI gets the first and the third, the streaming side all three. *)
Lemma price_fan_out_witness :
  exists svc' streams,
    Feeds.price_feed
      [(1400, quote B02y 99.5 0.015625); (1500, quote B10y 100 0.03125);
       (1800, quote B02y 99.5 0.03125)] (GUIStage.GUIService_ctor 1000, []) =
      Returns (svc', [] ++ streams) /\
    GUIStage.ProvideAll
      [(1400, quote B02y 99.5 0.015625); (1500, quote B10y 100 0.03125);
       (1800, quote B02y 99.5 0.03125)] (GUIStage.GUIService_ctor 1000) = Returns svc' /\
    map ExecutionStage.GetStreamProduct streams =
      map GUIStage.GetProduct
        [(1400, quote B02y 99.5 0.015625); (1500, quote B10y 100 0.03125);
         (1800, quote B02y 99.5 0.03125)].*2 /\
    0 <= GUIStage.last_quote_time svc' <= LONG_MAX.
Proof.
  apply (price_fan_out
           [(1400, quote B02y 99.5 0.015625); (1500, quote B10y 100 0.03125);
            (1800, quote B02y 99.5 0.03125)] (GUIStage.GUIService_ctor 1000) []).
  - repeat constructor; vm_compute; congruence.
  - vm_compute. split; congruence.
Defined.

(** ** The lines of the generator read by the adapters *)

Section GeneratedLines.
Import Parsing Terms Connectors.

Lemma generated_texts : generated_texts_table = true.
Proof. vm_compute. reflexivity. Qed.

Lemma generated_text_facts (d : draw) :
  in_range d ->
  has_comma (text_of_draw d) = false /\
  long_enough (text_of_draw d) = true /\
  decodes_to (text_of_draw d) (decoded_value d) = true.
Proof.
  destruct d as [[whole frac] hasPlus]. intros [Hw Hf]. simpl in Hw, Hf.
  pose proof generated_texts as H. unfold generated_texts_table in H.
  pose proof (forallb_seqZ _ _ _ H whole ltac:(lia)) as H1; cbv beta in H1.
  pose proof (forallb_seqZ _ _ _ H1 frac ltac:(lia)) as H2; cbv beta in H2.
  rewrite forallb_forall in H2.
  assert (In hasPlus [false; true]) as Hin by (destruct hasPlus; simpl; auto).
  apply H2 in Hin. cbv zeta in Hin.
  apply andb_true_iff in Hin as [Hin Hdec]. apply andb_true_iff in Hin as [Hc Hlong].
  apply negb_true_iff in Hc. auto.
Qed.

Lemma catalog_ticker (ticker : string) :
  ticker ∈ GetTickers ->
  has_comma ticker = false /\ ticker <> "" /\
  exists product, GetProductMap !! ticker = Some product /\ GetTicker product = ticker.
Proof.
  unfold GetTickers. rewrite !elem_of_cons, elem_of_nil.
  intros [-> | [-> | [-> | [-> | [-> | [-> | [-> | []]]]]]]];
    (split; [reflexivity|]); (split; [discriminate|]);
    eexists; (split; [vm_compute; reflexivity | reflexivity]).
Qed.

Lemma generated_tokens (first : list string) (draws : list draw) :
  Forall (fun t => has_comma t = false /\ t <> "") first ->
  Forall in_range draws ->
  ParseCommaSepLine (join "," (first ++ (text_of_draw <$> draws)))
    = first ++ (text_of_draw <$> draws).
Proof.
  intros Hfirst Hdraws. apply ParseCommaSepLine_written.
  - apply Forall_app. split.
    + eapply Forall_impl; [exact Hfirst|]. now intros t [Ht _].
    + apply Forall_fmap. eapply Forall_impl; [exact Hdraws|].
      intros d Hd. now apply generated_text_facts.
  - intros Hlast. apply last_Some_elem_of, elem_of_app in Hlast as [Hin|Hin].
    + rewrite Forall_forall in Hfirst. now destruct (Hfirst _ Hin).
    + apply list_elem_of_fmap in Hin as (d & Hd & Hin).
      rewrite Forall_forall in Hdraws.
      destruct (generated_text_facts d (Hdraws _ Hin)) as (_ & Hlong & _).
      rewrite <- Hd in Hlong. discriminate.
Qed.

Lemma generated_decoded (draws : list draw) :
  Forall in_range draws ->
  exists px, decoded (text_of_draw <$> draws) px /\
             Forall2 (fun d p => (p =? decoded_value d)%float = true) draws px.
Proof.
  induction 1 as [|d draws Hd _ (px & Hdec & Hval)]; [exists []; split; constructor|].
  destruct (generated_text_facts d Hd) as (_ & Hlong & Hto).
  destruct (proj1 (ParsePriceFormat_reads (text_of_draw d))) as [p Hp].
  { now apply Nat.leb_le. }
  exists (p :: px). split.
  - now constructor.
  - constructor; [|exact Hval]. unfold decodes_to in Hto. now rewrite Hp in Hto.
Qed.

(** Every order book line of the generator's format is read.  For a
    catalog ticker and ten price texts W-XX or W-XX+ with W from 98 to 101
    and XX from 00 to 31, the market data adapter reads nothing out of
    bounds and hands the service one book on that instrument, built from
    ten prices; each price is the decoded value of its text, that is, the
    base 99 or 100 in place of the whole part and a fraction 3/16 or 9/256
    too low. *)
Theorem generated_book_line_is_read {St : Type}
        (ProcessOrderBook : ExecutionStage.OrderBook -> St -> outcome St)
        (ticker : string) (draws : list draw) (s : St) :
  ticker ∈ GetTickers ->
  length draws = 10%nat ->
  Forall in_range draws ->
  exists product px,
    GetProductMap !! ticker = Some product /\
    GetTicker product = ticker /\
    MrktDataConnector_line ProcessOrderBook
        (join "," (ticker :: (text_of_draw <$> draws))) s =
      ProcessOrderBook (book_of product px) s /\
    Forall2 (fun d p => (p =? decoded_value d)%float = true) draws px.
Proof.
  intros Hticker Hlen Hdraws.
  destruct (catalog_ticker ticker Hticker) as (Hc & Hne & product & Hproduct & Hname).
  destruct (generated_decoded draws Hdraws) as (px & Hdec & Hval).
  exists product, px. split; [exact Hproduct|]. split; [exact Hname|]. split; [|exact Hval].
  apply (MrktDataConnector_line_ten ProcessOrderBook _ s ticker (text_of_draw <$> draws)).
  - apply (generated_tokens [ticker] draws); [|exact Hdraws].
    constructor; [split; assumption | constructor].
  - exact Hproduct.
  - rewrite length_fmap. lia.
  - rewrite take_ge by (rewrite length_fmap; lia). exact Hdec.
Qed.

(** Every price line of the generator's format is read.  For a catalog
    ticker and two price texts as above, the pricing adapter hands the
    service one quote on that instrument whose mid and spread are computed
    from the decoded values of the two texts. *)
Theorem generated_price_line_is_read {St : Type}
        (OnMessage : GUIStage.Price -> St -> outcome (GUIStage.Price * St))
        (ticker : string) (bid_draw ask_draw : draw) (s : St) :
  ticker ∈ GetTickers ->
  in_range bid_draw ->
  in_range ask_draw ->
  exists product bid ask,
    GetProductMap !! ticker = Some product /\
    GetTicker product = ticker /\
    PricingConnector_line OnMessage
        (join "," [ticker; text_of_draw bid_draw; text_of_draw ask_draw]) s =
      ('(_, s') ← OnMessage (price_of product bid ask) s; Returns s') /\
    (bid =? decoded_value bid_draw)%float = true /\
    (ask =? decoded_value ask_draw)%float = true.
Proof.
  intros Hticker Hbid Hask.
  destruct (catalog_ticker ticker Hticker) as (Hc & Hne & product & Hproduct & Hname).
  assert (Forall in_range [bid_draw; ask_draw]) as Hdraws
    by (constructor; [exact Hbid|]; constructor; [exact Hask|]; constructor).
  destruct (generated_decoded [bid_draw; ask_draw] Hdraws) as (px & Hdec & Hval).
  unfold decoded in Hdec. cbn [fmap list_fmap] in Hdec.
  apply Forall2_cons_inv_l in Hdec as (bid & px1 & Hb & Hdec & ->).
  apply Forall2_cons_inv_l in Hdec as (ask & px2 & Ha & Hdec & ->).
  apply Forall2_nil_inv_l in Hdec as ->.
  apply Forall2_cons_1 in Hval as [Hvb Hval].
  apply Forall2_cons_1 in Hval as [Hva _].
  exists product, bid, ask. split; [exact Hproduct|]. split; [exact Hname|].
  split; [|split; assumption].
  apply (PricingConnector_line_known OnMessage _ s ticker (text_of_draw bid_draw)
           (text_of_draw ask_draw) [] product bid ask); try assumption.
  apply (generated_tokens [ticker] [bid_draw; ask_draw]); [|exact Hdraws].
  constructor; [split; assumption | constructor].
Qed.

End GeneratedLines.

(** A line for B10y whose ten texts are 98-05, 101-30+ and so on. *)
Lemma generated_book_line_is_read_witness :
  exists product px,
    GetProductMap !! "B10y" = Some product /\
    GetTicker product = "B10y" /\
    Connectors.MrktDataConnector_line (fun ob s => Returns (s ++ [ob]))
        (Terms.join ","
           ("B10y" :: (Terms.text_of_draw <$>
              [(98, 5, false); (101, 30, true); (99, 0, false); (100, 31, true);
               (98, 16, true); (99, 16, false); (100, 1, false); (101, 2, true);
               (99, 9, true); (100, 10, false)]))) [] =
      (fun ob s => Returns (s ++ [ob])) (Terms.book_of product px) [] /\
    Forall2 (fun d p => (p =? Terms.decoded_value d)%float = true)
      [(98, 5, false); (101, 30, true); (99, 0, false); (100, 31, true);
       (98, 16, true); (99, 16, false); (100, 1, false); (101, 2, true);
       (99, 9, true); (100, 10, false)] px.
Proof.
  apply (generated_book_line_is_read (fun ob s => Returns (s ++ [ob])) "B10y"
           [(98, 5, false); (101, 30, true); (99, 0, false); (100, 31, true);
            (98, 16, true); (99, 16, false); (100, 1, false); (101, 2, true);
            (99, 9, true); (100, 10, false)] []).
  - unfold GetTickers. rewrite !elem_of_cons. auto 10.
  - reflexivity.
  - repeat constructor; simpl; lia.
Defined.

(** The line B02y,98-16,99-20+. *)
Lemma generated_price_line_is_read_witness :
  exists product bid ask,
    GetProductMap !! "B02y" = Some product /\
    GetTicker product = "B02y" /\
    Connectors.PricingConnector_line recorder
        (Terms.join "," ["B02y"; Terms.text_of_draw (98, 16, false);
                         Terms.text_of_draw (99, 20, true)]) [] =
      ('(_, s') ← recorder (Terms.price_of product bid ask) []; Returns s') /\
    (bid =? Terms.decoded_value (98, 16, false)%Z)%float = true /\
    (ask =? Terms.decoded_value (99, 20, true)%Z)%float = true.
Proof.
  apply (generated_price_line_is_read recorder "B02y" (98, 16, false) (99, 20, true) []).
  - unfold GetTickers. rewrite !elem_of_cons. auto 10.
  - unfold Terms.in_range. simpl. lia.
  - unfold Terms.in_range. simpl. lia.
Defined.
